(** * serch.io: the RAG query backend ([webclient/search_backend.py])

    A shallow embedding of the search adapters ([search_with_serper],
    [search_with_searchapi]), of the related-questions generator and of the
    query handler of class [RAG], together with the properties the
    specification states about them.

    Python values that come out of [response.json()] are modelled by the
    inductive type [json]; a Python [dict] is an association list read from
    the front.  Code that may raise returns [result], whose [Err] carries the
    exception.  Library calls whose behaviour the repository does not define
    (the HTTP client, the completion client, the key-value store, [json.dumps]
    and [json.loads]) are variables of the sections below. *)

From Stdlib Require Import String Ascii List ZArith Lia Bool.
From Stdlib Require Import DecimalString DecimalNat.
From stdpp Require Import gmap strings.
Import ListNotations.
Local Open Scope string_scope.
Local Open Scope list_scope.
Set Warnings "-register-all".

(** ** Python values and exceptions *)

Module Py.

(** The exceptions the handler and the adapters can meet.  Every constructor
    is an instance of Python's [Exception] class. *)
Inductive exn : Type :=
| HTTPException (status_code : Z) (detail : string)
| KeyError (key : string)
| TypeError
| AttributeError
| IndexError
| JSONDecodeError
| ConnectionError
| Timeout
| RuntimeError (msg : string).

Inductive result (A : Type) : Type :=
| Ok (a : A)
| Err (e : exn).
Arguments Ok {A} a.
Arguments Err {A} e.

Definition bind {A B : Type} (m : result A) (k : A -> result B) : result B :=
  match m with
  | Ok a => k a
  | Err e => Err e
  end.

Declare Scope py_scope.
Delimit Scope py_scope with py.
Notation "x <- c1 ;; c2" := (bind c1 (fun x => c2))
  (at level 100, c1 at next level, right associativity) : py_scope.
Notation "c1 ;;; c2" := (bind c1 (fun _ => c2))
  (at level 100, right associativity) : py_scope.

(** A value decoded from JSON.  Numbers are the integers. *)
Inductive json : Type :=
| JNull
| JBool (b : bool)
| JNum (n : Z)
| JStr (s : string)
| JArr (l : list json)
| JObj (kv : list (string * json)).

(** Python truthiness: [None], [False], [0], the empty string, list and dict
    are false. *)
Definition truthy (v : json) : bool :=
  match v with
  | JNull => false
  | JBool b => b
  | JNum n => negb (n =? 0)%Z
  | JStr s => negb (String.eqb s "")
  | JArr l => match l with [] => false | _ => true end
  | JObj kv => match kv with [] => false | _ => true end
  end.

Fixpoint assoc (k : string) (kv : list (string * json)) : option json :=
  match kv with
  | [] => None
  | (k', v) :: rest => if String.eqb k k' then Some v else assoc k rest
  end.

(** [d.get(k, default)]: only a dict has the method. *)
Definition py_get (d : json) (k : string) (default : json) : result json :=
  match d with
  | JObj kv => Ok (match assoc k kv with Some v => v | None => default end)
  | _ => Err AttributeError
  end.

(** [d[k]] for a string key [k]. *)
Definition py_getitem (d : json) (k : string) : result json :=
  match d with
  | JObj kv => match assoc k kv with Some v => Ok v | None => Err (KeyError k) end
  | _ => Err TypeError
  end.

(** [a or b], where evaluating [b] may raise. *)
Definition py_or (a : json) (b : result json) : result json :=
  if truthy a then Ok a else b.

Fixpoint chars (s : string) : list json :=
  match s with
  | EmptyString => []
  | String c rest => JStr (String c EmptyString) :: chars rest
  end.

(** [iter(v)] run to the end: a list gives its items, a dict its keys, a
    string its characters; anything else is not iterable. *)
Definition py_iter (v : json) : result (list json) :=
  match v with
  | JArr l => Ok l
  | JObj kv => Ok (map (fun p => JStr (fst p)) kv)
  | JStr s => Ok (chars s)
  | _ => Err TypeError
  end.

(** A comprehension [[f c for c in l]]: the first exception stops it. *)
Fixpoint mapM {A B : Type} (f : A -> result B) (l : list A) : result (list B) :=
  match l with
  | [] => Ok []
  | x :: rest =>
      match f x with
      | Ok y => match mapM f rest with Ok ys => Ok (y :: ys) | Err e => Err e end
      | Err e => Err e
      end
  end.

Definition json_eqb_str (v : json) (s : string) : bool :=
  match v with
  | JStr s' => String.eqb s' s
  | _ => false
  end.

End Py.
Import Py.
Local Open Scope py_scope.

(** ** Contexts *)

(** A search context, the dict [{"name": .., "url": .., "snippet": ..}]. *)
Record context : Type := mkContext {
  name : json;
  url : json;
  snippet : json
}.

Definition REFERENCES_COUNT : nat := 4.
Definition DEFAULT_SEARCH_ENGINE_TIMEOUT : Z := 5.
Definition SERPER_SEARCH_ENDPOINT : string := "https://google.serper.dev/search".
Definition SEARCHAPI_SEARCH_ENDPOINT : string := "https://www.searchapi.io/api/v1/search".

(** The [num] field of both payloads. *)
Definition payload_num : nat :=
  if Nat.eqb (REFERENCES_COUNT mod 10) 0
  then REFERENCES_COUNT
  else (REFERENCES_COUNT / 10 + 1) * 10.

Record http_request : Type := mkRequest {
  endpoint : string;
  api_key : string;
  q : string;
  num : nat;
  timeout : Z
}.

(** What [requests] hands back: [json_body] is [None] when the body is not
    JSON, in which case [response.json()] raises. *)
Record http_response : Type := mkResponse {
  ok : bool;
  status_code : Z;
  text : string;
  json_body : option json
}.

Definition response_json (r : http_response) : result json :=
  match json_body r with
  | Some j => Ok j
  | None => Err JSONDecodeError
  end.

(** [try: body except KeyError: handler]. *)
Definition except_KeyError {A : Type} (body : result A) (handler : result A) : result A :=
  match body with
  | Err (KeyError _) => handler
  | r => r
  end.

(** ** search_with_serper *)

Module Serper.

Definition knowledge_graph (content : json) : result (list context) :=
  kg <- py_get content "knowledgeGraph" JNull ;;
  if truthy kg then
    kg1 <- py_getitem content "knowledgeGraph" ;;
    u1 <- py_get kg1 "descriptionUrl" JNull ;;
    url <- py_or u1 (kg2 <- py_getitem content "knowledgeGraph" ;;
                     py_get kg2 "website" JNull) ;;
    kg3 <- py_getitem content "knowledgeGraph" ;;
    snippet <- py_get kg3 "description" JNull ;;
    if truthy url && truthy snippet then
      kg4 <- py_getitem content "knowledgeGraph" ;;
      title <- py_get kg4 "title" (JStr "") ;;
      Ok [mkContext title url snippet]
    else Ok []
  else Ok [].

Definition answer_box (content : json) : result (list context) :=
  ab <- py_get content "answerBox" JNull ;;
  if truthy ab then
    ab1 <- py_getitem content "answerBox" ;;
    url <- py_get ab1 "url" JNull ;;
    ab2 <- py_getitem content "answerBox" ;;
    s1 <- py_get ab2 "snippet" JNull ;;
    snippet <- py_or s1 (ab3 <- py_getitem content "answerBox" ;;
                         py_get ab3 "answer" JNull) ;;
    if truthy url && truthy snippet then
      ab4 <- py_getitem content "answerBox" ;;
      title <- py_get ab4 "title" (JStr "") ;;
      Ok [mkContext title url snippet]
    else Ok []
  else Ok [].

(** [c.get]: the bound method of a dict. *)
Definition attr_get (c : json) : result unit :=
  match c with
  | JObj _ => Ok tt
  | _ => Err AttributeError
  end.

(** One item of the comprehension over [content["organic"]].  The source
    subscripts the method, [c.get["snippet", ""]], which raises [TypeError]
    once [c["title"]] and [c["link"]] have been read. *)
Definition organic_entry (c : json) : result context :=
  title <- py_getitem c "title" ;;
  link <- py_getitem c "link" ;;
  attr_get c ;;;
  Err TypeError.

Definition parse (content : json) : result (list context) :=
  c1 <- knowledge_graph content ;;
  c2 <- answer_box content ;;
  organic <- py_getitem content "organic" ;;
  items <- py_iter organic ;;
  c3 <- mapM organic_entry items ;;
  Ok (firstn REFERENCES_COUNT ((c1 ++ c2) ++ c3)).

End Serper.

(** The request [search_with_serper] posts. *)
Definition serper_request (query key : string) : http_request :=
  mkRequest SERPER_SEARCH_ENDPOINT key query payload_num
    DEFAULT_SEARCH_ENGINE_TIMEOUT.

Section SerperCall.

(** The HTTP client; [Err] is a transport-level failure. *)
Variable requests_post : http_request -> result http_response.

Definition serper_response (response : http_response) : result (list context) :=
  if negb (ok response) then
    Err (HTTPException (status_code response) "search engine error.")
  else
    content <- response_json response ;;
    except_KeyError (Serper.parse content) (Ok []).

Definition search_with_serper (query key : string) : result (list context) :=
  response <- requests_post (serper_request query key) ;;
  serper_response response.

End SerperCall.

(** ** search_with_searchapi *)

(** What a Python function hands back when it may fall off its end. *)
Inductive pyret : Type :=
| RNone
| RList (contexts : list context).

Module SearchApi.

Definition answer_box (json_content : json) : result (list context) :=
  ab <- py_get json_content "answer_box" JNull ;;
  if truthy ab then
    ab1 <- py_getitem json_content "answer_box" ;;
    orr <- py_get ab1 "organic_result" JNull ;;
    (if truthy orr then
       ab2 <- py_getitem json_content "answer_box" ;;
       or1 <- py_get ab2 "organic_result" JNull ;;
       title <- py_get or1 "title" (JStr "") ;;
       ab3 <- py_getitem json_content "answer_box" ;;
       or2 <- py_get ab3 "organic_result" JNull ;;
       url <- py_get or2 "link" (JStr "") ;;
       Ok tt
     else Ok tt) ;;;
    ab4 <- py_getitem json_content "answer_box" ;;
    ty <- py_get ab4 "type" JNull ;;
    (if json_eqb_str ty "population_graph" then
       ab5 <- py_getitem json_content "answer_box" ;;
       title <- py_get ab5 "place" (JStr "") ;;
       ab6 <- py_getitem json_content "answer_box" ;;
       url <- py_get ab6 "explore_more_link" (JStr "") ;;
       Ok tt
     else Ok tt) ;;;
    ab7 <- py_getitem json_content "answer_box" ;;
    title <- py_get ab7 "title" (JStr "") ;;
    ab8 <- py_getitem json_content "answer_box" ;;
    url <- py_get ab8 "link" JNull ;;
    ab9 <- py_getitem json_content "answer_box" ;;
    a1 <- py_get ab9 "answer" JNull ;;
    snippet <- py_or a1 (ab10 <- py_getitem json_content "answer_box" ;;
                         py_get ab10 "snippet" JNull) ;;
    if truthy url && truthy snippet then Ok [mkContext title url snippet]
    else Ok []
  else Ok [].

Definition knowledge_graph (json_content : json) : result (list context) :=
  kg <- py_get json_content "knowledge_graph" JNull ;;
  if truthy kg then
    kg1 <- py_getitem json_content "knowledge_graph" ;;
    src <- py_get kg1 "source" JNull ;;
    (if truthy src then
       kg2 <- py_getitem json_content "knowledge_graph" ;;
       src2 <- py_get kg2 "source" JNull ;;
       url <- py_get src2 "link" (JStr "") ;;
       Ok tt
     else Ok tt) ;;;
    kg3 <- py_getitem json_content "knowledge_graph" ;;
    url <- py_get kg3 "website" (JStr "") ;;
    kg4 <- py_getitem json_content "knowledge_graph" ;;
    snippet <- py_get kg4 "description" JNull ;;
    if truthy url && truthy snippet then
      kg5 <- py_getitem json_content "knowledge_graph" ;;
      title <- py_get kg5 "title" (JStr "") ;;
      Ok [mkContext title url snippet]
    else Ok []
  else Ok [].

Definition organic_entry (c : json) : result context :=
  title <- py_getitem c "title" ;;
  link <- py_getitem c "link" ;;
  snippet <- py_get c "snippet" (JStr "") ;;
  Ok (mkContext title link snippet).

(** One turn of the loop over [json_content["related_questions"]]. *)
Definition related_entry (question : json) : result (list context) :=
  src <- py_get question "source" JNull ;;
  url <- (if truthy src then
            src2 <- py_get question "source" JNull ;;
            py_get src2 "link" (JStr "")
          else Ok (JStr "")) ;;
  snippet <- py_get question "answer" (JStr "") ;;
  if truthy url && truthy snippet then
    title <- py_get question "question" (JStr "") ;;
    Ok [mkContext title url snippet]
  else Ok [].

(** The body of the [try].  The [return contexts[:REFERENCES_COUNT]] sits
    inside [if json_content.get("related_questions"):], so without related
    questions control leaves the [try] and the function returns [None]. *)
Definition parse (json_content : json) : result pyret :=
  c1 <- answer_box json_content ;;
  c2 <- knowledge_graph json_content ;;
  organic <- py_getitem json_content "organic_results" ;;
  items <- py_iter organic ;;
  c3 <- mapM organic_entry items ;;
  rq <- py_get json_content "related_questions" JNull ;;
  if truthy rq then
    rq1 <- py_getitem json_content "related_questions" ;;
    questions <- py_iter rq1 ;;
    c4 <- mapM related_entry questions ;;
    Ok (RList (firstn REFERENCES_COUNT (((c1 ++ c2) ++ c3) ++ concat c4)))
  else Ok RNone.

End SearchApi.

(** The request [search_with_searchapi] sends. *)
Definition searchapi_request (query key : string) : http_request :=
  mkRequest SEARCHAPI_SEARCH_ENDPOINT key query payload_num 30.

Section SearchApiCall.

Variable requests_get : http_request -> result http_response.

Definition searchapi_response (response : http_response) : result pyret :=
  if negb (ok response) then
    Err (HTTPException (status_code response) "Search engine error.")
  else
    json_content <- response_json response ;;
    except_KeyError (SearchApi.parse json_content) (Ok (RList [])).

Definition search_with_searchapi (query key : string) : result pyret :=
  response <- requests_get (searchapi_request query key) ;;
  searchapi_response response.

End SearchApiCall.

(** ** Prompt texts *)

Definition nl : string := String (ascii_of_nat 10) EmptyString.
Definition dq : string := String (ascii_of_nat 34) EmptyString.

Definition def_query : string :=
  "Which character on the show 'The Big Bang Theory' idolizes Spock the most?".

(** The text of [_rag_query_text] before and after its [{context}] field. *)
Definition rag_query_head : string :=
  (nl ++
  "You are a large language AI assistant. You are given a user question, and please write clean, concise and accurate answer to the question. You will be given a set of related contexts to the question, each starting with a reference number like [[citation:x]], where x is a number. Please use the context and cite the context at the end of each sentence if applicable."
  ++ nl ++ nl ++
  "Your answer must be correct, accurate and written by an expert using an unbiased and professional tone. Please limit to 1024 tokens. Do not give any information that is not related to the question, and do not repeat. Say "
  ++ dq ++ "information is missing on" ++ dq ++
  " followed by the related topic, if the given context do not provide sufficient information."
  ++ nl ++ nl ++
  "Please cite the contexts with the reference numbers, in the format [citation:x]. If a sentence comes from multiple contexts, please list all applicable citations, like [citation:3][citation:5]. Other than code and specific names and citations, your answer must be written in the same language as the question."
  ++ nl ++ nl ++
  "Here are the set of contexts:"
  ++ nl ++ nl)%string.

Definition rag_query_tail : string :=
  (nl ++ nl ++
  "Remember, don't blindly repeat the contexts verbatim. And here is the user question:"
  ++ nl)%string.

Definition _rag_query_text : string :=
  (rag_query_head ++ "{context}" ++ rag_query_tail)%string.

Definition more_questions_head : string :=
  (nl ++
  "You are a helpful assistant that helps the user to ask related questions, based on user's original question and the related contexts. Please identify worthwhile topics that can be follow-ups, and write questions no longer than 20 words each. Please make sure that specifics, like events, names, locations, are included in follow up questions so they can be asked standalone. For example, if the original question asks about "
  ++ dq ++ "the Manhattan project" ++ dq ++
  ", in the follow up question, do not just say "
  ++ dq ++ "the project" ++ dq ++ ", but use the full name "
  ++ dq ++ "the Manhattan project" ++ dq ++
  ". Your related questions must be in the same language as the original question."
  ++ nl ++ nl ++
  "Here are the contexts of the question:"
  ++ nl ++ nl)%string.

Definition more_questions_tail : string :=
  (nl ++ nl ++
  "Remember, based on the original question and related contexts, suggest three such further questions. Do NOT repeat the original question. Each related question should be no longer than 20 words. Here is the original question:"
  ++ nl)%string.

Definition _more_questions_prompt : string :=
  (more_questions_head ++ "{context}" ++ more_questions_tail)%string.

Definition stop_words : list string :=
  [ "<|im_end|>"; "[End]"; "[end]";
    (nl ++ "References:" ++ nl)%string; (nl ++ "Sources:" ++ nl)%string; "End." ].

Definition LLM_RESPONSE_SENTINEL : string :=
  (nl ++ "___LLM_RESPONSE___" ++ nl)%string.
Definition RELATED_QUESTIONS_SENTINEL : string :=
  (nl ++ nl ++ "__RELATED_QUESTIONS__" ++ nl ++ nl)%string.
Definition NO_CONTEXT_NOTICE : string :=
  "Could not get the context as the search engine did not return any answer for this query.".

(** [template.format(context=value)]: every [{context}] field of the template
    is replaced by the value, the rest is copied.  [skip] counts the
    characters of a field still to pass over. *)
Fixpoint format_from (skip : nat) (template value : string) : string :=
  match template with
  | EmptyString => EmptyString
  | String c rest =>
      match skip with
      | S k => format_from k rest value
      | O =>
          if String.prefix "{context}" template
          then (value ++ format_from 8 rest value)%string
          else String c (format_from 0 rest value)
      end
  end.

Definition format (template value : string) : string :=
  format_from 0 template value.

(** [re.sub(r"\[/?INST\]", "", query)]: one pass from the left that drops
    every [[INST]] and [[/INST]]. *)
Fixpoint re_sub_INST_from (skip : nat) (query : string) : string :=
  match query with
  | EmptyString => EmptyString
  | String c rest =>
      match skip with
      | S k => re_sub_INST_from k rest
      | O =>
          if String.prefix "[INST]" query then re_sub_INST_from 5 rest
          else if String.prefix "[/INST]" query then re_sub_INST_from 6 rest
          else String c (re_sub_INST_from 0 rest)
      end
  end.

Definition re_sub_INST (query : string) : string := re_sub_INST_from 0 query.

(** [sep.join(items)]. *)
Definition join (sep : string) (items : list string) : string :=
  String.concat sep items.

(** The decimal text of [i + 1] in an f-string. *)
Definition decimal (n : nat) : string :=
  NilEmpty.string_of_uint (Nat.to_uint n).

Definition citation_marker (k : nat) : string :=
  ("[[citation:" ++ decimal k ++ "]]")%string.

(** [enumerate(l)]. *)
Fixpoint enumerate_from {A : Type} (i : nat) (l : list A) : list (nat * A) :=
  match l with
  | [] => []
  | x :: rest => (i, x) :: enumerate_from (S i) rest
  end.

Definition enumerate {A : Type} (l : list A) : list (nat * A) :=
  enumerate_from 0 l.

(** ** The completion provider's answers *)

(** A streamed chunk: [chunk.choices[0].delta.content] may be [None]. *)
Record delta_choice : Type := mkChoice { delta_content : option string }.
Record chunk : Type := mkChunk { choices : list delta_choice }.

(** The lazy sequence the streaming call returns: its chunks, and the
    exception iterating it ends with, if any. *)
Record llm_stream : Type := mkStream {
  stream_chunks : list chunk;
  stream_fault : option exn
}.

(** The answer of the tool-calling request:
    [response.choices[i].message.tool_calls[j].function.arguments].  A Python
    [str] argument payload is [JStr]. *)
Record tool_call : Type := mkToolCall { arguments : json }.
Record message : Type := mkMessage { tool_calls : option (list tool_call) }.
Record chat_completion : Type := mkCompletion { message_choices : list message }.

(** [l[0]]. *)
Definition index0 {A : Type} (l : list A) : result A :=
  match l with
  | x :: _ => Ok x
  | [] => Err IndexError
  end.

(** [v[:5]]: lists and strings can be sliced. *)
Definition slice5 (v : json) : result json :=
  match v with
  | JArr l => Ok (JArr (firstn 5 l))
  | JStr s => Ok (JStr (String.substring 0 5 s))
  | _ => Err TypeError
  end.

(** [len(v)] of a sequence. *)
Definition py_len (v : json) : nat :=
  match v with
  | JArr l => List.length l
  | JStr s => String.length s
  | JObj kv => List.length kv
  | _ => 0
  end.

(** [try: body except Exception: handler]; every [exn] is an [Exception]. *)
Definition except_Exception {A : Type} (body : result A) (handler : exn -> result A)
  : result A :=
  match body with
  | Ok a => Ok a
  | Err e => handler e
  end.

(** ** The service object *)

Inductive Backend : Type := LEPTON | SERPER | SEARCHAPI.

(** [self] after [init], with the behaviour of its collaborators while one
    request is served. *)
Record RAG : Type := mkRAG {
  backend : Backend;
  should_do_related_questions : bool;
  (** [self.search_function(query)] *)
  search_function : string -> result pyret;
  (** [self.leptonsearch_client.response(query, search_uuid, generate_related_questions)] *)
  leptonsearch_client_response : string -> string -> option bool -> result (list string);
  (** [self.local_client()] *)
  local_client : result unit;
  (** [client.chat.completions.create(.., stream=True)] on a system prompt and a query *)
  chat_completions_create_stream : string -> string -> result llm_stream;
  (** [client.chat.completions.create(.., tools=..)] on a system prompt and a query *)
  chat_completions_create_tools : string -> string -> result chat_completion;
  (** [self.executor.submit(self.get_related_questions, ..)] accepts the task or raises *)
  executor_submit : result unit;
  (** [self.kv.get] fails with this exception, whatever is stored *)
  kv_get_fault : string -> option exn;
  (** the background [self.kv.put] fails with this exception *)
  kv_put_fault : string -> option exn
}.

(** Calls to the collaborators, oldest first. *)
Inductive event : Type :=
| KvGet (key : string)
| LeptonSearch (query search_uuid : string)
| Search (query : string)
| CompletionStream (system_prompt query : string)
| RelatedSubmit (query : string) (contexts : list context)
| KvPut (key value : string).

Record world : Type := mkWorld {
  kv : gmap string string;
  trace : list event
}.

Definition record (w : world) (e : event) : world :=
  mkWorld (kv w) (trace w ++ [e]).

(** [self.kv.get(key)] *)
Definition kv_get (self : RAG) (w : world) (key : string) : result string :=
  match kv_get_fault self key with
  | Some e => Err e
  | None =>
      match kv w !! key with
      | Some v => Ok v
      | None => Err (KeyError key)
      end
  end.

(** [self.executor.submit(self.kv.put, key, value)]: the task is submitted;
    when the store fails the exception stays in the discarded future. *)
Definition submit_kv_put (self : RAG) (w : world) (key value : string) : world :=
  let w' := record w (KvPut key value) in
  match kv_put_fault self key with
  | Some _ => w'
  | None => mkWorld (<[key := value]> (kv w')) (trace w')
  end.

Section Handler.

(** [json.dumps], [json.loads] and [repr] are the Python library's. *)
Variable json_dumps : json -> string.
Variable json_loads : string -> result json.
Variable py_repr : json -> string.

(** [str(v)], as an f-string field prints it. *)
Definition py_str (v : json) : string :=
  match v with
  | JStr s => s
  | _ => py_repr v
  end.

Definition context_json (c : context) : json :=
  JObj [("name", name c); ("url", url c); ("snippet", snippet c)].

Definition contexts_json (contexts : list context) : json :=
  JArr (map context_json contexts).

(** [sep.join(items)] raises [TypeError] on an item that is not a [str]. *)
Definition join_values (sep : string) (items : list json) : result string :=
  strs <- mapM (fun v => match v with JStr s => Ok s | _ => Err TypeError end) items ;;
  Ok (join sep strs).

(** *** get_related_questions *)

Definition related_questions_body (self : RAG) (query : string)
    (contexts : list context) : result json :=
  local_client self ;;;
  context_text <- join_values (nl ++ nl)%string (map snippet contexts) ;;
  response <- chat_completions_create_tools self
                (format _more_questions_prompt context_text) query ;;
  choice0 <- index0 (message_choices response) ;;
  calls <- match tool_calls choice0 with
           | Some calls => Ok calls
           | None => Err TypeError
           end ;;
  call0 <- index0 calls ;;
  related <- match arguments call0 with
             | JStr s => json_loads s
             | v => Ok v
             end ;;
  questions <- py_getitem related "questions" ;;
  slice5 questions.

Definition get_related_questions (self : RAG) (query : string)
    (contexts : list context) : result json :=
  except_Exception (related_questions_body self query contexts)
    (fun _ => Ok (JArr [])).

(** *** _raw_stream_response and stream_and_upload_to_kv *)

(** The chunks of the completion loop: a chunk without choices yields
    nothing, [content or ""] otherwise. *)
Definition chunk_text (c : chunk) : list string :=
  match choices c with
  | [] => []
  | c0 :: _ =>
      match delta_content c0 with
      | Some s => [s]
      | None => [""]
      end
  end.

Definition contexts_segment (contexts : list context) : list string :=
  [json_dumps (contexts_json contexts); LLM_RESPONSE_SENTINEL]
  ++ (match contexts with [] => [NO_CONTEXT_NOTICE] | _ => [] end).

Definition completion_segment (llm_response : llm_stream) : list string :=
  flat_map chunk_text (stream_chunks llm_response).

(** What a generator did when driven to its end: the chunks it yielded, in
    order, and the exception that ended it, if one did. *)
Definition run : Type := (list string * option exn)%type.

(** A future holds what its task returned or raised. *)
Definition future : Type := result json.

(** The generator driven to its end.  [future.result()] is read before the
    sentinel is yielded, so a future that raised ends the stream without it.
    [json_dumps] is total on [json], hence the [except] around
    [json.dumps(related_questions)], which would yield [[]], is never
    entered. *)
Definition _raw_stream_response (contexts : list context)
    (llm_response : llm_stream) (related_questions_future : option future) : run :=
  let head := contexts_segment contexts ++ completion_segment llm_response in
  match stream_fault llm_response with
  | Some e => (head, Some e)
  | None =>
      match related_questions_future with
      | None => (head, None)
      | Some (Err e) => (head, Some e)
      | Some (Ok related_questions) =>
          (head ++ [RELATED_QUESTIONS_SENTINEL; json_dumps related_questions], None)
      end
  end.

(** The generator objects a [StreamingResponse] is built on. *)
Inductive generator : Type :=
| StrToGenerator (result : string)
| StreamAndUpload (contexts : list context) (llm_response : llm_stream)
    (related_questions_future : option future) (search_uuid : string)
| LeptonStream (chunks : list string).

(** The loop of [stream_and_upload_to_kv] over the chunks of the inner
    generator: each is appended to [all_yielded_responses] and yielded. *)
Fixpoint relay (inner all_yielded_responses yielded : list string)
  : list string * list string :=
  match inner with
  | [] => (all_yielded_responses, yielded)
  | result :: rest =>
      relay rest (all_yielded_responses ++ [result]) (yielded ++ [result])
  end.

(** The [put] is submitted after the loop, so only when the inner generator
    ended without raising. *)
Definition stream_and_upload_to_kv (self : RAG) (w : world)
    (contexts : list context) (llm_response : llm_stream)
    (related_questions_future : option future) (search_uuid : string)
  : run * world :=
  let '(inner, raised) :=
    _raw_stream_response contexts llm_response related_questions_future in
  let '(all_yielded_responses, yielded) := relay inner [] [] in
  match raised with
  | Some e => ((yielded, Some e), w)
  | None =>
      ((yielded, None),
       submit_kv_put self w search_uuid (join "" all_yielded_responses))
  end.

(** Driving a response body to its end. *)
Definition consume (self : RAG) (w : world) (g : generator) : run * world :=
  match g with
  | StrToGenerator result => (([result], None), w)
  | StreamAndUpload contexts llm_response fut search_uuid =>
      stream_and_upload_to_kv self w contexts llm_response fut search_uuid
  | LeptonStream chunks => ((chunks, None), w)
  end.

(** *** query_function *)

Inductive http_reply : Type :=
| StreamingResponse (content : generator) (media_type : option string)
| HTMLResponse (body : string) (status : Z).

Definition citation_entry (p : nat * context) : string :=
  (citation_marker (fst p + 1) ++ " " ++ py_str (snippet (snd p)))%string.

(** The system prompt built from a list of contexts. *)
Definition system_prompt (contexts : list context) : string :=
  format _rag_query_text
    (join (nl ++ nl)%string (map citation_entry (enumerate contexts))).

(** [enumerate(contexts)] raises [TypeError] on [None]. *)
Definition system_prompt_of (contexts : pyret) : result string :=
  match contexts with
  | RNone => Err TypeError
  | RList l => Ok (system_prompt l)
  end.

Definition contexts_list (contexts : pyret) : list context :=
  match contexts with
  | RNone => []
  | RList l => l
  end.

Definition flag (b : option bool) : bool :=
  match b with
  | Some true => true
  | _ => false
  end.

(** The [try] block of the handler: the completion call, then the submission
    of the related-questions task. *)
Definition start_completion (self : RAG) (w : world) (system_prompt query : string)
    (contexts : list context) (generate_related_questions : option bool)
  : result (llm_stream * option future) * world :=
  match local_client self with
  | Err e => (Err e, w)
  | Ok _ =>
      let w1 := record w (CompletionStream system_prompt query) in
      match chat_completions_create_stream self system_prompt query with
      | Err e => (Err e, w1)
      | Ok llm_response =>
          if should_do_related_questions self && flag generate_related_questions then
            let w2 := record w1 (RelatedSubmit query contexts) in
            match executor_submit self with
            | Err e => (Err e, w2)
            | Ok _ =>
                (Ok (llm_response, Some (get_related_questions self query contexts)), w2)
            end
          else (Ok (llm_response, None), w1)
      end
  end.

(** The handler from the backend test on: the request is answered live. *)
Definition live_generation (self : RAG) (w : world) (query search_uuid : string)
    (generate_related_questions : option bool) : result http_reply * world :=
  match backend self with
  | LEPTON =>
      let w1 := record w (LeptonSearch query search_uuid) in
      match leptonsearch_client_response self query search_uuid
              generate_related_questions with
      | Err e => (Err e, w1)
      | Ok chunks => (Ok (StreamingResponse (LeptonStream chunks) (Some "text\html")), w1)
      end
  | _ =>
      let query := if String.eqb query "" then def_query else query in
      let query := re_sub_INST query in
      let w1 := record w (Search query) in
      match search_function self query with
      | Err e => (Err e, w1)
      | Ok contexts =>
          match system_prompt_of contexts with
          | Err e => (Err e, w1)
          | Ok system_prompt =>
              match start_completion self w1 system_prompt query
                      (contexts_list contexts) generate_related_questions with
              | (Err _, w2) => (Ok (HTMLResponse "Internal Server Error." 503), w2)
              | (Ok (llm_response, related_questions_future), w2) =>
                  (Ok (StreamingResponse
                         (StreamAndUpload (contexts_list contexts) llm_response
                            related_questions_future search_uuid)
                         (Some "text/html")), w2)
              end
          end
      end
  end.

(** [if search_uuid:] *)
Definition provided (search_uuid : option string) : option string :=
  match search_uuid with
  | Some s => if String.eqb s "" then None else Some s
  | None => None
  end.

Definition query_function (self : RAG) (w : world) (query : string)
    (search_uuid : option string) (generate_related_questions : option bool)
  : result http_reply * world :=
  match provided search_uuid with
  | Some uuid =>
      let w1 := record w (KvGet uuid) in
      match kv_get self w uuid with
      | Ok result => (Ok (StreamingResponse (StrToGenerator result) None), w1)
      | Err (KeyError _) =>
          live_generation self w1 query uuid generate_related_questions
      | Err _ =>
          live_generation self w1 query uuid generate_related_questions
      end
  | None => (Err (HTTPException 400 "search_uuid must be provided."), w)
  end.

(** *** Notions the properties are stated with *)

(** The query the providers see. *)
Definition normalize (query : string) : string :=
  re_sub_INST (if String.eqb query "" then def_query else query).

(** The future the handler passes on, by the two flags. *)
Definition related_future (self : RAG) (query : string) (contexts : list context)
    (generate_related_questions : option bool) : option future :=
  if should_do_related_questions self && flag generate_related_questions
  then Some (get_related_questions self query contexts)
  else None.

Definition setup_events (self : RAG) (query : string) (contexts : list context)
    (generate_related_questions : option bool) : list event :=
  CompletionStream (system_prompt contexts) query ::
  (if should_do_related_questions self && flag generate_related_questions
   then [RelatedSubmit query contexts] else []).

(** The tail of the envelope: the sentinel and the JSON of the questions. *)
Definition related_segment (fut : option future) : list string :=
  match fut with
  | Some (Ok related_questions) =>
      [RELATED_QUESTIONS_SENTINEL; json_dumps related_questions]
  | _ => []
  end.

(** The same service with another failure mode of the store's [get]. *)
Definition with_kv_get_fault (self : RAG) (f : string -> option exn) : RAG :=
  mkRAG (backend self) (should_do_related_questions self) (search_function self)
    (leptonsearch_client_response self) (local_client self)
    (chat_completions_create_stream self) (chat_completions_create_tools self)
    (executor_submit self) f (kv_put_fault self).

(** No call to the store's [put] among the events. *)
Definition is_KvPut (e : event) : bool :=
  match e with
  | KvPut _ _ => true
  | _ => false
  end.

End Handler.

Arguments get_related_questions json_loads self query contexts : assert.
Arguments related_questions_body json_loads self query contexts : assert.

Fixpoint no_brace (s : string) : bool :=
  match s with
  | EmptyString => true
  | String c rest => negb (Ascii.eqb c "{") && no_brace rest
  end.

(** [needle in hay] *)
Fixpoint occurs (needle hay : string) : bool :=
  String.prefix needle hay
  || match hay with
     | EmptyString => false
     | String _ rest => occurs needle rest
     end.

(** *** Citation markers in a text *)

(** [s] without the leading [p], when [s] starts with [p]. *)
Fixpoint strip_prefix (p s : string) : option string :=
  match p with
  | EmptyString => Some s
  | String a p' =>
      match s with
      | EmptyString => None
      | String b s' => if Ascii.eqb a b then strip_prefix p' s' else None
      end
  end.

Definition is_digit (c : ascii) : bool :=
  (48 <=? nat_of_ascii c)%nat && (nat_of_ascii c <=? 57)%nat.

(** The longest run of decimal digits at the start of [s], and the rest. *)
Fixpoint span_digits (s : string) : string * string :=
  match s with
  | EmptyString => (EmptyString, EmptyString)
  | String c rest =>
      if is_digit c
      then let (digits, r) := span_digits rest in (String c digits, r)
      else (EmptyString, s)
  end.

(** The number of the tag that starts [s]: the opening text, one or more
    decimal digits, the closing text. *)
Definition tag_at (opening closing s : string) : option nat :=
  match strip_prefix opening s with
  | None => None
  | Some t =>
      let (digits, r) := span_digits t in
      match digits, strip_prefix closing r with
      | String _ _, Some _ =>
          match NilEmpty.uint_of_string digits with
          | Some u => Some (Nat.of_uint u)
          | None => None
          end
      | _, _ => None
      end
  end.

(** The numbers of the tags that occur in [s], from left to right. *)
Fixpoint tags (opening closing s : string) : list nat :=
  match s with
  | EmptyString => []
  | String c rest =>
      match tag_at opening closing (String c rest) with
      | Some k => k :: tags opening closing rest
      | None => tags opening closing rest
      end
  end.

(** The citation markers [[[citation:k]]] of a text. *)
Definition markers (s : string) : list nat := tags "[[citation:" "]]" s.

Fixpoint mem_char (c : ascii) (s : string) : bool :=
  match s with
  | EmptyString => false
  | String a rest => Ascii.eqb a c || mem_char c rest
  end.

(** A text that no tag can run into: empty, or starting with a character
    that is neither a digit nor a character of the tag's texts. *)
Definition starts_clean (opening closing b : string) : bool :=
  match b with
  | EmptyString => true
  | String c _ =>
      negb (is_digit c) && negb (mem_char c opening) && negb (mem_char c closing)
  end.

(** Only decimal digits in the text. *)
Fixpoint all_digits (s : string) : bool :=
  match s with
  | EmptyString => true
  | String c rest => is_digit c && all_digits rest
  end.

(** [d.get(k, default)] on the fields of a dict. *)
Definition get_default (fields : list (string * json)) (k : string) (default : json)
  : json :=
  match assoc k fields with
  | Some v => v
  | None => default
  end.

(** A dict, or a value the code's truth tests skip. *)
Definition dict_or_falsy (v : json) : bool :=
  match v with
  | JObj _ => true
  | _ => negb (truthy v)
  end.

(** ** Response bodies *)

Definition answers (body : json) : http_request -> result http_response :=
  fun _ => Ok (mkResponse true 200 "" (Some body)).

(** A Serper body with one organic result, and a SearchAPI body with one. *)
Definition serper_one_result : json :=
  JObj [("organic",
         JArr [JObj [("title", JStr "Spock");
                     ("link", JStr "https://example.org/spock");
                     ("snippet", JStr "Sheldon idolizes Spock.")]])].

Definition searchapi_one_result : json :=
  JObj [("organic_results",
         JArr [JObj [("title", JStr "Spock");
                     ("link", JStr "https://example.org/spock");
                     ("snippet", JStr "Sheldon idolizes Spock.")]])].

(** Bodies whose structured answer is a string where a dict is expected. *)
Definition serper_malformed : json :=
  JObj [("knowledgeGraph", JStr "Spock"); ("organic", JArr [])].

Definition searchapi_malformed : json :=
  JObj [("answer_box", JStr "Spock"); ("organic_results", JArr [])].

(** * A run of the service *)

(** ** The library functions on the texts of the run *)

Module Json.

Definition bs : string := String (ascii_of_nat 92) EmptyString.

Definition hex_digit (n : nat) : ascii :=
  ascii_of_nat (if Nat.ltb n 10 then 48 + n else 87 + n).

(** [json.dumps] escapes the quote, the backslash and whatever is not
    printable ASCII. *)
Definition escape_char (c : ascii) : string :=
  let n := nat_of_ascii c in
  (if Nat.eqb n 34 then bs ++ dq
   else if Nat.eqb n 92 then bs ++ bs
   else if Nat.eqb n 10 then bs ++ "n"
   else if Nat.eqb n 13 then bs ++ "r"
   else if Nat.eqb n 9 then bs ++ "t"
   else if Nat.eqb n 8 then bs ++ "b"
   else if Nat.eqb n 12 then bs ++ "f"
   else if Nat.ltb n 32 || Nat.ltb 126 n
        then bs ++ "u00" ++ String (hex_digit (n / 16))
                               (String (hex_digit (n mod 16)) EmptyString)
        else String c EmptyString)%string.

Fixpoint escape (s : string) : string :=
  match s with
  | EmptyString => EmptyString
  | String c rest => (escape_char c ++ escape rest)%string
  end.

Definition quoted (s : string) : string := (dq ++ escape s ++ dq)%string.

(** [json.dumps(v)] with the default separators, for strings of code points
    below 256. *)
Fixpoint dumps (v : json) : string :=
  match v with
  | JNull => "null"
  | JBool true => "true"
  | JBool false => "false"
  | JNum n => NilEmpty.string_of_int (Z.to_int n)
  | JStr s => quoted s
  | JArr l => ("[" ++ join ", " (map dumps l) ++ "]")%string
  | JObj kv =>
      ("{" ++ join ", " (map (fun p => let '(k, x) := p in
                                (quoted k ++ ": " ++ dumps x)%string) kv)
         ++ "}")%string
  end.

(** A decoder that knows the texts of a table: [json.loads] on them. *)
Fixpoint loads_of (table : list json) (s : string) : result json :=
  match table with
  | [] => Err JSONDecodeError
  | v :: rest => if String.eqb s (dumps v) then Ok v else loads_of rest s
  end.

Fixpoint has_code (n : nat) (s : string) : bool :=
  match s with
  | EmptyString => false
  | String c rest => Nat.eqb (nat_of_ascii c) n || has_code n rest
  end.

(** One character inside [repr] of a [str] delimited by [quote]: the
    delimiter and the backslash are escaped, tab, newline and return have
    their letters, and what Python does not take as printable is written
    as a backslash, the letter x and two hexadecimal digits. *)
Definition repr_char (quote : nat) (c : ascii) : string :=
  let n := nat_of_ascii c in
  (if Nat.eqb n quote || Nat.eqb n 92 then bs ++ String c EmptyString
   else if Nat.eqb n 9 then bs ++ "t"
   else if Nat.eqb n 10 then bs ++ "n"
   else if Nat.eqb n 13 then bs ++ "r"
   else if Nat.ltb n 32 || Nat.eqb n 127 || (Nat.leb 128 n && Nat.leb n 160)
           || Nat.eqb n 173
        then bs ++ "x" ++ String (hex_digit (n / 16))
                            (String (hex_digit (n mod 16)) EmptyString)
        else String c EmptyString)%string.

Fixpoint repr_chars (quote : nat) (s : string) : string :=
  match s with
  | EmptyString => EmptyString
  | String c rest => (repr_char quote c ++ repr_chars quote rest)%string
  end.

(** [repr] of a [str] of code points below 256: single quotes, or double
    quotes when the text has a single quote and no double quote. *)
Definition repr_str (s : string) : string :=
  let quote := if has_code 39 s && negb (has_code 34 s) then 34 else 39 in
  (String (ascii_of_nat quote) (repr_chars quote s)
   ++ String (ascii_of_nat quote) EmptyString)%string.

(** [repr(v)], which is what [str(v)] gives for everything but a [str]. *)
Fixpoint repr (v : json) : string :=
  match v with
  | JNull => "None"
  | JBool true => "True"
  | JBool false => "False"
  | JNum n => NilEmpty.string_of_int (Z.to_int n)
  | JStr s => repr_str s
  | JArr l => ("[" ++ join ", " (map repr l) ++ "]")%string
  | JObj kv =>
      ("{" ++ join ", " (map (fun p => let '(k, x) := p in
                                (repr_str k ++ ": " ++ repr x)%string) kv)
         ++ "}")%string
  end.

End Json.

(** ** The scenario of the specification *)

Module Scenario.

(** A SearchAPI body: an answer box, two organic results and a related
    question. *)
Definition body : json :=
  JObj [("answer_box",
         JObj [("title", JStr "Sheldon Cooper");
               ("link", JStr "https://example.org/sheldon");
               ("answer", JStr "Sheldon Cooper idolizes Spock.")]);
        ("organic_results",
         JArr [JObj [("title", JStr "Spock");
                     ("link", JStr "https://example.org/spock");
                     ("snippet", JStr "Spock is Sheldon's idol.")];
               JObj [("title", JStr "The Big Bang Theory");
                     ("link", JStr "https://example.org/tbbt")]]);
        ("related_questions",
         JArr [JObj [("question", JStr "Who plays Sheldon?");
                     ("answer", JStr "Jim Parsons.");
                     ("source", JObj [("link", JStr "https://example.org/jim")])]])].

Definition questions : json :=
  JObj [("questions", JArr [JStr "Who plays Sheldon Cooper?";
                            JStr "Who plays Spock in Star Trek?"])].

Definition answer : llm_stream :=
  mkStream [ mkChunk [mkChoice (Some "Sheldon Cooper")];
             mkChunk [];
             mkChunk [mkChoice None];
             mkChunk [mkChoice (Some " [citation:1]")] ] None.

(** A service on the SearchAPI backend whose collaborators all answer. *)
Definition self : RAG :=
  mkRAG SEARCHAPI true
    (fun query => search_with_searchapi (answers body) query "key")
    (fun _ _ _ => Err ConnectionError)
    (Ok tt)
    (fun _ _ => Ok answer)
    (fun _ _ => Ok (mkCompletion
                      [mkMessage (Some [mkToolCall (JStr (Json.dumps questions))])]))
    (Ok tt)
    (fun _ => None)
    (fun _ => None).

Definition loads : string -> result json := Json.loads_of [questions].

Definition start : world := mkWorld ∅ [].

Definition handle (s : RAG) (w : world) (query : string) (search_uuid : option string)
    (generate_related_questions : option bool) : result http_reply * world :=
  query_function loads Json.repr s w query search_uuid generate_related_questions.

(** What the search gives on [body]. *)
Definition contexts : list context :=
  [ mkContext (JStr "Sheldon Cooper") (JStr "https://example.org/sheldon")
      (JStr "Sheldon Cooper idolizes Spock.");
    mkContext (JStr "Spock") (JStr "https://example.org/spock")
      (JStr "Spock is Sheldon's idol.");
    mkContext (JStr "The Big Bang Theory") (JStr "https://example.org/tbbt")
      (JStr "");
    mkContext (JStr "Who plays Sheldon?") (JStr "https://example.org/jim")
      (JStr "Jim Parsons.") ].

(** The same service when the store cannot be reached. *)
Definition cache_down : RAG := with_kv_get_fault self (fun _ => Some Timeout).

(** The same service when the completion provider refuses the call. *)
Definition completion_down : RAG :=
  mkRAG SEARCHAPI true (search_function self) (leptonsearch_client_response self)
    (Ok tt) (fun _ _ => Err Timeout) (chat_completions_create_tools self)
    (Ok tt) (fun _ => None) (fun _ => None).

(** A body from which no context comes out: no organic result, and a
    related question without source. *)
Definition empty_body : json :=
  JObj [("organic_results", JArr []);
        ("related_questions", JArr [JObj [("question", JStr "Who plays Sheldon?")]])].

Definition no_results : RAG :=
  mkRAG SEARCHAPI true
    (fun query => search_with_searchapi (answers empty_body) query "key")
    (leptonsearch_client_response self) (Ok tt)
    (chat_completions_create_stream self) (chat_completions_create_tools self)
    (Ok tt) (fun _ => None) (fun _ => None).

(** The first request of the scenario, its stream driven to the end. *)
Definition first_stream : generator :=
  StreamAndUpload contexts answer
    (related_future loads self (normalize "") contexts (Some true)) "abc123".

Definition envelope : string :=
  join "" (fst (fst (consume Json.dumps self start first_stream))).

Definition cached : world :=
  snd (consume Json.dumps self
         (snd (handle self start "" (Some "abc123") (Some true))) first_stream).

End Scenario.

(** * Further notions *)

(** No opening bracket in the text. *)
Fixpoint no_bracket (s : string) : bool :=
  match s with
  | EmptyString => true
  | String c rest => negb (Ascii.eqb c "[") && no_bracket rest
  end.

(** A Serper body with a knowledge graph and no organic result. *)
Definition serper_graph_only : json :=
  JObj [("knowledgeGraph",
         JObj [("title", JStr "Spock");
               ("website", JStr "https://example.org/spock");
               ("description", JStr "A Vulcan.")]);
        ("organic", JArr [])].

(** The two lambdas [init] stores in [self.search_function]. *)
Definition serper_search_function
    (requests_post : http_request -> result http_response) (search_api_key : string)
    (query : string) : result pyret :=
  l <- search_with_serper requests_post query search_api_key ;;
  Ok (RList l).

Definition searchapi_search_function
    (requests_get : http_request -> result http_response) (search_api_key : string)
    (query : string) : result pyret :=
  search_with_searchapi requests_get query search_api_key.

(** ** init *)

(** [os.environ[k]] *)
Definition environ_getitem (environ : gmap string string) (k : string)
  : result string :=
  match environ !! k with
  | Some v => Ok v
  | None => Err (KeyError k)
  end.

(** Upper-casing of the letters a to z: Python's [str.upper] on a string of
    ASCII characters.  The examples use it on such strings; [init] below
    takes [str.upper] itself as an argument. *)
Definition ascii_upper_char (c : ascii) : ascii :=
  let n := nat_of_ascii c in
  if Nat.leb 97 n && Nat.leb n 122 then ascii_of_nat (n - 32) else c.

Fixpoint ascii_upper (s : string) : string :=
  match s with
  | EmptyString => EmptyString
  | String c rest => String (ascii_upper_char c) (ascii_upper rest)
  end.

(** What [init] calls outside the repository: the workspace login, the
    stored workspace token, the constructors of the Lepton client, of the
    thread pool and of the key-value store, and [to_bool]. *)
Record platform : Type := mkPlatform {
  login : result unit;
  get_current_workspace_token : result string;
  make_client : string -> string -> result unit;
  handler_max_concurrency : nat;
  make_executor : nat -> result unit;
  make_kv : string -> result unit;
  to_bool : string -> result bool
}.

(** The attributes [init] sets on [self]. *)
Record settings : Type := mkSettings {
  set_backend : Backend;
  set_search_api_key : option string;
  set_model : string;
  set_max_workers : nat;
  set_kv_name : string;
  set_should_do_related_questions : bool
}.

(** The branch on [self.backend]. *)
Definition init_backend (p : platform) (environ : gmap string string)
    (backend_name : string) : result (Backend * option string) :=
  if String.eqb backend_name "LEPTON" then
    token <- match environ !! "LEPTON_WORKSPACE_TOKEN" with
             | Some t => if String.eqb t "" then get_current_workspace_token p
                         else Ok t
             | None => get_current_workspace_token p
             end ;;
    make_client p "https://search-api.lepton.run/" token ;;;
    Ok (LEPTON, None)
  else if String.eqb backend_name "SERPER" then
    search_api_key <- environ_getitem environ "SERPER_API_KEY" ;;
    Ok (SERPER, Some search_api_key)
  else if String.eqb backend_name "SEARCHAPI" then
    search_api_key <- environ_getitem environ "SEARCHAPI_API_KEY" ;;
    Ok (SEARCHAPI, Some search_api_key)
  else Err (RuntimeError "Backend must be LEPTON, SERPER or SEARCHAPI.").

(** [str_upper] is Python's [str.upper]. *)
Definition init (str_upper : string -> string) (p : platform)
    (environ : gmap string string) : result settings :=
  login p ;;;
  name <- environ_getitem environ "BACKEND" ;;
  chosen <- init_backend p environ (str_upper name) ;;
  model <- environ_getitem environ "LLM_MODEL" ;;
  make_executor p (handler_max_concurrency p * 2) ;;;
  kv_name <- environ_getitem environ "KV_NAME" ;;
  make_kv p kv_name ;;;
  related <- environ_getitem environ "RELATED_QUESTIONS" ;;
  should_do <- to_bool p related ;;
  Ok (mkSettings (fst chosen) (snd chosen) model (handler_max_concurrency p * 2)
        kv_name should_do).

(** The names [deployment_template] gives: its environment and its secrets. *)
Definition template_env : list (string * string) :=
  [ ("BACKEND", "LEPTON"); ("GOOGLE_SEARCH_CX", ""); ("LLM_MODEL", "mixtral-8x7B");
    ("KV_NAME", "search-with-lepton"); ("RELATED_QUESTIONS", "true");
    ("LEPTON_ENABLE_AUTH_BY_COOKIE", "true") ].

Definition template_secret : list string :=
  [ "SERPER_SEARCH_API_KEY"; "SEARCHAPI_API_KEY"; "LEPTON_WORKSPACE_TOKEN" ].

Definition template_names : list string := map fst template_env ++ template_secret.

(** ** Deployments *)

Module Deploy.

(** A platform on which every outside call goes through. *)
Definition works : platform :=
  mkPlatform (Ok tt) (Ok "token") (fun _ _ => Ok tt) 4 (fun _ => Ok tt)
    (fun _ => Ok tt) (fun s => Ok (String.eqb (ascii_upper s) "TRUE")).

Definition serper : gmap string string :=
  list_to_map [ ("BACKEND", "serper"); ("SERPER_API_KEY", "key");
                ("LLM_MODEL", "mixtral-8x7B"); ("KV_NAME", "search-with-lepton");
                ("RELATED_QUESTIONS", "true") ].

Definition google : gmap string string :=
  list_to_map [ ("BACKEND", "google"); ("LLM_MODEL", "mixtral-8x7B");
                ("KV_NAME", "search-with-lepton"); ("RELATED_QUESTIONS", "true") ].

(** The template's environment with the backend switched to Serper and the
    template's Serper secret set. *)
Definition template_serper : gmap string string :=
  list_to_map [ ("BACKEND", "Serper"); ("GOOGLE_SEARCH_CX", "");
                ("LLM_MODEL", "mixtral-8x7B"); ("KV_NAME", "search-with-lepton");
                ("RELATED_QUESTIONS", "true");
                ("LEPTON_ENABLE_AUTH_BY_COOKIE", "true");
                ("SERPER_SEARCH_API_KEY", "key") ].

End Deploy.

(** ** Services that fail *)

Module Failing.

(** The scenario's service with another search function. *)
Definition with_search (b : Backend) (search : string -> result pyret) : RAG :=
  mkRAG b true search (leptonsearch_client_response Scenario.self) (Ok tt)
    (chat_completions_create_stream Scenario.self)
    (chat_completions_create_tools Scenario.self)
    (Ok tt) (fun _ => None) (fun _ => None).

(** The provider answers 503. *)
Definition search_down : RAG :=
  with_search SEARCHAPI
    (searchapi_search_function (fun _ => Ok (mkResponse false 503 "" None)) "key").

(** SearchAPI answers one organic result and no related question. *)
Definition searchapi_plain : RAG :=
  with_search SEARCHAPI
    (searchapi_search_function (answers searchapi_one_result) "key").

(** Serper answers one organic result. *)
Definition serper_plain : RAG :=
  with_search SERPER (serper_search_function (answers serper_one_result) "key").

(** The completion stream breaks after its first chunk. *)
Definition broken_answer : llm_stream :=
  mkStream [mkChunk [mkChoice (Some "Sheldon")]] (Some ConnectionError).

Definition stream_breaks : RAG :=
  mkRAG SEARCHAPI true (search_function Scenario.self)
    (leptonsearch_client_response Scenario.self) (Ok tt)
    (fun _ _ => Ok broken_answer)
    (chat_completions_create_tools Scenario.self)
    (Ok tt) (fun _ => None) (fun _ => None).

(** The service on the LEPTON backend. *)
Definition lepton : RAG :=
  mkRAG LEPTON true (fun _ => Err AttributeError)
    (fun _ _ _ => Ok ["[]"; LLM_RESPONSE_SENTINEL; "Sheldon"])
    (Ok tt) (chat_completions_create_stream Scenario.self)
    (chat_completions_create_tools Scenario.self)
    (Ok tt) (fun _ => None) (fun _ => None).

(** The store refuses every [put]. *)
Definition put_fails : RAG :=
  mkRAG SEARCHAPI true (search_function Scenario.self)
    (leptonsearch_client_response Scenario.self) (Ok tt)
    (chat_completions_create_stream Scenario.self)
    (chat_completions_create_tools Scenario.self)
    (Ok tt) (fun _ => None) (fun _ => Some Timeout).

End Failing.

(** * Properties *)

(** ** The related-questions generator *)

Lemma firstn_length_le {A : Type} (n : nat) (l : list A) :
  List.length (firstn n l) <= n.
Proof.
  revert l. induction n as [|n IH]; intros [|x l]; simpl; try lia.
  specialize (IH l). lia.
Qed.

Lemma substring_length_le (n : nat) (s : string) :
  String.length (String.substring 0 n s) <= n.
Proof.
  revert s. induction n as [|n IH]; intros [|c s]; simpl; try lia.
  specialize (IH s). lia.
Qed.

Lemma slice5_len (v w : json) : slice5 v = Ok w -> py_len w <= 5.
Proof.
  destruct v; simpl; intros H; inversion H; subst; simpl.
  - apply substring_length_le.
  - apply firstn_length_le.
Qed.

Lemma bind_Ok {A B : Type} (m : result A) (k : A -> result B) (b : B) :
  bind m k = Ok b -> exists a, m = Ok a /\ k a = Ok b.
Proof. destruct m as [a|e]; simpl; intros H; [eauto | discriminate]. Qed.

Lemma related_questions_body_len json_loads self query contexts v :
  related_questions_body json_loads self query contexts = Ok v -> py_len v <= 5.
Proof.
  unfold related_questions_body. intros H.
  repeat (apply bind_Ok in H; destruct H as (? & _ & H)).
  eapply slice5_len; eassumption.
Qed.

Lemma get_related_questions_returns json_loads self query contexts :
  exists v,
    get_related_questions json_loads self query contexts = Ok v
    /\ py_len v <= 5
    /\ (forall e, related_questions_body json_loads self query contexts = Err e ->
                  v = JArr []).
Proof.
  unfold get_related_questions, except_Exception.
  destruct (related_questions_body json_loads self query contexts) as [v|e0] eqn:Hb.
  - exists v. split; [reflexivity|]. split; [|discriminate].
    eapply related_questions_body_len; eassumption.
  - exists (JArr []). repeat split; simpl; auto; lia.
Qed.

(** The three stages of the body the specification names. *)
Lemma related_questions_body_completion_fails json_loads self query contexts e :
  (forall p, chat_completions_create_tools self p query = Err e) ->
  exists e', related_questions_body json_loads self query contexts = Err e'.
Proof.
  intros Hc. unfold related_questions_body.
  destruct (local_client self); simpl; [|eauto].
  destruct (join_values _ _); simpl; [|eauto].
  rewrite Hc. simpl. eauto.
Qed.

Lemma related_questions_body_no_tool_call json_loads self query contexts :
  (forall p c, chat_completions_create_tools self p query = Ok c ->
               message_choices c = []
               \/ exists m rest, message_choices c = m :: rest
                    /\ (tool_calls m = None \/ tool_calls m = Some [])) ->
  exists e', related_questions_body json_loads self query contexts = Err e'.
Proof.
  intros Hc. unfold related_questions_body.
  destruct (local_client self); simpl; [|eauto].
  destruct (join_values _ _) as [t|]; simpl; [|eauto].
  destruct (chat_completions_create_tools self _ query) as [c|] eqn:E; simpl; [|eauto].
  destruct (Hc _ _ E) as [-> | (m & rest & -> & [H | H])]; simpl;
    rewrite ?H; simpl; eauto.
Qed.

Lemma related_questions_body_bad_json json_loads self query contexts e :
  (forall s, json_loads s = Err e) ->
  (forall p c, chat_completions_create_tools self p query = Ok c ->
     exists s rest1 rest2,
       message_choices c = mkMessage (Some (mkToolCall (JStr s) :: rest1)) :: rest2) ->
  exists e', related_questions_body json_loads self query contexts = Err e'.
Proof.
  intros Hl Hc. unfold related_questions_body.
  destruct (local_client self); simpl; [|eauto].
  destruct (join_values _ _) as [t|]; simpl; [|eauto].
  destruct (chat_completions_create_tools self _ query) as [c|] eqn:E; simpl; [|eauto].
  destruct (Hc _ _ E) as (s & r1 & r2 & ->). simpl. rewrite Hl. simpl. eauto.
Qed.

(** C5: [get_related_questions] never raises and returns at most five
    entries; whenever anything inside its [try] fails the result is the
    empty list, in particular when the completion call raises, when the
    answer carries no tool call, and when the payload is not JSON. *)
Theorem get_related_questions_never_raises
    (json_loads : string -> result json) (self : RAG) (query : string)
    (contexts : list context) :
  exists v,
    get_related_questions json_loads self query contexts = Ok v
    /\ py_len v <= 5
    /\ (forall e, related_questions_body json_loads self query contexts = Err e ->
                  v = JArr [])
    /\ (forall e, (forall p, chat_completions_create_tools self p query = Err e) ->
                  v = JArr [])
    /\ ((forall p c, chat_completions_create_tools self p query = Ok c ->
           message_choices c = []
           \/ exists m rest, message_choices c = m :: rest
                /\ (tool_calls m = None \/ tool_calls m = Some [])) ->
        v = JArr [])
    /\ (forall e, (forall s, json_loads s = Err e) ->
          (forall p c, chat_completions_create_tools self p query = Ok c ->
             exists s rest1 rest2,
               message_choices c
               = mkMessage (Some (mkToolCall (JStr s) :: rest1)) :: rest2) ->
          v = JArr []).
Proof.
  destruct (get_related_questions_returns json_loads self query contexts)
    as (v & Hv & Hlen & Hfail).
  exists v. split; [exact Hv|]. split; [exact Hlen|]. split; [exact Hfail|].
  split; [|split].
  - intros e Hc.
    destruct (related_questions_body_completion_fails json_loads self query contexts e Hc)
      as (e' & He'). eapply Hfail; eassumption.
  - intros Hc.
    destruct (related_questions_body_no_tool_call json_loads self query contexts Hc)
      as (e' & He'). eapply Hfail; eassumption.
  - intros e Hl Hc.
    destruct (related_questions_body_bad_json json_loads self query contexts e Hl Hc)
      as (e' & He'). eapply Hfail; eassumption.
Qed.

(** ** The query handler *)

Section HandlerProperties.

Variable json_dumps : json -> string.
Variable json_loads : string -> result json.
Variable py_repr : json -> string.

Local Abbreviation query_function := (query_function json_loads py_repr).
Local Abbreviation live_generation := (live_generation json_loads py_repr).
Local Abbreviation start_completion := (start_completion json_loads).
Local Abbreviation system_prompt_of := (system_prompt_of py_repr).
Local Abbreviation consume := (consume json_dumps).
Local Abbreviation system_prompt := (system_prompt py_repr).
Local Abbreviation related_future := (related_future json_loads).
Local Abbreviation setup_events := (setup_events py_repr).
Local Abbreviation related_segment := (related_segment json_dumps).

Lemma provided_Some (uuid : string) : uuid <> "" -> provided (Some uuid) = Some uuid.
Proof.
  intros H. unfold provided. destruct (String.eqb uuid "") eqn:E; [|reflexivity].
  apply String.eqb_eq in E. contradiction.
Qed.

Lemma query_function_miss self w query uuid g e :
  uuid <> "" -> kv_get self w uuid = Err e ->
  query_function self w query (Some uuid) g
  = live_generation self (record w (KvGet uuid)) query uuid g.
Proof.
  intros Hu Hg. unfold query_function.
  rewrite (provided_Some _ Hu), Hg. destruct e; reflexivity.
Qed.


(** C7: a request whose [search_uuid] is empty or absent fails with
    [HTTPException(400)], and the world is as before: the store was not read
    and no provider was called. *)
Theorem query_function_rejects_missing_uuid
    (self : RAG) (w : world) (query : string) (search_uuid : option string)
    (generate_related_questions : option bool) :
  search_uuid = None \/ search_uuid = Some "" ->
  query_function self w query search_uuid generate_related_questions
  = (Err (HTTPException 400 "search_uuid must be provided."), w).
Proof. intros [-> | ->]; reflexivity. Qed.

Lemma live_generation_kv_get_fault self f w query uuid g :
  live_generation (with_kv_get_fault self f) w query uuid g
  = live_generation self w query uuid g.
Proof. reflexivity. Qed.

Lemma live_generation_searches self w query uuid g :
  backend self <> LEPTON ->
  exists reply w' rest,
    live_generation self w query uuid g = (reply, w')
    /\ trace w' = trace w ++ Search (normalize query) :: rest
    /\ kv w' = kv w.
Proof.
  intros Hb. unfold live_generation, normalize.
  set (query' := re_sub_INST _).
  assert (Hlocal : forall (X : Type) (a b : X),
             match backend self with LEPTON => a | _ => b end = b).
  { intros X a b. destruct (backend self); congruence. }
  rewrite Hlocal.
  destruct (search_function self query') as [contexts|e].
  2:{ eexists _, _, []. split; [reflexivity|]. split; reflexivity. }
  destruct (system_prompt_of contexts) as [sp|e].
  2:{ eexists _, _, []. split; [reflexivity|]. split; reflexivity. }
  unfold start_completion.
  destruct (local_client self).
  2:{ eexists _, _, []. split; [reflexivity|]. split; reflexivity. }
  destruct (chat_completions_create_stream self sp query').
  2:{ eexists _, _, [_]. split; [reflexivity|]. simpl.
      rewrite <- app_assoc. split; reflexivity. }
  destruct (should_do_related_questions self && flag g).
  2:{ eexists _, _, [_]. split; [reflexivity|]. simpl.
      rewrite <- app_assoc. split; reflexivity. }
  destruct (executor_submit self);
    (eexists _, _, [_; _]; split; [reflexivity|]; simpl;
     rewrite <- !app_assoc; split; reflexivity).
Qed.

Lemma live_generation_local self w query uuid g l :
  backend self <> LEPTON ->
  search_function self (normalize query) = Ok (RList l) ->
  live_generation self w query uuid g
  = match start_completion self (record w (Search (normalize query)))
            (system_prompt l) (normalize query) l g with
    | (Err _, w2) => (Ok (HTMLResponse "Internal Server Error." 503), w2)
    | (Ok (llm_response, fut), w2) =>
        (Ok (StreamingResponse (StreamAndUpload l llm_response fut uuid)
               (Some "text/html")), w2)
    end.
Proof.
  intros Hb Hs. unfold live_generation. fold (normalize query).
  destruct (backend self); [congruence| |]; rewrite Hs; reflexivity.
Qed.

Lemma start_completion_fails self w sp query l g e :
  local_client self = Err e
  \/ chat_completions_create_stream self sp query = Err e
  \/ (should_do_related_questions self && flag g = true
      /\ executor_submit self = Err e) ->
  exists e' w' evs,
    start_completion self w sp query l g = (Err e', w')
    /\ trace w' = trace w ++ evs
    /\ existsb is_KvPut evs = false
    /\ kv w' = kv w.
Proof.
  intros H. unfold start_completion.
  destruct (local_client self) as [u|e1].
  2:{ exists e1, w, []. rewrite app_nil_r. auto. }
  destruct (chat_completions_create_stream self sp query) as [llm|e2].
  2:{ eexists e2, _, [_]. repeat split; reflexivity. }
  destruct H as [H | [H | [Hf H]]]; try discriminate.
  rewrite Hf, H. eexists e, _, [_; _]. split; [reflexivity|].
  simpl. rewrite <- app_assoc. auto.
Qed.

Lemma start_completion_ok self w sp query l g llm :
  local_client self = Ok tt ->
  chat_completions_create_stream self sp query = Ok llm ->
  (should_do_related_questions self && flag g = true -> executor_submit self = Ok tt) ->
  exists w',
    start_completion self w sp query l g = (Ok (llm, related_future self query l g), w')
    /\ kv w' = kv w
    /\ trace w' = trace w ++ CompletionStream sp query ::
         (if should_do_related_questions self && flag g
          then [RelatedSubmit query l] else []).
Proof.
  intros Hc Hs Hx. unfold start_completion, related_future. rewrite Hc, Hs.
  destruct (should_do_related_questions self && flag g).
  - rewrite (Hx eq_refl). eexists. split; [reflexivity|]. simpl.
    rewrite <- app_assoc. auto.
  - eexists. split; [reflexivity|]. auto.
Qed.

(** C6: when the client, the streaming completion call or the submission of
    the related-questions task raises, the handler answers 503 with the body
    [Internal Server Error.]; no [put] was submitted and the store is as it
    was. *)
Theorem completion_setup_failure_gives_503
    (self : RAG) (w : world) (query uuid : string)
    (generate_related_questions : option bool) (contexts : list context)
    (e0 e : exn) :
  uuid <> "" ->
  kv_get self w uuid = Err e0 ->
  backend self <> LEPTON ->
  search_function self (normalize query) = Ok (RList contexts) ->
  (local_client self = Err e
   \/ chat_completions_create_stream self (system_prompt contexts) (normalize query)
      = Err e
   \/ (should_do_related_questions self && flag generate_related_questions = true
       /\ executor_submit self = Err e)) ->
  exists w' evs,
    query_function self w query (Some uuid) generate_related_questions
    = (Ok (HTMLResponse "Internal Server Error." 503), w')
    /\ trace w' = trace w ++ evs
    /\ existsb is_KvPut evs = false
    /\ kv w' = kv w.
Proof.
  intros Hu Hg Hb Hs Hfail.
  rewrite (query_function_miss _ _ _ _ _ _ Hu Hg).
  rewrite (live_generation_local _ _ _ _ _ _ Hb Hs).
  destruct (start_completion_fails self
              (record (record w (KvGet uuid)) (Search (normalize query)))
              (system_prompt contexts) (normalize query) contexts
              generate_related_questions e Hfail)
    as (e' & w' & evs & -> & Ht & Hp & Hk).
  exists w', (KvGet uuid :: Search (normalize query) :: evs).
  split; [reflexivity|]. split.
  - rewrite Ht. simpl. rewrite <- !app_assoc. reflexivity.
  - split; [exact Hp | exact Hk].
Qed.

(** The live path up to the reply, when nothing fails. *)
Lemma query_function_streams self w query uuid g l llm e0 :
  uuid <> "" ->
  kv_get self w uuid = Err e0 ->
  backend self <> LEPTON ->
  search_function self (normalize query) = Ok (RList l) ->
  local_client self = Ok tt ->
  chat_completions_create_stream self (system_prompt l) (normalize query) = Ok llm ->
  (should_do_related_questions self && flag g = true -> executor_submit self = Ok tt) ->
  exists w',
    query_function self w query (Some uuid) g
    = (Ok (StreamingResponse
             (StreamAndUpload l llm (related_future self (normalize query) l g) uuid)
             (Some "text/html")), w')
    /\ kv w' = kv w
    /\ trace w' = trace w ++ KvGet uuid :: Search (normalize query)
                    :: setup_events self (normalize query) l g.
Proof.
  intros Hu Hg Hb Hs Hc Hl Hx.
  rewrite (query_function_miss _ _ _ _ _ _ Hu Hg).
  rewrite (live_generation_local _ _ _ _ _ _ Hb Hs).
  destruct (start_completion_ok self
              (record (record w (KvGet uuid)) (Search (normalize query)))
              (system_prompt l) (normalize query) l g llm Hc Hl Hx)
    as (w' & -> & Hk & Ht).
  exists w'. split; [reflexivity|]. split; [exact Hk|].
  rewrite Ht. simpl. rewrite <- !app_assoc. reflexivity.
Qed.

Lemma related_future_cases self query l g :
  (should_do_related_questions self && flag g = true
   /\ exists rq, related_future self query l g = Some (Ok rq) /\ py_len rq <= 5)
  \/ (should_do_related_questions self && flag g = false
      /\ related_future self query l g = None).
Proof.
  unfold related_future.
  destruct (should_do_related_questions self && flag g); [left | right; auto].
  split; [reflexivity|].
  destruct (get_related_questions_returns json_loads self query l)
    as (v & -> & Hlen & _).
  exists v. auto.
Qed.

Lemma raw_stream_response_complete self query l g llm :
  stream_fault llm = None ->
  _raw_stream_response json_dumps l llm (related_future self query l g)
  = ((contexts_segment json_dumps l ++ completion_segment llm)
       ++ related_segment (related_future self query l g), None).
Proof.
  intros Hf. unfold _raw_stream_response, related_segment. rewrite Hf.
  destruct (related_future_cases self query l g)
    as [(_ & rq & -> & _) | (_ & ->)]; [reflexivity|].
  rewrite app_nil_r. reflexivity.
Qed.

Lemma relay_spec (inner acc out : list string) :
  relay inner acc out = (acc ++ inner, out ++ inner).
Proof.
  revert acc out. induction inner as [|x inner IH]; intros acc out; simpl.
  - rewrite !app_nil_r. reflexivity.
  - rewrite IH, <- !app_assoc. reflexivity.
Qed.

(** What is stored is what was yielded. *)
Lemma stream_and_upload_to_kv_relays self w l llm fut uuid :
  stream_and_upload_to_kv json_dumps self w l llm fut uuid
  = match _raw_stream_response json_dumps l llm fut with
    | (chunks, Some e) => ((chunks, Some e), w)
    | (chunks, None) =>
        ((chunks, None), submit_kv_put self w uuid (join "" chunks))
    end.
Proof.
  unfold stream_and_upload_to_kv.
  destruct (_raw_stream_response json_dumps l llm fut) as [inner raised].
  rewrite relay_spec. destruct raised; reflexivity.
Qed.

Lemma raw_stream_response_prefix l llm fut :
  exists rest raised,
    _raw_stream_response json_dumps l llm fut
    = (contexts_segment json_dumps l ++ completion_segment llm ++ rest, raised).
Proof.
  unfold _raw_stream_response.
  destruct (stream_fault llm); [exists [], (Some e); rewrite app_nil_r; reflexivity|].
  destruct fut as [[rq|e]|].
  - eexists _, None. rewrite <- app_assoc. reflexivity.
  - exists [], (Some e). rewrite app_nil_r. reflexivity.
  - exists [], None. rewrite app_nil_r. reflexivity.
Qed.

Lemma completion_segment_texts (llm_response : llm_stream) :
  completion_segment llm_response
  = flat_map
      (fun c : chunk =>
         match choices c with
         | [] => []
         | first :: _ =>
             [match delta_content first with Some text => text | None => "" end]
         end)
      (stream_chunks llm_response).
Proof.
  unfold completion_segment. apply flat_map_ext. intros c. unfold chunk_text.
  destruct (choices c) as [|first rest]; [reflexivity|].
  destruct (delta_content first); reflexivity.
Qed.

(** C10: when the search returns no context and the completion starts, the
    reply is a stream, not an error, and the stream yields the JSON of the
    empty list, the completion sentinel, the notice that no context was
    found, and then the completion segment: for every chunk of the
    provider's stream that has a choice, in order, the content of its first
    choice, or the empty string when that content is [None]. *)
Theorem empty_contexts_stream_has_notice
    (self : RAG) (w : world) (query uuid : string)
    (generate_related_questions : option bool) (llm_response : llm_stream)
    (e0 : exn) :
  uuid <> "" ->
  kv_get self w uuid = Err e0 ->
  backend self <> LEPTON ->
  search_function self (normalize query) = Ok (RList []) ->
  local_client self = Ok tt ->
  chat_completions_create_stream self (system_prompt []) (normalize query)
  = Ok llm_response ->
  (should_do_related_questions self && flag generate_related_questions = true ->
   executor_submit self = Ok tt) ->
  exists fut w' rest raised w'',
    query_function self w query (Some uuid) generate_related_questions
    = (Ok (StreamingResponse (StreamAndUpload [] llm_response fut uuid)
             (Some "text/html")), w')
    /\ consume self w' (StreamAndUpload [] llm_response fut uuid)
       = (([json_dumps (JArr []); LLM_RESPONSE_SENTINEL; NO_CONTEXT_NOTICE]
             ++ flat_map
                  (fun c : chunk =>
                     match choices c with
                     | [] => []
                     | first :: _ =>
                         [match delta_content first with
                          | Some text => text
                          | None => ""
                          end]
                     end)
                  (stream_chunks llm_response)
             ++ rest, raised), w'').
Proof.
  intros Hu Hg Hb Hs Hc Hl Hx.
  destruct (query_function_streams self w query uuid generate_related_questions
              [] llm_response e0 Hu Hg Hb Hs Hc Hl Hx) as (w' & Hq & _ & _).
  set (fut := related_future self (normalize query) [] generate_related_questions) in *.
  destruct (raw_stream_response_prefix [] llm_response fut) as (rest & raised & Hr).
  exists fut, w', rest, raised.
  simpl. rewrite stream_and_upload_to_kv_relays, Hr.
  rewrite completion_segment_texts.
  destruct raised; eexists; (split; [exact Hq | reflexivity]).
Qed.

(** C9, on the live path: the stream of a request answered by live
    generation ends with the related-questions sentinel and the JSON of at
    most five questions when both the service flag and the request flag are
    set, and ends with the completion chunks when either is not. *)
Theorem related_sentinel_on_live_stream
    (self : RAG) (w : world) (query uuid : string)
    (generate_related_questions : option bool) (contexts : list context)
    (llm_response : llm_stream) (e0 : exn) :
  uuid <> "" ->
  kv_get self w uuid = Err e0 ->
  backend self <> LEPTON ->
  search_function self (normalize query) = Ok (RList contexts) ->
  local_client self = Ok tt ->
  chat_completions_create_stream self (system_prompt contexts) (normalize query)
  = Ok llm_response ->
  stream_fault llm_response = None ->
  (should_do_related_questions self && flag generate_related_questions = true ->
   executor_submit self = Ok tt) ->
  exists fut w' chunks w'',
    query_function self w query (Some uuid) generate_related_questions
    = (Ok (StreamingResponse (StreamAndUpload contexts llm_response fut uuid)
             (Some "text/html")), w')
    /\ consume self w' (StreamAndUpload contexts llm_response fut uuid)
       = ((chunks, None), w'')
    /\ (should_do_related_questions self && flag generate_related_questions = true ->
        exists related_questions,
          py_len related_questions <= 5
          /\ chunks = (contexts_segment json_dumps contexts
                         ++ completion_segment llm_response)
                      ++ [RELATED_QUESTIONS_SENTINEL; json_dumps related_questions])
    /\ (should_do_related_questions self && flag generate_related_questions = false ->
        chunks = contexts_segment json_dumps contexts
                   ++ completion_segment llm_response).
Proof.
  intros Hu Hg Hb Hs Hc Hl Hf Hx.
  destruct (query_function_streams self w query uuid generate_related_questions
              contexts llm_response e0 Hu Hg Hb Hs Hc Hl Hx) as (w' & Hq & _ & _).
  set (fut := related_future self (normalize query) contexts
                generate_related_questions) in *.
  exists fut, w'. eexists _, _. split; [exact Hq|]. split.
  - simpl. subst fut.
    rewrite stream_and_upload_to_kv_relays,
      (raw_stream_response_complete _ _ _ _ _ Hf). reflexivity.
  - subst fut. unfold related_segment.
    destruct (related_future_cases self (normalize query) contexts
                generate_related_questions)
      as [(Ht & rq & -> & Hlen) | (Hn & ->)]; rewrite ?Ht, ?Hn.
    + split; [|discriminate]. intros _. exists rq. auto.
    + split; [discriminate|]. intros _. rewrite app_nil_r. reflexivity.
Qed.

Lemma submit_kv_put_lookup self w key value :
  kv_put_fault self key = None ->
  kv (submit_kv_put self w key value) !! key = Some value.
Proof.
  intros Hp. unfold submit_kv_put. rewrite Hp. simpl. apply lookup_insert_eq.
Qed.

Lemma submit_kv_put_trace self w key value :
  trace (submit_kv_put self w key value) = trace w ++ [KvPut key value].
Proof. unfold submit_kv_put. destruct (kv_put_fault self key); reflexivity. Qed.


(** *** The system prompt *)

Lemma format_from_no_brace (a t v : string) :
  no_brace a = true ->
  format_from 0 (a ++ t) v = (a ++ format_from 0 t v)%string.
Proof.
  induction a as [|c a IH]; intros H; [reflexivity|].
  cbn [no_brace] in H. apply andb_prop in H. destruct H as [Hc Ha].
  change (String c a ++ t)%string with (String c (a ++ t)%string).
  change (String c a ++ format_from 0 t v)%string
    with (String c (a ++ format_from 0 t v)%string).
  cbn [format_from String.prefix].
  destruct (ascii_dec "{" c) as [<-|_]; [discriminate Hc|].
  rewrite (IH Ha). reflexivity.
Qed.

Lemma string_app_nil_r (s : string) : (s ++ "")%string = s.
Proof.
  induction s as [|c s IH]; [reflexivity|].
  change (String c s ++ "")%string with (String c (s ++ "")%string).
  rewrite IH. reflexivity.
Qed.

Lemma format_rag_query_text (v : string) :
  format _rag_query_text v = (rag_query_head ++ v ++ rag_query_tail)%string.
Proof.
  unfold format, _rag_query_text.
  rewrite format_from_no_brace by reflexivity.
  change (format_from 0 ("{context}" ++ rag_query_tail) v)
    with (v ++ format_from 0 rag_query_tail v)%string.
  rewrite <- (string_app_nil_r rag_query_tail) at 1.
  rewrite format_from_no_brace by reflexivity.
  simpl format_from. rewrite string_app_nil_r. reflexivity.
Qed.

Lemma string_app_assoc (a b c : string) :
  ((a ++ b) ++ c)%string = (a ++ (b ++ c))%string.
Proof.
  induction a as [|x a IH]; [reflexivity|].
  change ((String x a ++ b) ++ c)%string with (String x ((a ++ b) ++ c)%string).
  rewrite IH. reflexivity.
Qed.

Lemma prefix_app (n s : string) : String.prefix n (n ++ s) = true.
Proof.
  induction n as [|x n IH]; [destruct s; reflexivity|].
  change (String x n ++ s)%string with (String x (n ++ s)%string).
  cbn [String.prefix]. destruct (ascii_dec x x); [exact IH | contradiction].
Qed.

Lemma occurs_here (n s : string) : occurs n (n ++ s) = true.
Proof.
  destruct (n ++ s)%string eqn:E; cbn [occurs]; rewrite <- E, prefix_app;
    reflexivity.
Qed.

Lemma occurs_app (n a b : string) : occurs n (a ++ n ++ b) = true.
Proof.
  induction a as [|x a IH]; [exact (occurs_here n b)|].
  change (String x a ++ n ++ b)%string with (String x (a ++ n ++ b)%string).
  cbn [occurs]. rewrite IH. apply orb_true_r.
Qed.

Lemma citation_entry_text (p : nat * context) :
  citation_entry py_repr p
  = ("[[citation:" ++ decimal (fst p + 1) ++ "]] "
     ++ py_str py_repr (snippet (snd p)))%string.
Proof.
  unfold citation_entry, citation_marker.
  rewrite !string_app_assoc. reflexivity.
Qed.

Lemma system_prompt_text (contexts : list context) :
  system_prompt contexts
  = (rag_query_head
     ++ join (nl ++ nl)
          (map (fun p : nat * context =>
                  "[[citation:" ++ decimal (fst p + 1) ++ "]] "
                  ++ py_str py_repr (snippet (snd p)))
             (enumerate contexts))
     ++ rag_query_tail)%string.
Proof.
  unfold system_prompt. rewrite format_rag_query_text.
  f_equal. f_equal. f_equal. apply map_ext. intros p. apply citation_entry_text.
Qed.

(** C2: with a [search_uuid] given, when [self.kv.get] raises, [KeyError] or
    any other exception, the request is answered live.  On a local backend
    the search is called with the query (the default query for an empty one,
    the instruction markers removed), the prompt is built from the contexts
    (the template with one line [[[citation:i+1]] snippet] per context,
    joined by blank lines, in the place of its field), the streaming
    completion is started with this prompt and the query, the
    related-questions task is submitted when both flags are set, and the
    reply is the stream over the contexts and the completion; on the LEPTON
    backend the reply is the stream of the Lepton client.  The exception of
    the store does not reach the client: the handler raises only what the
    search or the Lepton client raised, or [TypeError] when the search
    returned [None]; and the reply and the calls are the same whatever
    exception the store raised. *)
Theorem cache_failure_proceeds_to_live_generation
    (self : RAG) (w : world) (query uuid : string)
    (generate_related_questions : option bool) (e : exn) :
  uuid <> "" ->
  kv_get self w uuid = Err e ->
  let q := re_sub_INST (if String.eqb query "" then def_query else query) in
  let related :=
    should_do_related_questions self && flag generate_related_questions in
  (backend self <> LEPTON ->
   forall (contexts : list context) (llm_response : llm_stream),
     let prompt :=
       (rag_query_head
        ++ join (nl ++ nl)
             (map (fun p : nat * context =>
                     "[[citation:" ++ decimal (fst p + 1) ++ "]] "
                     ++ py_str py_repr (snippet (snd p)))
                (enumerate contexts))
        ++ rag_query_tail)%string in
     search_function self q = Ok (RList contexts) ->
     local_client self = Ok tt ->
     chat_completions_create_stream self prompt q = Ok llm_response ->
     (related = true -> executor_submit self = Ok tt) ->
     query_function self w query (Some uuid) generate_related_questions
     = (Ok (StreamingResponse
              (StreamAndUpload contexts llm_response
                 (if related
                  then Some (get_related_questions json_loads self q contexts)
                  else None)
                 uuid)
              (Some "text/html")),
        mkWorld (kv w)
          (trace w
           ++ [KvGet uuid; Search q; CompletionStream prompt q]
           ++ (if related then [RelatedSubmit q contexts] else []))))
  /\ (backend self = LEPTON ->
      forall chunks : list string,
        leptonsearch_client_response self query uuid generate_related_questions
        = Ok chunks ->
        query_function self w query (Some uuid) generate_related_questions
        = (Ok (StreamingResponse (LeptonStream chunks) (Some "text\html")),
           mkWorld (kv w) (trace w ++ [KvGet uuid; LeptonSearch query uuid])))
  /\ (forall (raised : exn) (w' : world),
        query_function self w query (Some uuid) generate_related_questions
        = (Err raised, w') ->
        (backend self = LEPTON
         /\ leptonsearch_client_response self query uuid
              generate_related_questions = Err raised)
        \/ (backend self <> LEPTON
            /\ (search_function self q = Err raised
                \/ (search_function self q = Ok RNone /\ raised = TypeError))))
  /\ (backend self <> LEPTON ->
      exists rest : list event,
        trace (snd (query_function self w query (Some uuid)
                      generate_related_questions))
        = trace w ++ KvGet uuid :: Search q :: rest)
  /\ (forall (f : string -> option exn) (e' : exn),
        kv_get (with_kv_get_fault self f) w uuid = Err e' ->
        query_function (with_kv_get_fault self f) w query (Some uuid)
          generate_related_questions
        = query_function self w query (Some uuid) generate_related_questions).
Proof.
  intros Hu Hg q related.
  rewrite (query_function_miss _ _ _ _ _ _ Hu Hg).
  split; [|split; [|split; [|split]]].
  - intros Hb contexts llm_response prompt Hs Hc Hl Hx.
    rewrite (live_generation_local _ _ _ _ _ _ Hb Hs).
    unfold prompt in *. clear prompt. rewrite <- system_prompt_text in *.
    change (normalize query) with q.
    unfold start_completion, record. rewrite Hc, Hl.
    change (should_do_related_questions self && flag generate_related_questions)
      with related.
    destruct related; simpl.
    + rewrite (Hx eq_refl). simpl. rewrite <- !app_assoc. reflexivity.
    + rewrite <- !app_assoc. reflexivity.
  - intros Hb chunks Hr. unfold live_generation. rewrite Hb, Hr.
    unfold record. simpl. rewrite <- app_assoc. reflexivity.
  - intros raised w'. unfold live_generation. fold q.
    destruct (backend self) eqn:Hb.
    + destruct (leptonsearch_client_response self query uuid
                  generate_related_questions); intros H; inversion H; subst.
      left. split; reflexivity.
    + intros H. right. split; [discriminate|].
      destruct (search_function self q) as [[|l]|e1]; simpl in H.
      * inversion H. right. split; reflexivity.
      * destruct (start_completion self _ _ q _ generate_related_questions)
          as [[[llm fut]|e2] w2]; discriminate.
      * inversion H; subst. left. reflexivity.
    + intros H. right. split; [discriminate|].
      destruct (search_function self q) as [[|l]|e1]; simpl in H.
      * inversion H. right. split; reflexivity.
      * destruct (start_completion self _ _ q _ generate_related_questions)
          as [[[llm fut]|e2] w2]; discriminate.
      * inversion H; subst. left. reflexivity.
  - intros Hb.
    destruct (live_generation_searches self (record w (KvGet uuid)) query uuid
                generate_related_questions Hb) as (reply & w' & rest & Hl & Ht & _).
    exists rest. rewrite Hl. simpl. rewrite Ht. simpl.
    rewrite <- app_assoc. reflexivity.
  - intros f e' Hg'.
    rewrite (query_function_miss _ _ _ _ _ _ Hu Hg').
    apply live_generation_kv_get_fault.
Qed.

Lemma app_String c a t : (String c a ++ t)%string = String c (a ++ t)%string.
Proof. reflexivity. Qed.

Lemma tags_cons (opening closing : string) (c : ascii) (s : string) :
  tags opening closing (String c s)
  = match tag_at opening closing (String c s) with
    | Some k => k :: tags opening closing s
    | None => tags opening closing s
    end.
Proof. reflexivity. Qed.

Lemma strip_prefix_cons (a b : ascii) (p s : string) :
  strip_prefix (String a p) (String b s)
  = if Ascii.eqb a b then strip_prefix p s else None.
Proof. reflexivity. Qed.

Lemma strip_prefix_app (p x b : string) :
  match b with EmptyString => True | String c _ => mem_char c p = false end ->
  p <> "" ->
  strip_prefix p (x ++ b)
  = match strip_prefix p x with Some r => Some (r ++ b)%string | None => None end.
Proof.
  revert x. induction p as [|a p IH]; intros x Hb Hp; [congruence|].
  destruct x as [|y x].
  - change ("" ++ b)%string with b. simpl.
    destruct b as [|c b]; [reflexivity|].
    simpl in Hb. apply orb_false_iff in Hb as [-> _]. reflexivity.
  - rewrite app_String. simpl. destruct (Ascii.eqb a y); [|reflexivity].
    destruct p as [|a' p'].
    + reflexivity.
    + apply IH; [|discriminate].
      destruct b as [|c b]; [exact I|].
      simpl in Hb. apply orb_false_iff in Hb as [_ Hb]. exact Hb.
Qed.

Lemma span_digits_app (x b : string) :
  match b with EmptyString => True | String c _ => is_digit c = false end ->
  span_digits (x ++ b)
  = let (d, r) := span_digits x in (d, (r ++ b)%string).
Proof.
  intros Hb. induction x as [|y x IH].
  - change ("" ++ b)%string with b. destruct b as [|c b]; [reflexivity|].
    simpl. rewrite Hb. reflexivity.
  - rewrite app_String. simpl. destruct (is_digit y); [|reflexivity].
    rewrite IH. destruct (span_digits x). reflexivity.
Qed.

Lemma tag_at_app (opening closing x b : string) :
  opening <> "" -> closing <> "" ->
  starts_clean opening closing b = true ->
  tag_at opening closing (x ++ b) = tag_at opening closing x.
Proof.
  intros Ho Hc Hb. unfold tag_at.
  assert (H1 : match b with EmptyString => True
                       | String c _ => mem_char c opening = false end).
  { destruct b as [|c b]; [exact I|]. simpl in Hb.
    apply andb_true_iff in Hb as [Hb _]. apply andb_true_iff in Hb as [_ Hb].
    apply negb_true_iff in Hb. exact Hb. }
  assert (H2 : match b with EmptyString => True
                       | String c _ => mem_char c closing = false end).
  { destruct b as [|c b]; [exact I|]. simpl in Hb.
    apply andb_true_iff in Hb as [_ Hb]. apply negb_true_iff in Hb. exact Hb. }
  assert (H3 : match b with EmptyString => True
                       | String c _ => is_digit c = false end).
  { destruct b as [|c b]; [exact I|]. simpl in Hb.
    apply andb_true_iff in Hb as [Hb _]. apply andb_true_iff in Hb as [Hb _].
    apply negb_true_iff in Hb. exact Hb. }
  rewrite (strip_prefix_app opening x b H1 Ho).
  destruct (strip_prefix opening x) as [t|]; [|reflexivity].
  rewrite (span_digits_app t b H3). destruct (span_digits t) as [d r].
  rewrite (strip_prefix_app closing r b H2 Hc).
  destruct d; [reflexivity|]. destruct (strip_prefix closing r); reflexivity.
Qed.

Lemma tags_app (opening closing a b : string) :
  opening <> "" -> closing <> "" ->
  starts_clean opening closing b = true ->
  tags opening closing (a ++ b)
  = tags opening closing a ++ tags opening closing b.
Proof.
  intros Ho Hc Hb. induction a as [|c a IH].
  - reflexivity.
  - rewrite app_String.
    rewrite !tags_cons.
    rewrite <- app_String, (tag_at_app opening closing _ b Ho Hc Hb), IH.
    destruct (tag_at opening closing (String c a)); reflexivity.
Qed.

Lemma markers_app (a b : string) :
  starts_clean "[[citation:" "]]" b = true ->
  markers (a ++ b) = markers a ++ markers b.
Proof. apply tags_app; discriminate. Qed.

Lemma markers_skip (c : ascii) (s : string) :
  Ascii.eqb "[" c = false -> markers (String c s) = markers s.
Proof.
  intros H. unfold markers. rewrite tags_cons. unfold tag_at.
  rewrite strip_prefix_cons, H. reflexivity.
Qed.

Lemma markers_skip2 (c : ascii) (s : string) :
  Ascii.eqb "[" c = false -> markers (String "[" (String c s)) = markers s.
Proof.
  intros H. rewrite <- (markers_skip c s H).
  unfold markers. rewrite tags_cons. unfold tag_at.
  rewrite !strip_prefix_cons, H. reflexivity.
Qed.

Lemma string_of_uint_digits (d : Decimal.uint) :
  all_digits (NilEmpty.string_of_uint d) = true.
Proof. induction d; simpl; auto. Qed.

Lemma is_digit_not_bracket c : is_digit c = true -> Ascii.eqb "[" c = false.
Proof.
  intros H. destruct (Ascii.eqb "[" c) eqn:E; [|reflexivity].
  apply Ascii.eqb_eq in E. subst c. vm_compute in H. discriminate.
Qed.

Lemma markers_digits (d t : string) :
  all_digits d = true -> markers (d ++ t) = markers t.
Proof.
  induction d as [|c d IH]; intros H; [reflexivity|].
  simpl in H. apply andb_true_iff in H as [Hc Hd].
  rewrite app_String, markers_skip by (apply is_digit_not_bracket; exact Hc).
  apply IH. exact Hd.
Qed.

Lemma span_digits_all (d t : string) :
  all_digits d = true ->
  match t with EmptyString => True | String c _ => is_digit c = false end ->
  span_digits (d ++ t) = (d, t).
Proof.
  intros Hd Ht. rewrite (span_digits_app d t Ht).
  assert (H : span_digits d = (d, "")).
  { clear Ht. induction d as [|c d IH]; [reflexivity|].
    simpl in Hd. apply andb_true_iff in Hd as [Hc Hd].
    simpl. rewrite Hc, (IH Hd). reflexivity. }
  rewrite H. reflexivity.
Qed.

Lemma decimal_nonempty (k : nat) : exists c d, decimal k = String c d.
Proof.
  unfold decimal.
  destruct (NilEmpty.string_of_uint (Nat.to_uint k)) as [|c d] eqn:E.
  - exfalso.
    assert (H : NilEmpty.uint_of_string (NilEmpty.string_of_uint (Nat.to_uint k))
                = Some (Nat.to_uint k)) by apply NilEmpty.usu.
    rewrite E in H. simpl in H. injection H as H.
    assert (Hk : k = 0)
      by (rewrite <- (DecimalNat.Unsigned.of_to k), <- H; reflexivity).
    subst k. vm_compute in H. discriminate H.
  - eauto.
Qed.

Lemma markers_entry (k : nat) (text : string) :
  markers ("[[citation:" ++ decimal k ++ "]] " ++ text) = k :: markers text.
Proof.
  assert (Hd : all_digits (decimal k) = true) by apply string_of_uint_digits.
  assert (Htag : tag_at "[[citation:" "]]"
                   ("[[citation:" ++ decimal k ++ "]] " ++ text) = Some k).
  { unfold tag_at.
    change (strip_prefix "[[citation:" ("[[citation:" ++ decimal k ++ "]] " ++ text))
      with (Some (decimal k ++ "]] " ++ text)%string).
    cbv beta iota.
    rewrite (span_digits_all (decimal k) ("]] " ++ text) Hd) by reflexivity.
    destruct (decimal_nonempty k) as (c & d & E). rewrite E, <- E.
    change (strip_prefix "]]" ("]] " ++ text)) with (Some (" " ++ text)%string).
    cbv beta iota.
    unfold decimal. rewrite NilEmpty.usu, DecimalNat.Unsigned.of_to. reflexivity. }
  unfold markers in *.
  change ("[[citation:" ++ decimal k ++ "]] " ++ text)%string
    with (String "[" ("[citation:" ++ decimal k ++ "]] " ++ text)%string) in *.
  change (tags "[[citation:" "]]"
            (String "[" ("[citation:" ++ decimal k ++ "]] " ++ text)))
    with (match tag_at "[[citation:" "]]"
                  (String "[" ("[citation:" ++ decimal k ++ "]] " ++ text)) with
          | Some n => n :: tags "[[citation:" "]]"
                             ("[citation:" ++ decimal k ++ "]] " ++ text)
          | None => tags "[[citation:" "]]"
                      ("[citation:" ++ decimal k ++ "]] " ++ text)
          end).
  rewrite Htag. f_equal.
  fold (markers ("[citation:" ++ decimal k ++ "]] " ++ text)).
  change ("[citation:" ++ decimal k ++ "]] " ++ text)%string
    with (String "[" (String "c" ("itation:" ++ decimal k ++ "]] " ++ text)%string)).
  rewrite markers_skip2 by reflexivity.
  change ("itation:" ++ decimal k ++ "]] " ++ text)%string
    with (String "i" (String "t" (String "a" (String "t" (String "i"
           (String "o" (String "n" (String ":"
              (decimal k ++ "]] " ++ text)%string)))))))).
  rewrite !markers_skip by reflexivity.
  rewrite markers_digits by exact Hd.
  change ("]] " ++ text)%string
    with (String "]" (String "]" (String " " text))).
  rewrite !markers_skip by reflexivity.
  reflexivity.
Qed.

Lemma markers_entries (f : nat * context -> nat) (l : list (nat * context))
    (b : string) :
  starts_clean "[[citation:" "]]" b = true ->
  markers (join (nl ++ nl)
             (map (fun p : nat * context =>
                     ("[[citation:" ++ decimal (f p) ++ "]] "
                      ++ py_str py_repr (snippet (snd p)))%string)
                l) ++ b)
  = flat_map (fun p : nat * context =>
                f p :: markers (py_str py_repr (snippet (snd p)))) l
    ++ markers b.
Proof.
  intros Hb. induction l as [|x l IH]; [reflexivity|].
  destruct l as [|y l].
  - change (join (nl ++ nl)
              (map (fun p : nat * context =>
                      ("[[citation:" ++ decimal (f p) ++ "]] "
                       ++ py_str py_repr (snippet (snd p)))%string) [x]))
      with ("[[citation:" ++ decimal (f x) ++ "]] "
            ++ py_str py_repr (snippet (snd x)))%string.
    rewrite (markers_app _ b Hb), markers_entry.
    cbn [flat_map]. rewrite app_nil_r. reflexivity.
  - set (g := fun p : nat * context =>
                ("[[citation:" ++ decimal (f p) ++ "]] "
                 ++ py_str py_repr (snippet (snd p)))%string) in *.
    change (join (nl ++ nl) (map g (x :: y :: l)))
      with (g x ++ (nl ++ nl) ++ join (nl ++ nl) (map g (y :: l)))%string.
    rewrite !string_app_assoc.
    rewrite (markers_app (g x)) by reflexivity.
    change (nl ++ nl ++ join (nl ++ nl) (map g (y :: l)) ++ b)%string
      with (String (ascii_of_nat 10) (String (ascii_of_nat 10)
              (join (nl ++ nl) (map g (y :: l)) ++ b)%string)).
    rewrite !markers_skip by reflexivity.
    rewrite IH. unfold g. rewrite markers_entry.
    cbn [flat_map]. rewrite <- !app_assoc. reflexivity.
Qed.

Lemma markers_rag_query_head (t : string) :
  markers (rag_query_head ++ t) = markers t.
Proof.
  set (h := substring 0 (String.length rag_query_head - 1) rag_query_head).
  assert (Hh : rag_query_head = (h ++ nl)%string) by (vm_compute; reflexivity).
  assert (Hm : markers h = []) by (vm_compute; reflexivity).
  rewrite Hh, string_app_assoc, markers_app, Hm by reflexivity.
  change (nl ++ t)%string with (String (ascii_of_nat 10) t).
  rewrite markers_skip by reflexivity. reflexivity.
Qed.

Lemma numbers_of_enumerate_from (i : nat) (l : list context) :
  flat_map (fun p : nat * context => [fst p + 1]) (enumerate_from i l)
  = seq (i + 1) (List.length l).
Proof.
  revert i. induction l as [|c l IH]; intros i; [reflexivity|].
  cbn [enumerate_from flat_map List.length seq]. rewrite IH.
  replace (S i + 1) with (S (i + 1)) by lia. reflexivity.
Qed.

(** C8: the system prompt is the template with its context field replaced
    by one line [[[citation:i+1]] snippet] per context, in the order of the
    list and joined by blank lines.  Read from left to right, the citation
    markers of the prompt (the texts [[[citation:k]]] with [k] a decimal
    number) are, for each context in turn, the marker numbered by its
    position counted from 1, followed by the markers that the text of its
    snippet holds; hence, when no snippet holds such a text, the prompt has
    exactly as many markers as there are contexts, numbered from 1 in the
    order of the list. *)
Theorem system_prompt_citation_markers (contexts : list context) :
  system_prompt_of (RList contexts)
  = Ok (rag_query_head
        ++ join (nl ++ nl)
             (map (fun p : nat * context =>
                     ("[[citation:" ++ decimal (fst p + 1) ++ "]] "
                      ++ py_str py_repr (snippet (snd p)))%string)
                (enumerate contexts))
        ++ rag_query_tail)%string
  /\ markers (system_prompt contexts)
     = flat_map (fun p : nat * context =>
                   (fst p + 1) :: markers (py_str py_repr (snippet (snd p))))
         (enumerate contexts)
  /\ ((forall c, In c contexts -> markers (py_str py_repr (snippet c)) = []) ->
      markers (system_prompt contexts) = seq 1 (List.length contexts)).
Proof.
  assert (Hm : markers (system_prompt contexts)
               = flat_map (fun p : nat * context =>
                             (fst p + 1)
                             :: markers (py_str py_repr (snippet (snd p))))
                   (enumerate contexts)).
  { rewrite system_prompt_text, markers_rag_query_head.
    rewrite (markers_entries (fun p => fst p + 1)) by reflexivity.
    assert (Ht : markers rag_query_tail = []) by (vm_compute; reflexivity).
    rewrite Ht. apply app_nil_r. }
  split; [|split].
  - unfold system_prompt_of. rewrite system_prompt_text. reflexivity.
  - exact Hm.
  - intros Hs. rewrite Hm. clear Hm. unfold enumerate.
    transitivity (flat_map (fun p : nat * context => [fst p + 1])
                    (enumerate_from 0 contexts));
      [|exact (numbers_of_enumerate_from 0 contexts)].
    assert (Hin : forall p, In p (enumerate_from 0 contexts) -> In (snd p) contexts).
    { generalize 0. induction contexts as [|c l IH]; intros i p Hp; [destruct Hp|].
      destruct Hp as [<- | Hp]; [left; reflexivity|].
      right. apply (IH (fun c' H' => Hs c' (or_intror H')) (S i) p Hp). }
    induction (enumerate_from 0 contexts) as [|p l IH]; [reflexivity|].
    cbn [flat_map]. rewrite (Hs (snd p)) by (apply Hin; left; reflexivity).
    rewrite IH by (intros q Hq; apply Hin; right; exact Hq). reflexivity.
Qed.

End HandlerProperties.

(** ** The search adapters *)

Section SearchProperties.

Variable requests_post : http_request -> result http_response.
Variable requests_get : http_request -> result http_response.

Lemma search_with_serper_response query key response :
  requests_post (serper_request query key) = Ok response ->
  search_with_serper requests_post query key = serper_response response.
Proof. intros H. unfold search_with_serper. rewrite H. reflexivity. Qed.

Lemma search_with_searchapi_response query key response :
  requests_get (searchapi_request query key) = Ok response ->
  search_with_searchapi requests_get query key = searchapi_response response.
Proof. intros H. unfold search_with_searchapi. rewrite H. reflexivity. Qed.

(** *** What is returned is bounded *)

Lemma serper_response_bound response l :
  serper_response response = Ok l -> List.length l <= REFERENCES_COUNT.
Proof.
  unfold serper_response. destruct (negb (ok response)); [discriminate|].
  destruct (response_json response) as [content|]; simpl; [|discriminate].
  unfold Serper.parse.
  destruct (Serper.knowledge_graph content) as [c1|[]]; simpl;
    try discriminate; try (intros [= <-]; simpl; lia).
  destruct (Serper.answer_box content) as [c2|[]]; simpl;
    try discriminate; try (intros [= <-]; simpl; lia).
  destruct (py_getitem content "organic") as [o|[]]; simpl;
    try discriminate; try (intros [= <-]; simpl; lia).
  destruct (py_iter o) as [items|[]]; simpl;
    try discriminate; try (intros [= <-]; simpl; lia).
  destruct (mapM Serper.organic_entry items) as [c3|[]]; simpl;
    try discriminate; try (intros [= <-]; simpl; lia).
  intros [= <-]. apply firstn_length_le.
Qed.

Lemma searchapi_response_bound response l :
  searchapi_response response = Ok (RList l) -> List.length l <= REFERENCES_COUNT.
Proof.
  unfold searchapi_response. destruct (negb (ok response)); [discriminate|].
  destruct (response_json response) as [content|]; simpl; [|discriminate].
  unfold SearchApi.parse.
  destruct (SearchApi.answer_box content) as [c1|[]]; simpl;
    try discriminate; try (intros [= <-]; simpl; lia).
  destruct (SearchApi.knowledge_graph content) as [c2|[]]; simpl;
    try discriminate; try (intros [= <-]; simpl; lia).
  destruct (py_getitem content "organic_results") as [o|[]]; simpl;
    try discriminate; try (intros [= <-]; simpl; lia).
  destruct (py_iter o) as [items|[]]; simpl;
    try discriminate; try (intros [= <-]; simpl; lia).
  destruct (mapM SearchApi.organic_entry items) as [c3|[]]; simpl;
    try discriminate; try (intros [= <-]; simpl; lia).
  destruct (py_get content "related_questions" JNull) as [rq|[]]; simpl;
    try discriminate; try (intros [= <-]; simpl; lia).
  destruct (truthy rq); [|discriminate].
  destruct (py_getitem content "related_questions") as [rq1|[]]; simpl;
    try discriminate; try (intros [= <-]; simpl; lia).
  destruct (py_iter rq1) as [qs|[]]; simpl;
    try discriminate; try (intros [= <-]; simpl; lia).
  destruct (mapM SearchApi.related_entry qs) as [c4|[]]; simpl;
    try discriminate; try (intros [= <-]; simpl; lia).
  intros [= <-]. apply firstn_length_le.
Qed.

(** With related questions in the body, SearchAPI's contexts are the
    structured answers, then the organic results, then the related questions,
    cut at [REFERENCES_COUNT]. *)
Lemma searchapi_parse_order content c1 c2 items c3 qs c4 kv :
  content = JObj kv ->
  SearchApi.answer_box content = Ok c1 ->
  SearchApi.knowledge_graph content = Ok c2 ->
  assoc "organic_results" kv = Some (JArr items) ->
  mapM SearchApi.organic_entry items = Ok c3 ->
  assoc "related_questions" kv = Some (JArr qs) -> qs <> [] ->
  mapM SearchApi.related_entry qs = Ok c4 ->
  SearchApi.parse content
  = Ok (RList (firstn REFERENCES_COUNT (((c1 ++ c2) ++ c3) ++ concat c4))).
Proof.
  intros -> H1 H2 Ho H3 Hq Hne H4. unfold SearchApi.parse.
  assert (Ht : truthy (JArr qs) = true) by (destruct qs; [contradiction|reflexivity]).
  rewrite H1, H2. cbn [bind py_getitem py_get py_iter]. rewrite Ho.
  cbn [bind py_iter]. rewrite H3. cbn [bind]. rewrite Hq, Ht.
  cbn [bind py_iter]. rewrite H4. reflexivity.
Qed.

(** *** The two slips *)

(** An item of Serper's organic list never becomes a context. *)
Lemma serper_organic_entry_raises (c : json) :
  exists e, Serper.organic_entry c = Err e.
Proof.
  unfold Serper.organic_entry.
  destruct (py_getitem c "title"); simpl; [|eauto].
  destruct (py_getitem c "link"); simpl; [|eauto].
  destruct (Serper.attr_get c); simpl; eauto.
Qed.

Lemma serper_organic_entry_wellformed fields title link :
  assoc "title" fields = Some title ->
  assoc "link" fields = Some link ->
  Serper.organic_entry (JObj fields) = Err TypeError.
Proof.
  intros Ht Hl. unfold Serper.organic_entry. simpl. rewrite Ht, Hl. reflexivity.
Qed.

(** Whatever the structured answers, a body whose organic list starts with
    an entry that has a title and a link makes Serper's adapter raise. *)
Lemma serper_raises_on_organic response kv c1 c2 fields rest title link :
  ok response = true ->
  json_body response = Some (JObj kv) ->
  Serper.knowledge_graph (JObj kv) = Ok c1 ->
  Serper.answer_box (JObj kv) = Ok c2 ->
  assoc "organic" kv = Some (JArr (JObj fields :: rest)) ->
  assoc "title" fields = Some title ->
  assoc "link" fields = Some link ->
  serper_response response = Err TypeError.
Proof.
  intros Hok Hj H1 H2 Ho Ht Hl. unfold serper_response, response_json.
  rewrite Hok, Hj. simpl. unfold Serper.parse. rewrite H1, H2. simpl.
  rewrite Ho. simpl. rewrite (serper_organic_entry_wellformed _ _ _ Ht Hl).
  reflexivity.
Qed.

(** Without related questions in the body, SearchAPI's adapter returns
    [None]. *)
Lemma searchapi_returns_None response kv c1 c2 items c3 :
  ok response = true ->
  json_body response = Some (JObj kv) ->
  SearchApi.answer_box (JObj kv) = Ok c1 ->
  SearchApi.knowledge_graph (JObj kv) = Ok c2 ->
  assoc "organic_results" kv = Some (JArr items) ->
  mapM SearchApi.organic_entry items = Ok c3 ->
  assoc "related_questions" kv = None ->
  searchapi_response response = Ok RNone.
Proof.
  intros Hok Hj H1 H2 Ho H3 Hq. unfold searchapi_response, response_json.
  rewrite Hok, Hj. simpl. unfold SearchApi.parse. rewrite H1, H2. simpl.
  rewrite Ho. simpl. rewrite H3. simpl. rewrite Hq. reflexivity.
Qed.

End SearchProperties.

(** C3, as the code runs: on a well-formed body with one organic result
    [search_with_serper] raises [TypeError] and [search_with_searchapi]
    returns [None]; neither returns the one context. *)
Theorem search_functions_on_one_organic_result :
  search_with_serper (answers serper_one_result) "spock" "key" = Err TypeError
  /\ search_with_searchapi (answers searchapi_one_result) "spock" "key" = Ok RNone.
Proof. split; reflexivity. Qed.

(** *** Missing and malformed fields *)

Lemma py_get_dict fields k default :
  py_get (JObj fields) k default = Ok (get_default fields k default).
Proof. reflexivity. Qed.

Lemma py_get_dict_or_falsy v k default :
  dict_or_falsy v = true -> truthy v = true ->
  exists fields, v = JObj fields /\ py_get v k default = Ok (get_default fields k default).
Proof.
  intros Hd Ht. unfold dict_or_falsy in Hd.
  destruct v; try (rewrite Ht in Hd; discriminate Hd).
  eexists. split; reflexivity.
Qed.

Lemma serper_knowledge_graph_spec kv kg :
  assoc "knowledgeGraph" kv = Some (JObj kg) -> kg <> [] ->
  Serper.knowledge_graph (JObj kv)
  = Ok (let url := if truthy (get_default kg "descriptionUrl" JNull)
                   then get_default kg "descriptionUrl" JNull
                   else get_default kg "website" JNull in
        let snippet := get_default kg "description" JNull in
        if truthy url && truthy snippet
        then [mkContext (get_default kg "title" (JStr "")) url snippet]
        else []).
Proof.
  intros Hkv Hne.
  assert (Ht : truthy (JObj kg) = true) by (destruct kg; [contradiction|reflexivity]).
  unfold Serper.knowledge_graph. cbn [py_get py_getitem bind]. rewrite Hkv, Ht.
  cbn [bind]. rewrite !py_get_dict. cbn [bind]. unfold py_or.
  destruct (truthy (get_default kg "descriptionUrl" JNull)); cbn [bind];
    rewrite ?py_get_dict; cbn [bind];
    match goal with |- context [if ?b then _ else _] => destruct b end;
    rewrite ?py_get_dict; reflexivity.
Qed.

Lemma serper_answer_box_spec kv ab :
  assoc "answerBox" kv = Some (JObj ab) -> ab <> [] ->
  Serper.answer_box (JObj kv)
  = Ok (let url := get_default ab "url" JNull in
        let snippet := if truthy (get_default ab "snippet" JNull)
                       then get_default ab "snippet" JNull
                       else get_default ab "answer" JNull in
        if truthy url && truthy snippet
        then [mkContext (get_default ab "title" (JStr "")) url snippet]
        else []).
Proof.
  intros Hkv Hne.
  assert (Ht : truthy (JObj ab) = true) by (destruct ab; [contradiction|reflexivity]).
  unfold Serper.answer_box. cbn [py_get py_getitem bind]. rewrite Hkv, Ht.
  cbn [bind]. rewrite !py_get_dict. cbn [bind]. unfold py_or.
  destruct (truthy (get_default ab "snippet" JNull)); cbn [bind];
    rewrite ?py_get_dict; cbn [bind];
    match goal with |- context [if ?b then _ else _] => destruct b end;
    rewrite ?py_get_dict; reflexivity.
Qed.

Lemma searchapi_answer_box_spec kv ab :
  assoc "answer_box" kv = Some (JObj ab) -> ab <> [] ->
  dict_or_falsy (get_default ab "organic_result" JNull) = true ->
  SearchApi.answer_box (JObj kv)
  = Ok (let url := get_default ab "link" JNull in
        let snippet := if truthy (get_default ab "answer" JNull)
                       then get_default ab "answer" JNull
                       else get_default ab "snippet" JNull in
        if truthy url && truthy snippet
        then [mkContext (get_default ab "title" (JStr "")) url snippet]
        else []).
Proof.
  intros Hkv Hne Hor.
  assert (Ht : truthy (JObj ab) = true) by (destruct ab; [contradiction|reflexivity]).
  unfold SearchApi.answer_box. cbn [py_get py_getitem bind]. rewrite Hkv, Ht.
  cbn [bind]. rewrite !py_get_dict. cbn [bind].
  assert (Hstep : forall (k : unit -> result (list context)),
    bind (if truthy (get_default ab "organic_result" JNull)
          then bind (py_get (get_default ab "organic_result" JNull) "title" (JStr ""))
                 (fun _ => bind (py_get (get_default ab "organic_result" JNull)
                                   "link" (JStr ""))
                             (fun _ => Ok tt))
          else Ok tt) k = k tt).
  { intros k. destruct (truthy (get_default ab "organic_result" JNull)) eqn:E;
      [|reflexivity].
    destruct (py_get_dict_or_falsy _ "title" (JStr "") Hor E) as (o & Ho & _).
    rewrite Ho. reflexivity. }
  rewrite Hstep.
  destruct (json_eqb_str (get_default ab "type" JNull) "population_graph");
    cbn [bind]; unfold py_or;
    (destruct (truthy (get_default ab "answer" JNull)); cbn [bind];
     rewrite ?py_get_dict; cbn [bind];
     match goal with |- context [if ?b then _ else _] => destruct b end;
     reflexivity).
Qed.

Lemma searchapi_knowledge_graph_spec kv kg :
  assoc "knowledge_graph" kv = Some (JObj kg) -> kg <> [] ->
  dict_or_falsy (get_default kg "source" JNull) = true ->
  SearchApi.knowledge_graph (JObj kv)
  = Ok (let url := get_default kg "website" (JStr "") in
        let snippet := get_default kg "description" JNull in
        if truthy url && truthy snippet
        then [mkContext (get_default kg "title" (JStr "")) url snippet]
        else []).
Proof.
  intros Hkv Hne Hsrc.
  assert (Ht : truthy (JObj kg) = true) by (destruct kg; [contradiction|reflexivity]).
  unfold SearchApi.knowledge_graph. cbn [py_get py_getitem bind]. rewrite Hkv, Ht.
  cbn [bind]. rewrite !py_get_dict. cbn [bind].
  assert (Hstep : forall (k : unit -> result (list context)),
    bind (if truthy (get_default kg "source" JNull)
          then bind (py_get (get_default kg "source" JNull) "link" (JStr ""))
                 (fun _ => Ok tt)
          else Ok tt) k = k tt).
  { intros k. destruct (truthy (get_default kg "source" JNull)) eqn:E; [|reflexivity].
    destruct (py_get_dict_or_falsy _ "link" (JStr "") Hsrc E) as (o & Ho & _).
    rewrite Ho. reflexivity. }
  rewrite Hstep.
  match goal with |- context [if ?b then _ else _] => destruct b end;
    rewrite ?py_get_dict; reflexivity.
Qed.

Lemma absent_is_falsy kv k :
  assoc k kv = None -> py_get (JObj kv) k JNull = Ok JNull.
Proof. intros H. simpl. rewrite H. reflexivity. Qed.

Lemma serper_knowledge_graph_absent kv :
  assoc "knowledgeGraph" kv = None -> Serper.knowledge_graph (JObj kv) = Ok [].
Proof. intros H. unfold Serper.knowledge_graph. rewrite (absent_is_falsy _ _ H). reflexivity. Qed.

Lemma serper_answer_box_absent kv :
  assoc "answerBox" kv = None -> Serper.answer_box (JObj kv) = Ok [].
Proof. intros H. unfold Serper.answer_box. rewrite (absent_is_falsy _ _ H). reflexivity. Qed.

Lemma searchapi_answer_box_absent kv :
  assoc "answer_box" kv = None -> SearchApi.answer_box (JObj kv) = Ok [].
Proof. intros H. unfold SearchApi.answer_box. rewrite (absent_is_falsy _ _ H). reflexivity. Qed.

Lemma searchapi_knowledge_graph_absent kv :
  assoc "knowledge_graph" kv = None -> SearchApi.knowledge_graph (JObj kv) = Ok [].
Proof. intros H. unfold SearchApi.knowledge_graph. rewrite (absent_is_falsy _ _ H). reflexivity. Qed.

Lemma get_default_absent fields k default :
  assoc k fields = None -> get_default fields k default = default.
Proof. intros H. unfold get_default. rewrite H. reflexivity. Qed.

Lemma empty_dict_falsy kv k fields :
  assoc k kv = Some (JObj fields) -> fields = [] ->
  py_get (JObj kv) k JNull = Ok (JObj []).
Proof. intros H ->. simpl. rewrite H. reflexivity. Qed.

(** A structured answer without a snippet, or without a url, is skipped. *)
Lemma serper_knowledge_graph_skipped kv kg :
  assoc "knowledgeGraph" kv = Some (JObj kg) ->
  assoc "description" kg = None
  \/ (assoc "descriptionUrl" kg = None /\ assoc "website" kg = None) ->
  Serper.knowledge_graph (JObj kv) = Ok [].
Proof.
  intros Hkv H. destruct kg as [|p kg'] eqn:E.
  { unfold Serper.knowledge_graph. rewrite (empty_dict_falsy _ _ _ Hkv eq_refl).
    reflexivity. }
  rewrite <- E in *. rewrite (serper_knowledge_graph_spec kv kg Hkv) by (subst; discriminate).
  cbv zeta. destruct H as [Hd | [Hu Hw]].
  - rewrite (get_default_absent _ _ _ Hd). simpl truthy. rewrite andb_false_r.
    reflexivity.
  - rewrite (get_default_absent _ _ _ Hu), (get_default_absent _ _ _ Hw).
    reflexivity.
Qed.

Lemma serper_answer_box_skipped kv ab :
  assoc "answerBox" kv = Some (JObj ab) ->
  assoc "url" ab = None
  \/ (assoc "snippet" ab = None /\ assoc "answer" ab = None) ->
  Serper.answer_box (JObj kv) = Ok [].
Proof.
  intros Hkv H. destruct ab as [|p ab'] eqn:E.
  { unfold Serper.answer_box. rewrite (empty_dict_falsy _ _ _ Hkv eq_refl).
    reflexivity. }
  rewrite <- E in *. rewrite (serper_answer_box_spec kv ab Hkv) by (subst; discriminate).
  cbv zeta. destruct H as [Hu | [Hs Ha]].
  - rewrite (get_default_absent _ _ _ Hu). reflexivity.
  - rewrite (get_default_absent _ _ _ Hs), (get_default_absent _ _ _ Ha).
    simpl truthy. rewrite andb_false_r. reflexivity.
Qed.

Lemma searchapi_answer_box_skipped kv ab :
  assoc "answer_box" kv = Some (JObj ab) ->
  dict_or_falsy (get_default ab "organic_result" JNull) = true ->
  assoc "link" ab = None
  \/ (assoc "answer" ab = None /\ assoc "snippet" ab = None) ->
  SearchApi.answer_box (JObj kv) = Ok [].
Proof.
  intros Hkv Hor H. destruct ab as [|p ab'] eqn:E.
  { unfold SearchApi.answer_box. rewrite (empty_dict_falsy _ _ _ Hkv eq_refl).
    reflexivity. }
  rewrite <- E in *.
  rewrite (searchapi_answer_box_spec kv ab Hkv) by (subst; (discriminate || assumption)).
  cbv zeta. destruct H as [Hu | [Hs Ha]].
  - rewrite (get_default_absent _ _ _ Hu). reflexivity.
  - rewrite (get_default_absent _ _ _ Hs), (get_default_absent _ _ _ Ha).
    simpl truthy. rewrite andb_false_r. reflexivity.
Qed.

Lemma searchapi_knowledge_graph_skipped kv kg :
  assoc "knowledge_graph" kv = Some (JObj kg) ->
  dict_or_falsy (get_default kg "source" JNull) = true ->
  assoc "website" kg = None \/ assoc "description" kg = None ->
  SearchApi.knowledge_graph (JObj kv) = Ok [].
Proof.
  intros Hkv Hsrc H. destruct kg as [|p kg'] eqn:E.
  { unfold SearchApi.knowledge_graph. rewrite (empty_dict_falsy _ _ _ Hkv eq_refl).
    reflexivity. }
  rewrite <- E in *.
  rewrite (searchapi_knowledge_graph_spec kv kg Hkv) by (subst; (discriminate || assumption)).
  cbv zeta. destruct H as [Hw | Hd].
  - rewrite (get_default_absent _ _ _ Hw). reflexivity.
  - rewrite (get_default_absent _ _ _ Hd). simpl truthy. rewrite andb_false_r.
    reflexivity.
Qed.

(** A [KeyError] never leaves either adapter. *)
Lemma except_KeyError_no_KeyError {A : Type} (body : result A) (a : A) (k : string) :
  except_KeyError body (Ok a) <> Err (KeyError k).
Proof. destruct body as [x|[]]; simpl; discriminate. Qed.

Lemma serper_response_no_KeyError response k :
  serper_response response <> Err (KeyError k).
Proof.
  unfold serper_response. destruct (negb (ok response)); [discriminate|].
  destruct (response_json response) as [c|e] eqn:E; simpl.
  - apply except_KeyError_no_KeyError.
  - unfold response_json in E. destruct (json_body response); inversion E.
    discriminate.
Qed.

Lemma searchapi_response_no_KeyError response k :
  searchapi_response response <> Err (KeyError k).
Proof.
  unfold searchapi_response. destruct (negb (ok response)); [discriminate|].
  destruct (response_json response) as [c|e] eqn:E; simpl.
  - apply except_KeyError_no_KeyError.
  - unfold response_json in E. destruct (json_body response); inversion E.
    discriminate.
Qed.

Lemma serper_response_KeyError response content k :
  ok response = true -> json_body response = Some content ->
  Serper.parse content = Err (KeyError k) ->
  serper_response response = Ok [].
Proof.
  intros Hok Hj Hp. unfold serper_response, response_json.
  rewrite Hok, Hj. simpl. rewrite Hp. reflexivity.
Qed.

Lemma searchapi_response_KeyError response content k :
  ok response = true -> json_body response = Some content ->
  SearchApi.parse content = Err (KeyError k) ->
  searchapi_response response = Ok (RList []).
Proof.
  intros Hok Hj Hp. unfold searchapi_response, response_json.
  rewrite Hok, Hj. simpl. rewrite Hp. reflexivity.
Qed.

Lemma mapM_app_err {A B : Type} (f : A -> result B) pre x post ys e :
  mapM f pre = Ok ys -> f x = Err e -> mapM f (pre ++ x :: post) = Err e.
Proof.
  revert ys. induction pre as [|p pre IH]; intros ys Hp Hx; simpl.
  - rewrite Hx. reflexivity.
  - simpl in Hp. destruct (f p); [|discriminate].
    destruct (mapM f pre) as [ys'|] eqn:E; [|discriminate].
    rewrite (IH ys' eq_refl Hx). reflexivity.
Qed.

Lemma organic_entry_missing_field fields :
  assoc "title" fields = None \/ assoc "link" fields = None ->
  (exists k, Serper.organic_entry (JObj fields) = Err (KeyError k))
  /\ (exists k, SearchApi.organic_entry (JObj fields) = Err (KeyError k)).
Proof.
  intros H. unfold Serper.organic_entry, SearchApi.organic_entry. simpl.
  destruct (assoc "title" fields) as [t|]; simpl; [|eauto].
  destruct H as [H|H]; [discriminate|]. rewrite H. simpl. eauto.
Qed.

Lemma serper_parse_missing kv c1 c2 :
  Serper.knowledge_graph (JObj kv) = Ok c1 ->
  Serper.answer_box (JObj kv) = Ok c2 ->
  assoc "organic" kv = None
  \/ (exists fields rest,
        assoc "organic" kv = Some (JArr (JObj fields :: rest))
        /\ (assoc "title" fields = None \/ assoc "link" fields = None)) ->
  exists k, Serper.parse (JObj kv) = Err (KeyError k).
Proof.
  intros H1 H2 H. unfold Serper.parse. rewrite H1, H2. cbn [bind py_getitem].
  destruct H as [Ho | (fields & rest & Ho & Hf)]; rewrite Ho; cbn [bind py_iter].
  - eauto.
  - destruct (organic_entry_missing_field fields Hf) as [(k & Hk) _].
    cbn [mapM]. rewrite Hk. simpl. eauto.
Qed.

Lemma searchapi_parse_missing kv c1 c2 :
  SearchApi.answer_box (JObj kv) = Ok c1 ->
  SearchApi.knowledge_graph (JObj kv) = Ok c2 ->
  assoc "organic_results" kv = None
  \/ (exists pre cs fields rest,
        assoc "organic_results" kv = Some (JArr (pre ++ JObj fields :: rest))
        /\ mapM SearchApi.organic_entry pre = Ok cs
        /\ (assoc "title" fields = None \/ assoc "link" fields = None)) ->
  exists k, SearchApi.parse (JObj kv) = Err (KeyError k).
Proof.
  intros H1 H2 H. unfold SearchApi.parse. rewrite H1, H2. cbn [bind py_getitem].
  destruct H as [Ho | (pre & cs & fields & rest & Ho & Hpre & Hf)];
    rewrite Ho; cbn [bind py_iter].
  - eauto.
  - destruct (organic_entry_missing_field fields Hf) as [_ (k & Hk)].
    rewrite (mapM_app_err _ pre _ rest cs _ Hpre Hk). simpl. eauto.
Qed.

(** C4 fails as stated: on a success status, with no transport failure, a
    structured answer of the wrong JSON type makes both adapters raise
    [AttributeError]. *)
Lemma malformed_structured_answer_raises :
  search_with_serper (answers serper_malformed) "spock" "key" = Err AttributeError
  /\ search_with_searchapi (answers searchapi_malformed) "spock" "key"
     = Err AttributeError.
Proof. split; reflexivity. Qed.

(** C4, as the code has it: a non-success status is raised as
    [HTTPException] with the provider's status and the adapter's fixed
    message; a transport failure is passed on; on a success status no
    [KeyError] leaves an adapter, and a missing key (no organic list, an
    organic entry without title or link) gives the empty list; a structured
    answer that is a dict without url or without snippet is skipped. *)
Theorem search_adapters_missing_fields (response : http_response) :
  (ok response = false ->
     serper_response response
     = Err (HTTPException (status_code response) "search engine error.")
     /\ searchapi_response response
        = Err (HTTPException (status_code response) "Search engine error."))
  /\ (forall requests query key e,
        requests (serper_request query key) = Err e ->
        search_with_serper requests query key = Err e)
  /\ (forall requests query key e,
        requests (searchapi_request query key) = Err e ->
        search_with_searchapi requests query key = Err e)
  /\ (forall k, serper_response response <> Err (KeyError k)
                /\ searchapi_response response <> Err (KeyError k))
  /\ (forall kv c1 c2,
        ok response = true -> json_body response = Some (JObj kv) ->
        Serper.knowledge_graph (JObj kv) = Ok c1 ->
        Serper.answer_box (JObj kv) = Ok c2 ->
        assoc "organic" kv = None
        \/ (exists fields rest,
              assoc "organic" kv = Some (JArr (JObj fields :: rest))
              /\ (assoc "title" fields = None \/ assoc "link" fields = None)) ->
        serper_response response = Ok [])
  /\ (forall kv c1 c2,
        ok response = true -> json_body response = Some (JObj kv) ->
        SearchApi.answer_box (JObj kv) = Ok c1 ->
        SearchApi.knowledge_graph (JObj kv) = Ok c2 ->
        assoc "organic_results" kv = None
        \/ (exists pre cs fields rest,
              assoc "organic_results" kv = Some (JArr (pre ++ JObj fields :: rest))
              /\ mapM SearchApi.organic_entry pre = Ok cs
              /\ (assoc "title" fields = None \/ assoc "link" fields = None)) ->
        searchapi_response response = Ok (RList []))
  /\ (forall kv kg,
        assoc "knowledgeGraph" kv = Some (JObj kg) ->
        assoc "description" kg = None
        \/ (assoc "descriptionUrl" kg = None /\ assoc "website" kg = None) ->
        Serper.knowledge_graph (JObj kv) = Ok [])
  /\ (forall kv ab,
        assoc "answerBox" kv = Some (JObj ab) ->
        assoc "url" ab = None
        \/ (assoc "snippet" ab = None /\ assoc "answer" ab = None) ->
        Serper.answer_box (JObj kv) = Ok [])
  /\ (forall kv ab,
        assoc "answer_box" kv = Some (JObj ab) ->
        dict_or_falsy (get_default ab "organic_result" JNull) = true ->
        assoc "link" ab = None
        \/ (assoc "answer" ab = None /\ assoc "snippet" ab = None) ->
        SearchApi.answer_box (JObj kv) = Ok [])
  /\ (forall kv kg,
        assoc "knowledge_graph" kv = Some (JObj kg) ->
        dict_or_falsy (get_default kg "source" JNull) = true ->
        assoc "website" kg = None \/ assoc "description" kg = None ->
        SearchApi.knowledge_graph (JObj kv) = Ok []).
Proof.
  split.
  { intros Hok. unfold serper_response, searchapi_response. rewrite Hok.
    split; reflexivity. }
  split.
  { intros requests query key e H. unfold search_with_serper.
    rewrite H. reflexivity. }
  split.
  { intros requests query key e H. unfold search_with_searchapi.
    rewrite H. reflexivity. }
  split.
  { intros k. split; [apply serper_response_no_KeyError
                     | apply searchapi_response_no_KeyError]. }
  split.
  { intros kv c1 c2 Hok Hj H1 H2 H.
    destruct (serper_parse_missing kv c1 c2 H1 H2 H) as (k & Hk).
    eapply serper_response_KeyError; eassumption. }
  split.
  { intros kv c1 c2 Hok Hj H1 H2 H.
    destruct (searchapi_parse_missing kv c1 c2 H1 H2 H) as (k & Hk).
    eapply searchapi_response_KeyError; eassumption. }
  split; [exact serper_knowledge_graph_skipped|].
  split; [exact serper_answer_box_skipped|].
  split; [exact searchapi_answer_box_skipped|].
  exact searchapi_knowledge_graph_skipped.
Qed.

(** ** The properties on the scenario of the specification *)


Lemma cache_failure_proceeds_witness :
  let q := "Which character on the show 'The Big Bang Theory' idolizes Spock the most?" in
  let contexts :=
    [ mkContext (JStr "Sheldon Cooper") (JStr "https://example.org/sheldon")
        (JStr "Sheldon Cooper idolizes Spock.");
      mkContext (JStr "Spock") (JStr "https://example.org/spock")
        (JStr "Spock is Sheldon's idol.");
      mkContext (JStr "The Big Bang Theory") (JStr "https://example.org/tbbt")
        (JStr "");
      mkContext (JStr "Who plays Sheldon?") (JStr "https://example.org/jim")
        (JStr "Jim Parsons.") ] in
  let prompt :=
    (rag_query_head
     ++ "[[citation:1]] Sheldon Cooper idolizes Spock.

[[citation:2]] Spock is Sheldon's idol.

[[citation:3]] 

[[citation:4]] Jim Parsons."
     ++ rag_query_tail)%string in
  kv_get Scenario.cache_down Scenario.start "abc123" = Err Timeout
  /\ Scenario.handle Scenario.cache_down Scenario.start "" (Some "abc123") (Some true)
     = (Ok (StreamingResponse
              (StreamAndUpload contexts
                 (mkStream [ mkChunk [mkChoice (Some "Sheldon Cooper")];
                             mkChunk [];
                             mkChunk [mkChoice None];
                             mkChunk [mkChoice (Some " [citation:1]")] ] None)
                 (Some (Ok (JArr [JStr "Who plays Sheldon Cooper?";
                                  JStr "Who plays Spock in Star Trek?"])))
                 "abc123")
              (Some "text/html")),
        mkWorld ∅
          [KvGet "abc123"; Search q; CompletionStream prompt q;
           RelatedSubmit q contexts]).
Proof.
  split; [reflexivity|].
  destruct (cache_failure_proceeds_to_live_generation Scenario.loads Json.repr
              Scenario.cache_down Scenario.start "" "abc123" (Some true) Timeout)
    as (Hlive & _).
  - discriminate.
  - reflexivity.
  - exact (Hlive ltac:(discriminate) Scenario.contexts Scenario.answer
             eq_refl eq_refl eq_refl (fun _ => eq_refl)).
Defined.

Lemma system_prompt_citation_markers_witness :
  markers (system_prompt Json.repr
             [ mkContext (JStr "Sheldon Cooper") (JStr "https://example.org/sheldon")
                 (JStr "Sheldon Cooper idolizes Spock.");
               mkContext (JStr "Spock") (JStr "https://example.org/spock")
                 (JStr "Spock is Sheldon's idol.");
               mkContext (JStr "The Big Bang Theory") (JStr "https://example.org/tbbt")
                 (JStr "");
               mkContext (JStr "Who plays Sheldon?") (JStr "https://example.org/jim")
                 (JStr "Jim Parsons.") ])
  = [1; 2; 3; 4].
Proof.
  destruct (system_prompt_citation_markers Json.repr Scenario.contexts)
    as (_ & _ & H).
  apply H. intros c Hc. simpl in Hc.
  destruct Hc as [<- | [<- | [<- | [<- | []]]]]; reflexivity.
Defined.

Lemma completion_setup_failure_witness :
  exists w' evs,
    Scenario.handle Scenario.completion_down Scenario.start "" (Some "abc123")
      (Some true)
    = (Ok (HTMLResponse "Internal Server Error." 503), w')
    /\ trace w' = trace Scenario.start ++ evs
    /\ existsb is_KvPut evs = false
    /\ kv w' = kv Scenario.start.
Proof.
  apply (completion_setup_failure_gives_503 Scenario.loads Json.repr
           Scenario.completion_down Scenario.start "" "abc123" (Some true)
           Scenario.contexts (KeyError "abc123") Timeout).
  - discriminate.
  - reflexivity.
  - discriminate.
  - reflexivity.
  - right. left. reflexivity.
Defined.

Lemma query_function_rejects_missing_uuid_witness :
  Scenario.handle Scenario.self Scenario.start "" (Some "") (Some true)
  = (Err (HTTPException 400 "search_uuid must be provided."), Scenario.start).
Proof.
  apply (query_function_rejects_missing_uuid Scenario.loads Json.repr
           Scenario.self Scenario.start "" (Some "") (Some true)).
  right. reflexivity.
Defined.

Lemma related_sentinel_on_live_stream_witness :
  exists fut w' chunks w'',
    Scenario.handle Scenario.self Scenario.start "" (Some "abc123") (Some false)
    = (Ok (StreamingResponse
             (StreamAndUpload Scenario.contexts Scenario.answer fut "abc123")
             (Some "text/html")), w')
    /\ consume Json.dumps Scenario.self w'
         (StreamAndUpload Scenario.contexts Scenario.answer fut "abc123")
       = ((chunks, None), w'')
    /\ (should_do_related_questions Scenario.self && flag (Some false) = true ->
        exists related_questions,
          py_len related_questions <= 5
          /\ chunks = (contexts_segment Json.dumps Scenario.contexts
                         ++ completion_segment Scenario.answer)
                      ++ [RELATED_QUESTIONS_SENTINEL; Json.dumps related_questions])
    /\ (should_do_related_questions Scenario.self && flag (Some false) = false ->
        chunks = contexts_segment Json.dumps Scenario.contexts
                   ++ completion_segment Scenario.answer).
Proof.
  apply (related_sentinel_on_live_stream Json.dumps Scenario.loads Json.repr
           Scenario.self Scenario.start "" "abc123" (Some false)
           Scenario.contexts Scenario.answer (KeyError "abc123")).
  - discriminate.
  - reflexivity.
  - discriminate.
  - reflexivity.
  - reflexivity.
  - reflexivity.
  - reflexivity.
  - reflexivity.
Defined.

Lemma empty_contexts_stream_witness :
  exists fut w' rest raised w'',
    Scenario.handle Scenario.no_results Scenario.start "" (Some "abc123") (Some true)
    = (Ok (StreamingResponse (StreamAndUpload [] Scenario.answer fut "abc123")
             (Some "text/html")), w')
    /\ consume Json.dumps Scenario.no_results w'
         (StreamAndUpload [] Scenario.answer fut "abc123")
       = ((["[]"; "
___LLM_RESPONSE___
";
            "Could not get the context as the search engine did not return any answer for this query."]
             ++ ["Sheldon Cooper"; ""; " [citation:1]"]
             ++ rest, raised), w'').
Proof.
  apply (empty_contexts_stream_has_notice Json.dumps Scenario.loads Json.repr
           Scenario.no_results Scenario.start "" "abc123" (Some true)
           Scenario.answer (KeyError "abc123")).
  - discriminate.
  - reflexivity.
  - discriminate.
  - reflexivity.
  - reflexivity.
  - reflexivity.
  - reflexivity.
Defined.

Lemma search_adapters_missing_fields_witness :
  serper_response
    (mkResponse true 200 ""
       (Some (JObj [("knowledgeGraph", JObj [("title", JStr "Spock")])])))
  = Ok [].
Proof.
  refine (proj1 (proj2 (proj2 (proj2 (proj2
            (search_adapters_missing_fields
               (mkResponse true 200 ""
                  (Some (JObj [("knowledgeGraph",
                                JObj [("title", JStr "Spock")])]))))))))
            _ [] [] _ _ _ _ _); try reflexivity.
  left. reflexivity.
Defined.

(** C8 as stated fails: the snippet of a search result is copied into the
    prompt as it is, so a snippet that quotes a marker adds one to the
    prompt: with the single context below the prompt holds the markers 1 and
    7, not exactly one marker.  With single brackets, the form in which the
    answer is asked to cite, the template alone already holds two numbered
    tags, 3 and 5, before any context. *)
Lemma snippet_marker_text_is_counted :
  List.length [ mkContext (JStr "Spock") (JStr "https://example.org/spock")
                  (JStr "As [[citation:7]] shows, Spock is a Vulcan.") ] <= 4
  /\ markers (system_prompt Json.repr
                [ mkContext (JStr "Spock") (JStr "https://example.org/spock")
                    (JStr "As [[citation:7]] shows, Spock is a Vulcan.") ])
     = [1; 7]
  /\ markers (system_prompt Json.repr
                [ mkContext (JStr "Spock") (JStr "https://example.org/spock")
                    (JStr "As [[citation:7]] shows, Spock is a Vulcan.") ])
     <> seq 1 1
  /\ tags "[citation:" "]" (system_prompt Json.repr []) = [3; 5].
Proof.
  split; [simpl; lia|]. split; [vm_compute; reflexivity|].
  split; [vm_compute; discriminate|]. vm_compute. reflexivity.
Qed.

(** C9 fails as stated: the first request of the scenario asks for related
    questions and its envelope is stored; the second request, with the same
    [search_uuid] and [generate_related_questions=false], is answered by
    that envelope, sentinel included. *)
Lemma replay_ignores_generate_related_questions :
  kv Scenario.cached !! "abc123" = Some Scenario.envelope
  /\ fst (Scenario.handle Scenario.self Scenario.cached "" (Some "abc123")
            (Some false))
     = Ok (StreamingResponse (StrToGenerator Scenario.envelope) None)
  /\ occurs RELATED_QUESTIONS_SENTINEL Scenario.envelope = true
  /\ should_do_related_questions Scenario.self && flag (Some false) = false.
Proof. vm_compute. repeat split. Qed.

(** * Further properties of the code *)

(** ** The removal of instruction markers *)

Lemma re_sub_INST_from_no_bracket (a t : string) :
  no_bracket a = true ->
  re_sub_INST_from 0 (a ++ t) = (a ++ re_sub_INST_from 0 t)%string.
Proof.
  induction a as [|c a IH]; intros H; [reflexivity|].
  cbn [no_bracket] in H. apply andb_prop in H. destruct H as [Hc Ha].
  change (String c a ++ t)%string with (String c (a ++ t)%string).
  change (String c a ++ re_sub_INST_from 0 t)%string
    with (String c (a ++ re_sub_INST_from 0 t)%string).
  cbn [re_sub_INST_from String.prefix].
  destruct (ascii_dec "[" c) as [<-|_]; [discriminate Hc|].
  rewrite (IH Ha). reflexivity.
Qed.

Lemma re_sub_INST_from_open (t : string) :
  re_sub_INST_from 0 ("[INST]" ++ t) = re_sub_INST_from 0 t.
Proof. destruct t; reflexivity. Qed.

Lemma re_sub_INST_from_close (t : string) :
  re_sub_INST_from 0 ("[/INST]" ++ t) = re_sub_INST_from 0 t.
Proof. destruct t; reflexivity. Qed.

(** X1: a query without an opening bracket passes the marker removal
    unchanged. *)
Theorem re_sub_INST_plain (query : string) :
  no_bracket query = true -> re_sub_INST query = query.
Proof.
  intros H. unfold re_sub_INST.
  rewrite <- (string_app_nil_r query) at 1.
  rewrite (re_sub_INST_from_no_bracket _ _ H). apply string_app_nil_r.
Qed.

Lemma re_sub_INST_plain_witness :
  re_sub_INST "Who idolizes Spock?" = "Who idolizes Spock?".
Proof. apply re_sub_INST_plain. reflexivity. Defined.

(** X2: after a text without opening bracket, an [[INST]] or [[/INST]]
    marker is dropped and the removal goes on behind it. *)
Theorem re_sub_INST_drops_marker (a b : string) :
  no_bracket a = true ->
  re_sub_INST (a ++ "[INST]" ++ b) = (a ++ re_sub_INST b)%string
  /\ re_sub_INST (a ++ "[/INST]" ++ b) = (a ++ re_sub_INST b)%string.
Proof.
  intros H. unfold re_sub_INST.
  rewrite !(re_sub_INST_from_no_bracket _ _ H),
    re_sub_INST_from_open, re_sub_INST_from_close.
  split; reflexivity.
Qed.

Lemma re_sub_INST_drops_marker_witness :
  re_sub_INST ("Hello " ++ "[INST]" ++ "world") = ("Hello " ++ re_sub_INST "world")%string
  /\ re_sub_INST ("Hello " ++ "[/INST]" ++ "world")
     = ("Hello " ++ re_sub_INST "world")%string.
Proof. apply re_sub_INST_drops_marker. reflexivity. Defined.

(** X3: the removal is one pass: a marker wrapped around a marker leaves a
    marker in the query the providers see. *)
Theorem normalize_leaves_nested_marker (a b : string) :
  no_bracket a = true ->
  normalize (a ++ "[[INST]INST]" ++ b) = (a ++ "[INST]" ++ re_sub_INST b)%string
  /\ occurs "[INST]" (normalize (a ++ "[[INST]INST]" ++ b)) = true.
Proof.
  intros H.
  assert (E : normalize (a ++ "[[INST]INST]" ++ b)
              = (a ++ "[INST]" ++ re_sub_INST b)%string).
  { unfold normalize.
    assert (Hne : String.eqb (a ++ "[[INST]INST]" ++ b) "" = false).
    { destruct a; reflexivity. }
    rewrite Hne. unfold re_sub_INST.
    rewrite (re_sub_INST_from_no_bracket _ _ H).
    change ("[[INST]INST]" ++ b)%string
      with (String "[" ("[INST]" ++ ("INST]" ++ b)))%string.
    change (re_sub_INST_from 0 (String "[" ("[INST]" ++ ("INST]" ++ b))))
      with (String "[" (re_sub_INST_from 0 ("[INST]" ++ ("INST]" ++ b)))).
    rewrite re_sub_INST_from_open.
    rewrite (re_sub_INST_from_no_bracket "INST]" b eq_refl). reflexivity. }
  split; [exact E|]. rewrite E. apply occurs_app.
Qed.

Lemma normalize_leaves_nested_marker_witness :
  normalize ("Say " ++ "[[INST]INST]" ++ " hi")
  = ("Say " ++ "[INST]" ++ re_sub_INST " hi")%string
  /\ occurs "[INST]" (normalize ("Say " ++ "[[INST]INST]" ++ " hi")) = true.
Proof. apply normalize_leaves_nested_marker. reflexivity. Defined.

(** ** What the search adapters return *)

Lemma serper_organic_empty items c3 :
  mapM Serper.organic_entry items = Ok c3 -> items = [] /\ c3 = [].
Proof.
  destruct items as [|c rest]; simpl.
  - intros [= <-]. auto.
  - destruct (serper_organic_entry_raises c) as (e & ->). discriminate.
Qed.

Lemma serper_knowledge_graph_length content c :
  Serper.knowledge_graph content = Ok c -> List.length c <= 1.
Proof.
  unfold Serper.knowledge_graph, py_or. intros H.
  repeat (apply bind_Ok in H; destruct H as (? & _ & H);
          try match type of H with
              | (if ?b then _ else _) = _ => destruct b
              end);
    inversion H; simpl; lia.
Qed.

Lemma serper_answer_box_length content c :
  Serper.answer_box content = Ok c -> List.length c <= 1.
Proof.
  unfold Serper.answer_box, py_or. intros H.
  repeat (apply bind_Ok in H; destruct H as (? & _ & H);
          try match type of H with
              | (if ?b then _ else _) = _ => destruct b
              end);
    inversion H; simpl; lia.
Qed.

(** X4: whatever [search_with_serper] returns holds no organic result: it is
    empty, or it is the knowledge-graph context followed by the answer-box
    context, so it has at most two entries. *)
Theorem search_with_serper_structured_only
    (requests_post : http_request -> result http_response)
    (query key : string) (l : list context) :
  search_with_serper requests_post query key = Ok l ->
  List.length l <= 2
  /\ (l = []
      \/ exists response content c1 c2,
           requests_post (serper_request query key) = Ok response
           /\ json_body response = Some content
           /\ Serper.knowledge_graph content = Ok c1
           /\ Serper.answer_box content = Ok c2
           /\ l = c1 ++ c2).
Proof.
  unfold search_with_serper.
  destruct (requests_post (serper_request query key)) as [response|e] eqn:Hr;
    simpl; [|discriminate].
  unfold serper_response. destruct (negb (ok response)); [discriminate|].
  unfold response_json.
  destruct (json_body response) as [content|] eqn:Hj; simpl; [|discriminate].
  destruct (Serper.parse content) as [l'|e] eqn:Hp; simpl.
  2:{ destruct e; try discriminate. intros [= <-]. split; [simpl; lia | auto]. }
  intros [= ->]. unfold Serper.parse in Hp.
  apply bind_Ok in Hp. destruct Hp as (c1 & H1 & Hp).
  apply bind_Ok in Hp. destruct Hp as (c2 & H2 & Hp).
  apply bind_Ok in Hp. destruct Hp as (o & _ & Hp).
  apply bind_Ok in Hp. destruct Hp as (items & _ & Hp).
  apply bind_Ok in Hp. destruct Hp as (c3 & H3 & Hp).
  destruct (serper_organic_empty _ _ H3) as [_ ->].
  pose proof (serper_knowledge_graph_length _ _ H1) as L1.
  pose proof (serper_answer_box_length _ _ H2) as L2.
  inversion Hp as [Hl]. rewrite app_nil_r.
  assert (Hlen : List.length (c1 ++ c2) <= 2) by (rewrite length_app; lia).
  rewrite firstn_all2 by (unfold REFERENCES_COUNT; lia).
  split; [exact Hlen|]. right. exists response, content, c1, c2. auto.
Qed.

Lemma search_with_serper_structured_only_witness :
  List.length
    [mkContext (JStr "Spock") (JStr "https://example.org/spock") (JStr "A Vulcan.")]
  <= 2
  /\ ([mkContext (JStr "Spock") (JStr "https://example.org/spock") (JStr "A Vulcan.")]
      = []
      \/ exists response content c1 c2,
           answers serper_graph_only (serper_request "spock" "key") = Ok response
           /\ json_body response = Some content
           /\ Serper.knowledge_graph content = Ok c1
           /\ Serper.answer_box content = Ok c2
           /\ [mkContext (JStr "Spock") (JStr "https://example.org/spock")
                 (JStr "A Vulcan.")] = c1 ++ c2).
Proof.
  apply (search_with_serper_structured_only (answers serper_graph_only)
           "spock" "key"). reflexivity.
Defined.

(** X5: a list returned by [search_with_searchapi] has at most
    [REFERENCES_COUNT] entries. *)
Theorem search_with_searchapi_bound
    (requests_get : http_request -> result http_response)
    (query key : string) (l : list context) :
  search_with_searchapi requests_get query key = Ok (RList l) ->
  List.length l <= REFERENCES_COUNT.
Proof.
  unfold search_with_searchapi.
  destruct (requests_get (searchapi_request query key)) as [response|e];
    simpl; [|discriminate].
  apply searchapi_response_bound.
Qed.

Lemma search_with_searchapi_bound_witness :
  List.length Scenario.contexts <= REFERENCES_COUNT.
Proof.
  apply (search_with_searchapi_bound (answers Scenario.body) "spock" "key").
  reflexivity.
Defined.

Lemma searchapi_organic_entry_fields fields title link :
  assoc "title" fields = Some title ->
  assoc "link" fields = Some link ->
  SearchApi.organic_entry (JObj fields)
  = Ok (mkContext title link (get_default fields "snippet" (JStr ""))).
Proof.
  intros Ht Hl. unfold SearchApi.organic_entry. simpl. rewrite Ht, Hl. reflexivity.
Qed.

(** X6: on a body with related questions, [search_with_searchapi] returns the
    answer-box context, then the knowledge-graph context, then the organic
    results, then the related questions, cut after [REFERENCES_COUNT]
    entries. *)
Theorem search_with_searchapi_order
    (requests_get : http_request -> result http_response)
    (query key : string) (response : http_response)
    (kv : list (string * json)) (c1 c2 c3 : list context)
    (items qs : list json) (c4 : list (list context)) :
  requests_get (searchapi_request query key) = Ok response ->
  ok response = true ->
  json_body response = Some (JObj kv) ->
  SearchApi.answer_box (JObj kv) = Ok c1 ->
  SearchApi.knowledge_graph (JObj kv) = Ok c2 ->
  assoc "organic_results" kv = Some (JArr items) ->
  mapM SearchApi.organic_entry items = Ok c3 ->
  assoc "related_questions" kv = Some (JArr qs) -> qs <> [] ->
  mapM SearchApi.related_entry qs = Ok c4 ->
  search_with_searchapi requests_get query key
  = Ok (RList (firstn REFERENCES_COUNT (((c1 ++ c2) ++ c3) ++ concat c4))).
Proof.
  intros Hr Hok Hj H1 H2 Ho H3 Hq Hne H4.
  unfold search_with_searchapi. rewrite Hr. simpl.
  unfold searchapi_response, response_json. rewrite Hok, Hj. simpl.
  rewrite (searchapi_parse_order (JObj kv) c1 c2 items c3 qs c4 kv eq_refl
             H1 H2 Ho H3 Hq Hne H4).
  reflexivity.
Qed.

Lemma search_with_searchapi_order_witness :
  search_with_searchapi (answers Scenario.body) "spock" "key"
  = Ok (RList (firstn REFERENCES_COUNT
                 ((([mkContext (JStr "Sheldon Cooper")
                       (JStr "https://example.org/sheldon")
                       (JStr "Sheldon Cooper idolizes Spock.")] ++ [])
                   ++ [mkContext (JStr "Spock") (JStr "https://example.org/spock")
                         (JStr "Spock is Sheldon's idol.");
                       mkContext (JStr "The Big Bang Theory")
                         (JStr "https://example.org/tbbt") (JStr "")])
                  ++ concat [[mkContext (JStr "Who plays Sheldon?")
                                (JStr "https://example.org/jim")
                                (JStr "Jim Parsons.")]]))).
Proof.
  eapply (search_with_searchapi_order (answers Scenario.body) "spock" "key"
            (mkResponse true 200 "" (Some Scenario.body))).
  - reflexivity.
  - reflexivity.
  - reflexivity.
  - reflexivity.
  - reflexivity.
  - reflexivity.
  - reflexivity.
  - reflexivity.
  - discriminate.
  - reflexivity.
Defined.

(** X7: Serper's knowledge graph gives a context exactly when its url and
    its description are truthy; the url is [descriptionUrl], or [website]
    when that is missing or falsy, and the name is the title or the empty
    string. *)
Theorem serper_knowledge_graph_context (kv kg : list (string * json)) :
  assoc "knowledgeGraph" kv = Some (JObj kg) -> kg <> [] ->
  Serper.knowledge_graph (JObj kv)
  = Ok (let url := if truthy (get_default kg "descriptionUrl" JNull)
                   then get_default kg "descriptionUrl" JNull
                   else get_default kg "website" JNull in
        let snippet := get_default kg "description" JNull in
        if truthy url && truthy snippet
        then [mkContext (get_default kg "title" (JStr "")) url snippet]
        else []).
Proof.
  intros Hkv Hne.
  assert (Ht : truthy (JObj kg) = true) by (destruct kg; [contradiction|reflexivity]).
  unfold Serper.knowledge_graph. cbn [py_get py_getitem bind]. rewrite Hkv, Ht.
  cbn [bind]. rewrite !py_get_dict. cbn [bind]. unfold py_or.
  destruct (truthy (get_default kg "descriptionUrl" JNull)); cbn [bind];
    rewrite ?py_get_dict; cbn [bind];
    match goal with |- context [if ?b then _ else _] => destruct b end;
    rewrite ?py_get_dict; reflexivity.
Qed.

Lemma serper_knowledge_graph_context_witness :
  Serper.knowledge_graph serper_graph_only
  = Ok [mkContext (JStr "Spock") (JStr "https://example.org/spock")
          (JStr "A Vulcan.")].
Proof.
  apply (serper_knowledge_graph_context
           [("knowledgeGraph",
             JObj [("title", JStr "Spock");
                   ("website", JStr "https://example.org/spock");
                   ("description", JStr "A Vulcan.")]);
            ("organic", JArr [])]
           [("title", JStr "Spock");
            ("website", JStr "https://example.org/spock");
            ("description", JStr "A Vulcan.")]).
  - reflexivity.
  - discriminate.
Defined.

(** X8: Serper's answer box gives a context exactly when its url and its
    snippet are truthy; the snippet is [snippet], or [answer] when that is
    missing or falsy. *)
Theorem serper_answer_box_context (kv ab : list (string * json)) :
  assoc "answerBox" kv = Some (JObj ab) -> ab <> [] ->
  Serper.answer_box (JObj kv)
  = Ok (let url := get_default ab "url" JNull in
        let snippet := if truthy (get_default ab "snippet" JNull)
                       then get_default ab "snippet" JNull
                       else get_default ab "answer" JNull in
        if truthy url && truthy snippet
        then [mkContext (get_default ab "title" (JStr "")) url snippet]
        else []).
Proof.
  intros Hkv Hne.
  assert (Ht : truthy (JObj ab) = true) by (destruct ab; [contradiction|reflexivity]).
  unfold Serper.answer_box. cbn [py_get py_getitem bind]. rewrite Hkv, Ht.
  cbn [bind]. rewrite !py_get_dict. cbn [bind]. unfold py_or.
  destruct (truthy (get_default ab "snippet" JNull)); cbn [bind];
    rewrite ?py_get_dict; cbn [bind];
    match goal with |- context [if ?b then _ else _] => destruct b end;
    rewrite ?py_get_dict; reflexivity.
Qed.

Lemma serper_answer_box_context_witness :
  Serper.answer_box
    (JObj [("answerBox", JObj [("url", JStr "https://example.org/a");
                               ("answer", JStr "Sheldon.")])])
  = Ok [mkContext (JStr "") (JStr "https://example.org/a") (JStr "Sheldon.")].
Proof.
  apply (serper_answer_box_context
           [("answerBox", JObj [("url", JStr "https://example.org/a");
                                ("answer", JStr "Sheldon.")])]
           [("url", JStr "https://example.org/a"); ("answer", JStr "Sheldon.")]).
  - reflexivity.
  - discriminate.
Defined.

(** X9: the context SearchAPI's answer box gives is built from its [title],
    [link] and [answer] (or [snippet]) alone: what the code reads from
    [organic_result], and from [place] and [explore_more_link] of a
    population graph, is overwritten before it is used. *)
Theorem searchapi_answer_box_context (kv ab : list (string * json)) :
  assoc "answer_box" kv = Some (JObj ab) -> ab <> [] ->
  dict_or_falsy (get_default ab "organic_result" JNull) = true ->
  SearchApi.answer_box (JObj kv)
  = Ok (let url := get_default ab "link" JNull in
        let snippet := if truthy (get_default ab "answer" JNull)
                       then get_default ab "answer" JNull
                       else get_default ab "snippet" JNull in
        if truthy url && truthy snippet
        then [mkContext (get_default ab "title" (JStr "")) url snippet]
        else []).
Proof.
  intros Hkv Hne Hor.
  assert (Ht : truthy (JObj ab) = true) by (destruct ab; [contradiction|reflexivity]).
  unfold SearchApi.answer_box. cbn [py_get py_getitem bind]. rewrite Hkv, Ht.
  cbn [bind]. rewrite !py_get_dict. cbn [bind].
  assert (Hstep : forall (k : unit -> result (list context)),
    bind (if truthy (get_default ab "organic_result" JNull)
          then bind (py_get (get_default ab "organic_result" JNull) "title" (JStr ""))
                 (fun _ => bind (py_get (get_default ab "organic_result" JNull)
                                   "link" (JStr ""))
                             (fun _ => Ok tt))
          else Ok tt) k = k tt).
  { intros k. destruct (truthy (get_default ab "organic_result" JNull)) eqn:E;
      [|reflexivity].
    destruct (py_get_dict_or_falsy _ "title" (JStr "") Hor E) as (o & Ho & _).
    rewrite Ho. reflexivity. }
  rewrite Hstep.
  destruct (json_eqb_str (get_default ab "type" JNull) "population_graph");
    cbn [bind]; unfold py_or;
    (destruct (truthy (get_default ab "answer" JNull)); cbn [bind];
     rewrite ?py_get_dict; cbn [bind];
     match goal with |- context [if ?b then _ else _] => destruct b end;
     reflexivity).
Qed.

Lemma searchapi_answer_box_context_witness :
  SearchApi.answer_box
    (JObj [("answer_box",
            JObj [("type", JStr "population_graph");
                  ("place", JStr "Vulcan");
                  ("explore_more_link", JStr "https://example.org/more");
                  ("organic_result",
                   JObj [("title", JStr "Census");
                         ("link", JStr "https://example.org/census")]);
                  ("answer", JStr "6 billion")])])
  = Ok [].
Proof.
  apply (searchapi_answer_box_context
           [("answer_box",
             JObj [("type", JStr "population_graph");
                   ("place", JStr "Vulcan");
                   ("explore_more_link", JStr "https://example.org/more");
                   ("organic_result",
                    JObj [("title", JStr "Census");
                          ("link", JStr "https://example.org/census")]);
                   ("answer", JStr "6 billion")])]
           [("type", JStr "population_graph");
            ("place", JStr "Vulcan");
            ("explore_more_link", JStr "https://example.org/more");
            ("organic_result",
             JObj [("title", JStr "Census");
                   ("link", JStr "https://example.org/census")]);
            ("answer", JStr "6 billion")]).
  - reflexivity.
  - discriminate.
  - reflexivity.
Defined.

(** X10: the context SearchAPI's knowledge graph gives takes its url from
    [website] alone: the link of [source] is read and overwritten, so a
    knowledge graph with a source and no website is skipped. *)
Theorem searchapi_knowledge_graph_context (kv kg : list (string * json)) :
  assoc "knowledge_graph" kv = Some (JObj kg) -> kg <> [] ->
  dict_or_falsy (get_default kg "source" JNull) = true ->
  SearchApi.knowledge_graph (JObj kv)
  = Ok (let url := get_default kg "website" (JStr "") in
        let snippet := get_default kg "description" JNull in
        if truthy url && truthy snippet
        then [mkContext (get_default kg "title" (JStr "")) url snippet]
        else []).
Proof.
  intros Hkv Hne Hsrc.
  assert (Ht : truthy (JObj kg) = true) by (destruct kg; [contradiction|reflexivity]).
  unfold SearchApi.knowledge_graph. cbn [py_get py_getitem bind]. rewrite Hkv, Ht.
  cbn [bind]. rewrite !py_get_dict. cbn [bind].
  assert (Hstep : forall (k : unit -> result (list context)),
    bind (if truthy (get_default kg "source" JNull)
          then bind (py_get (get_default kg "source" JNull) "link" (JStr ""))
                 (fun _ => Ok tt)
          else Ok tt) k = k tt).
  { intros k. destruct (truthy (get_default kg "source" JNull)) eqn:E; [|reflexivity].
    destruct (py_get_dict_or_falsy _ "link" (JStr "") Hsrc E) as (o & Ho & _).
    rewrite Ho. reflexivity. }
  rewrite Hstep.
  match goal with |- context [if ?b then _ else _] => destruct b end;
    rewrite ?py_get_dict; reflexivity.
Qed.

Lemma searchapi_knowledge_graph_context_witness :
  SearchApi.knowledge_graph
    (JObj [("knowledge_graph",
            JObj [("title", JStr "Spock");
                  ("description", JStr "A Vulcan.");
                  ("source", JObj [("link", JStr "https://example.org/wiki")])])])
  = Ok [].
Proof.
  apply (searchapi_knowledge_graph_context
           [("knowledge_graph",
             JObj [("title", JStr "Spock");
                   ("description", JStr "A Vulcan.");
                   ("source", JObj [("link", JStr "https://example.org/wiki")])])]
           [("title", JStr "Spock");
            ("description", JStr "A Vulcan.");
            ("source", JObj [("link", JStr "https://example.org/wiki")])]).
  - reflexivity.
  - discriminate.
  - reflexivity.
Defined.

(** ** The handler beyond the happy path *)

Section MoreHandlerProperties.

Variable json_dumps : json -> string.
Variable json_loads : string -> result json.
Variable py_repr : json -> string.

Local Abbreviation query_function := (query_function json_loads py_repr).
Local Abbreviation live_generation := (live_generation json_loads py_repr).
Local Abbreviation start_completion := (start_completion json_loads).
Local Abbreviation consume := (consume json_dumps).
Local Abbreviation system_prompt := (system_prompt py_repr).
Local Abbreviation related_future := (related_future json_loads).
Local Abbreviation setup_events := (setup_events py_repr).

Lemma live_generation_search_result self w query uuid g :
  backend self <> LEPTON ->
  live_generation self w query uuid g
  = match search_function self (normalize query) with
    | Err e => (Err e, record w (Search (normalize query)))
    | Ok RNone => (Err TypeError, record w (Search (normalize query)))
    | Ok (RList l) =>
        match start_completion self (record w (Search (normalize query)))
                (system_prompt l) (normalize query) l g with
        | (Err _, w2) => (Ok (HTMLResponse "Internal Server Error." 503), w2)
        | (Ok (llm_response, fut), w2) =>
            (Ok (StreamingResponse (StreamAndUpload l llm_response fut uuid)
                   (Some "text/html")), w2)
        end
    end.
Proof.
  intros Hb. unfold live_generation. fold (normalize query).
  destruct (backend self); [congruence| |];
    (destruct (search_function self (normalize query)) as [[|l]|e]; reflexivity).
Qed.

(** X11: when the search function raises, the handler raises the same
    exception; the store was read and the search called, and nothing else:
    no completion call, no related-questions task, no [put]. *)
Theorem search_failure_reaches_caller
    (self : RAG) (w : world) (query uuid : string)
    (generate_related_questions : option bool) (e0 e : exn) :
  uuid <> "" ->
  kv_get self w uuid = Err e0 ->
  backend self <> LEPTON ->
  search_function self (normalize query) = Err e ->
  query_function self w query (Some uuid) generate_related_questions
  = (Err e, mkWorld (kv w) (trace w ++ [KvGet uuid; Search (normalize query)])).
Proof.
  intros Hu Hg Hb Hs.
  rewrite (query_function_miss _ _ _ _ _ _ _ _ Hu Hg).
  rewrite (live_generation_search_result _ _ _ _ _ Hb), Hs.
  unfold record. simpl. rewrite <- app_assoc. reflexivity.
Qed.

(** X12: on the SearchAPI backend a well-formed body without related
    questions makes the handler raise [TypeError]: the adapter returns
    [None], which [enumerate] rejects, before any completion call. *)
Theorem searchapi_without_related_questions_breaks_handler
    (self : RAG) (w : world) (query uuid : string)
    (generate_related_questions : option bool) (e0 : exn)
    (requests_get : http_request -> result http_response) (key : string)
    (response : http_response) (fields : list (string * json))
    (c1 c2 c3 : list context) (items : list json) :
  uuid <> "" ->
  kv_get self w uuid = Err e0 ->
  backend self = SEARCHAPI ->
  search_function self (normalize query)
  = searchapi_search_function requests_get key (normalize query) ->
  requests_get (searchapi_request (normalize query) key) = Ok response ->
  ok response = true ->
  json_body response = Some (JObj fields) ->
  SearchApi.answer_box (JObj fields) = Ok c1 ->
  SearchApi.knowledge_graph (JObj fields) = Ok c2 ->
  assoc "organic_results" fields = Some (JArr items) ->
  mapM SearchApi.organic_entry items = Ok c3 ->
  assoc "related_questions" fields = None ->
  query_function self w query (Some uuid) generate_related_questions
  = (Err TypeError,
     mkWorld (kv w) (trace w ++ [KvGet uuid; Search (normalize query)])).
Proof.
  intros Hu Hg Hb Hs Hr Hok Hj H1 H2 Ho H3 Hq.
  assert (Hl : backend self <> LEPTON) by (rewrite Hb; discriminate).
  rewrite (query_function_miss _ _ _ _ _ _ _ _ Hu Hg).
  rewrite (live_generation_search_result _ _ _ _ _ Hl), Hs.
  unfold searchapi_search_function.
  rewrite (search_with_searchapi_response _ _ _ _ Hr).
  rewrite (searchapi_returns_None response fields c1 c2 items c3 Hok Hj H1 H2 Ho H3 Hq).
  unfold record. simpl. rewrite <- app_assoc. reflexivity.
Qed.

(** X13: on the Serper backend a body whose first organic result has a title
    and a link makes the handler raise [TypeError], before any completion
    call. *)
Theorem serper_organic_result_breaks_handler
    (self : RAG) (w : world) (query uuid : string)
    (generate_related_questions : option bool) (e0 : exn)
    (requests_post : http_request -> result http_response) (key : string)
    (response : http_response) (fields entry : list (string * json))
    (c1 c2 : list context) (rest : list json) (title link : json) :
  uuid <> "" ->
  kv_get self w uuid = Err e0 ->
  backend self = SERPER ->
  search_function self (normalize query)
  = serper_search_function requests_post key (normalize query) ->
  requests_post (serper_request (normalize query) key) = Ok response ->
  ok response = true ->
  json_body response = Some (JObj fields) ->
  Serper.knowledge_graph (JObj fields) = Ok c1 ->
  Serper.answer_box (JObj fields) = Ok c2 ->
  assoc "organic" fields = Some (JArr (JObj entry :: rest)) ->
  assoc "title" entry = Some title ->
  assoc "link" entry = Some link ->
  query_function self w query (Some uuid) generate_related_questions
  = (Err TypeError,
     mkWorld (kv w) (trace w ++ [KvGet uuid; Search (normalize query)])).
Proof.
  intros Hu Hg Hb Hs Hr Hok Hj H1 H2 Ho Ht Hk.
  assert (Hl : backend self <> LEPTON) by (rewrite Hb; discriminate).
  rewrite (query_function_miss _ _ _ _ _ _ _ _ Hu Hg).
  rewrite (live_generation_search_result _ _ _ _ _ Hl), Hs.
  unfold serper_search_function.
  rewrite (search_with_serper_response _ _ _ _ Hr).
  rewrite (serper_raises_on_organic response fields c1 c2 entry rest title link
             Hok Hj H1 H2 Ho Ht Hk).
  unfold record. simpl. rewrite <- app_assoc. reflexivity.
Qed.

(** X14: when iterating the completion stream raises, the chunks yielded
    before it went out, the generator ends with that exception, and no
    [put] is submitted: the world is as it was when the reply was built. *)
Theorem failed_stream_is_not_stored
    (self : RAG) (w : world) (query uuid : string)
    (generate_related_questions : option bool) (contexts : list context)
    (llm_response : llm_stream) (e0 e : exn) :
  uuid <> "" ->
  kv_get self w uuid = Err e0 ->
  backend self <> LEPTON ->
  search_function self (normalize query) = Ok (RList contexts) ->
  local_client self = Ok tt ->
  chat_completions_create_stream self (system_prompt contexts) (normalize query)
  = Ok llm_response ->
  stream_fault llm_response = Some e ->
  (should_do_related_questions self && flag generate_related_questions = true ->
   executor_submit self = Ok tt) ->
  exists g w1,
    query_function self w query (Some uuid) generate_related_questions
    = (Ok (StreamingResponse g (Some "text/html")), w1)
    /\ consume self w1 g
       = ((contexts_segment json_dumps contexts ++ completion_segment llm_response,
           Some e), w1)
    /\ kv w1 = kv w.
Proof.
  intros Hu Hg Hb Hs Hc Hl Hf Hx.
  destruct (query_function_streams json_loads py_repr self w query uuid
              generate_related_questions contexts llm_response e0
              Hu Hg Hb Hs Hc Hl Hx) as (w1 & Hq & Hk & _).
  eexists _, w1. split; [exact Hq|]. split; [|exact Hk].
  simpl. rewrite stream_and_upload_to_kv_relays.
  unfold _raw_stream_response. rewrite Hf. reflexivity.
Qed.

(** X15: a live request whose stream is driven to its end calls, in this
    order and once each, the store's [get], the search, the streaming
    completion, the submission of the related-questions task when both
    flags are set, and the submission of the [put]. *)
Theorem live_request_trace
    (self : RAG) (w : world) (query uuid : string)
    (generate_related_questions : option bool) (contexts : list context)
    (llm_response : llm_stream) (e0 : exn) :
  uuid <> "" ->
  kv_get self w uuid = Err e0 ->
  backend self <> LEPTON ->
  search_function self (normalize query) = Ok (RList contexts) ->
  local_client self = Ok tt ->
  chat_completions_create_stream self (system_prompt contexts) (normalize query)
  = Ok llm_response ->
  stream_fault llm_response = None ->
  (should_do_related_questions self && flag generate_related_questions = true ->
   executor_submit self = Ok tt) ->
  exists g w1 chunks w2,
    query_function self w query (Some uuid) generate_related_questions
    = (Ok (StreamingResponse g (Some "text/html")), w1)
    /\ consume self w1 g = ((chunks, None), w2)
    /\ trace w2
       = trace w
         ++ [KvGet uuid; Search (normalize query);
             CompletionStream (system_prompt contexts) (normalize query)]
         ++ (if should_do_related_questions self && flag generate_related_questions
             then [RelatedSubmit (normalize query) contexts] else [])
         ++ [KvPut uuid (join "" chunks)].
Proof.
  intros Hu Hg Hb Hs Hc Hl Hf Hx.
  destruct (query_function_streams json_loads py_repr self w query uuid
              generate_related_questions contexts llm_response e0
              Hu Hg Hb Hs Hc Hl Hx) as (w1 & Hq & _ & Ht).
  eexists _, w1, _, _. split; [exact Hq|]. split.
  { simpl. rewrite stream_and_upload_to_kv_relays,
      (raw_stream_response_complete json_dumps json_loads _ _ _ _ _ Hf).
    reflexivity. }
  rewrite submit_kv_put_trace, Ht. unfold setup_events.
  rewrite <- !app_assoc. reflexivity.
Qed.

Lemma start_completion_kv self w sp query l g :
  kv (snd (start_completion self w sp query l g)) = kv w.
Proof.
  unfold start_completion.
  destruct (local_client self); [|reflexivity].
  destruct (chat_completions_create_stream self sp query); [|reflexivity].
  destruct (should_do_related_questions self && flag g); [|reflexivity].
  destruct (executor_submit self); reflexivity.
Qed.

Lemma live_generation_kv self w query uuid g :
  kv (snd (live_generation self w query uuid g)) = kv w.
Proof.
  unfold live_generation. destruct (backend self).
  - destruct (leptonsearch_client_response self query uuid g); reflexivity.
  - destruct (search_function self _) as [c|]; [|reflexivity].
    destruct (system_prompt_of py_repr c) as [sp|]; [|reflexivity].
    match goal with
    | |- context [start_completion ?s ?w0 ?p ?q ?l ?f] =>
        pose proof (start_completion_kv s w0 p q l f) as Hk;
        destruct (start_completion s w0 p q l f) as [[[llm fut]|e] w2]
    end; exact Hk.
  - destruct (search_function self _) as [c|]; [|reflexivity].
    destruct (system_prompt_of py_repr c) as [sp|]; [|reflexivity].
    match goal with
    | |- context [start_completion ?s ?w0 ?p ?q ?l ?f] =>
        pose proof (start_completion_kv s w0 p q l f) as Hk;
        destruct (start_completion s w0 p q l f) as [[[llm fut]|e] w2]
    end; exact Hk.
Qed.

Lemma live_generation_generator self w query uuid g gen mt w1 :
  live_generation self w query uuid g = (Ok (StreamingResponse gen mt), w1) ->
  (exists chunks, gen = LeptonStream chunks)
  \/ (exists l llm fut, gen = StreamAndUpload l llm fut uuid).
Proof.
  unfold live_generation. destruct (backend self).
  - destruct (leptonsearch_client_response self query uuid g);
      intros [= <- _ _]; eauto.
  - destruct (search_function self _) as [c|]; [|discriminate].
    destruct (system_prompt_of py_repr c) as [sp|]; [|discriminate].
    match goal with
    | |- context [start_completion ?s ?w0 ?p ?q ?l ?f] =>
        destruct (start_completion s w0 p q l f) as [[[llm fut]|e] w2]
    end; [|discriminate]. intros [= <- _ _]. right. eauto.
  - destruct (search_function self _) as [c|]; [|discriminate].
    destruct (system_prompt_of py_repr c) as [sp|]; [|discriminate].
    match goal with
    | |- context [start_completion ?s ?w0 ?p ?q ?l ?f] =>
        destruct (start_completion s w0 p q l f) as [[[llm fut]|e] w2]
    end; [|discriminate]. intros [= <- _ _]. right. eauto.
Qed.

(** X16: the handler never writes to the store, and driving the stream of
    its reply, by any service object, changes the store at most under the
    request's own [search_uuid]. *)
Theorem request_writes_only_its_key
    (self : RAG) (w : world) (query uuid : string)
    (generate_related_questions : option bool) :
  kv (snd (query_function self w query (Some uuid) generate_related_questions))
  = kv w
  /\ (forall gen mt w1,
        query_function self w query (Some uuid) generate_related_questions
        = (Ok (StreamingResponse gen mt), w1) ->
        forall (self' : RAG) (k : string),
          k <> uuid -> kv (snd (consume self' w1 gen)) !! k = kv w !! k).
Proof.
  assert (Hkv : kv (snd (query_function self w query (Some uuid)
                           generate_related_questions)) = kv w).
  { unfold query_function. destruct (provided (Some uuid)) as [u|]; [|reflexivity].
    destruct (kv_get self w u) as [v|[]]; try reflexivity;
      (rewrite live_generation_kv; reflexivity). }
  split; [exact Hkv|].
  intros gen mt w1 Hq self' k Hk.
  rewrite Hq in Hkv. simpl in Hkv. rewrite <- Hkv.
  assert (Hgen : (exists v, gen = StrToGenerator v)
                 \/ (exists chunks, gen = LeptonStream chunks)
                 \/ (exists l llm fut, gen = StreamAndUpload l llm fut uuid)).
  { unfold query_function, provided in Hq.
    destruct (String.eqb uuid ""); [discriminate|].
    destruct (kv_get self w uuid) as [v|e].
    - inversion Hq. eauto.
    - right.
      assert (Hlive : live_generation self (record w (KvGet uuid)) query uuid
                        generate_related_questions
                      = (Ok (StreamingResponse gen mt), w1))
        by (destruct e; exact Hq).
      exact (live_generation_generator _ _ _ _ _ _ _ _ Hlive). }
  destruct Hgen as [(v & ->) | [(chunks & ->) | (l & llm & fut & ->)]];
    try reflexivity.
  simpl. rewrite stream_and_upload_to_kv_relays.
  destruct (_raw_stream_response json_dumps l llm fut) as [ys [e|]];
    [reflexivity|].
  simpl. unfold submit_kv_put.
  destruct (kv_put_fault self' uuid); [reflexivity|].
  simpl. apply lookup_insert_ne. congruence.
Qed.

Lemma join_empty_cons (x : string) (l : list string) :
  join "" (x :: l) = (x ++ join "" l)%string.
Proof.
  destruct l as [|y l]; [symmetry; apply string_app_nil_r | reflexivity].
Qed.

Lemma join_empty_app (l1 l2 : list string) :
  join "" (l1 ++ l2) = (join "" l1 ++ join "" l2)%string.
Proof.
  induction l1 as [|x l1 IH]; [reflexivity|].
  change ((x :: l1) ++ l2) with (x :: (l1 ++ l2)).
  rewrite !join_empty_cons, IH, string_app_assoc. reflexivity.
Qed.

(** X17: what a completed live request hands to the store is the envelope
    text: the JSON of the list of contexts (each an object with its name,
    url and snippet), the completion sentinel, the notice when there is no
    context, the completion text (for every chunk with a choice, in order,
    the content of its first choice, nothing for [None]) and, when both
    flags are set, the related-questions sentinel and the JSON of what
    [get_related_questions] returned for the normalized query and the
    contexts; a store that accepts the [put] then holds this text under the
    [search_uuid]. *)
Theorem stored_envelope_text
    (self : RAG) (w : world) (query uuid : string)
    (generate_related_questions : option bool) (contexts : list context)
    (llm_response : llm_stream) (e0 : exn) :
  uuid <> "" ->
  kv_get self w uuid = Err e0 ->
  backend self <> LEPTON ->
  search_function self (normalize query) = Ok (RList contexts) ->
  local_client self = Ok tt ->
  chat_completions_create_stream self (system_prompt contexts) (normalize query)
  = Ok llm_response ->
  stream_fault llm_response = None ->
  (should_do_related_questions self && flag generate_related_questions = true ->
   executor_submit self = Ok tt) ->
  exists g w1 chunks w2 related_questions,
    query_function self w query (Some uuid) generate_related_questions
    = (Ok (StreamingResponse g (Some "text/html")), w1)
    /\ consume self w1 g = ((chunks, None), w2)
    /\ get_related_questions json_loads self (normalize query) contexts
       = Ok related_questions
    /\ join "" chunks
       = (json_dumps
            (JArr (map (fun c : context =>
                          JObj [("name", name c); ("url", url c);
                                ("snippet", snippet c)])
                     contexts))
          ++ LLM_RESPONSE_SENTINEL
          ++ match contexts with [] => NO_CONTEXT_NOTICE | _ :: _ => "" end
          ++ join ""
               (flat_map
                  (fun c : chunk =>
                     match choices c with
                     | [] => []
                     | first :: _ =>
                         [match delta_content first with
                          | Some text => text
                          | None => ""
                          end]
                     end)
                  (stream_chunks llm_response))
          ++ (if should_do_related_questions self
                 && flag generate_related_questions
              then RELATED_QUESTIONS_SENTINEL ++ json_dumps related_questions
              else ""))%string
    /\ (kv_put_fault self uuid = None -> kv w2 !! uuid = Some (join "" chunks)).
Proof.
  intros Hu Hg Hb Hs Hc Hl Hf Hx.
  destruct (query_function_streams json_loads py_repr self w query uuid
              generate_related_questions contexts llm_response e0
              Hu Hg Hb Hs Hc Hl Hx) as (w1 & Hq & _ & _).
  destruct (get_related_questions_returns json_loads self (normalize query)
              contexts) as (rq & Hrq & _).
  set (fut := related_future self (normalize query) contexts
                generate_related_questions) in *.
  eexists _, w1, _, _, rq. split; [exact Hq|]. split.
  { simpl. subst fut.
    rewrite stream_and_upload_to_kv_relays,
      (raw_stream_response_complete json_dumps json_loads _ _ _ _ _ Hf).
    reflexivity. }
  split; [exact Hrq|]. split.
  - unfold contexts_segment, related_segment, related_future.
    rewrite completion_segment_texts, Hrq, !join_empty_app.
    change (join "" [json_dumps (contexts_json contexts); LLM_RESPONSE_SENTINEL])
      with (json_dumps (contexts_json contexts) ++ LLM_RESPONSE_SENTINEL)%string.
    rewrite !string_app_assoc. unfold contexts_json, context_json.
    f_equal. f_equal.
    assert (Hn : join "" match contexts with
                         | [] => [NO_CONTEXT_NOTICE]
                         | _ :: _ => []
                         end
                 = match contexts with [] => NO_CONTEXT_NOTICE | _ :: _ => "" end)
      by (destruct contexts; reflexivity).
    rewrite Hn. f_equal. f_equal.
    destruct (should_do_related_questions self && flag generate_related_questions);
      reflexivity.
  - intros Hp. rewrite (submit_kv_put_lookup _ _ _ _ Hp). reflexivity.
Qed.

(** X18: on the LEPTON backend a request that misses the store is handed to
    the Lepton search client with the query as received (no default query,
    no marker removal); the reply streams what the client returned, under
    the media type [text\html], and neither calling the handler nor driving
    the stream calls the search or the completion or writes to the store. *)
Theorem lepton_backend_delegates
    (self : RAG) (w : world) (query uuid : string)
    (generate_related_questions : option bool) (chunks : list string)
    (e0 : exn) :
  uuid <> "" ->
  kv_get self w uuid = Err e0 ->
  backend self = LEPTON ->
  leptonsearch_client_response self query uuid generate_related_questions
  = Ok chunks ->
  let w1 := mkWorld (kv w) (trace w ++ [KvGet uuid; LeptonSearch query uuid]) in
  query_function self w query (Some uuid) generate_related_questions
  = (Ok (StreamingResponse (LeptonStream chunks) (Some "text\html")), w1)
  /\ consume self w1 (LeptonStream chunks) = ((chunks, None), w1).
Proof.
  intros Hu Hg Hb Hr w1.
  rewrite (query_function_miss _ _ _ _ _ _ _ _ Hu Hg).
  unfold live_generation. rewrite Hb, Hr. unfold record, w1. simpl.
  rewrite <- app_assoc. split; reflexivity.
Qed.

End MoreHandlerProperties.

(** ** The further handler properties on the scenario *)

Lemma search_failure_reaches_caller_witness :
  Scenario.handle Failing.search_down Scenario.start "" (Some "abc123") (Some true)
  = (Err (HTTPException 503 "Search engine error."),
     mkWorld (kv Scenario.start)
       (trace Scenario.start ++ [KvGet "abc123"; Search (normalize "")])).
Proof.
  apply (search_failure_reaches_caller Scenario.loads Json.repr
           Failing.search_down Scenario.start "" "abc123" (Some true)
           (KeyError "abc123")).
  - discriminate.
  - reflexivity.
  - discriminate.
  - reflexivity.
Defined.

Lemma searchapi_without_related_questions_witness :
  Scenario.handle Failing.searchapi_plain Scenario.start "" (Some "abc123")
    (Some true)
  = (Err TypeError,
     mkWorld (kv Scenario.start)
       (trace Scenario.start ++ [KvGet "abc123"; Search (normalize "")])).
Proof.
  eapply (searchapi_without_related_questions_breaks_handler Scenario.loads
            Json.repr Failing.searchapi_plain Scenario.start "" "abc123"
            (Some true) (KeyError "abc123") (answers searchapi_one_result) "key"
            (mkResponse true 200 "" (Some searchapi_one_result))).
  - discriminate.
  - reflexivity.
  - reflexivity.
  - reflexivity.
  - reflexivity.
  - reflexivity.
  - reflexivity.
  - reflexivity.
  - reflexivity.
  - reflexivity.
  - reflexivity.
  - reflexivity.
Defined.

Lemma serper_organic_result_witness :
  Scenario.handle Failing.serper_plain Scenario.start "" (Some "abc123")
    (Some true)
  = (Err TypeError,
     mkWorld (kv Scenario.start)
       (trace Scenario.start ++ [KvGet "abc123"; Search (normalize "")])).
Proof.
  eapply (serper_organic_result_breaks_handler Scenario.loads
            Json.repr Failing.serper_plain Scenario.start "" "abc123"
            (Some true) (KeyError "abc123") (answers serper_one_result) "key"
            (mkResponse true 200 "" (Some serper_one_result))).
  - discriminate.
  - reflexivity.
  - reflexivity.
  - reflexivity.
  - reflexivity.
  - reflexivity.
  - reflexivity.
  - reflexivity.
  - reflexivity.
  - reflexivity.
  - reflexivity.
  - reflexivity.
Defined.

Lemma failed_stream_is_not_stored_witness :
  exists g w1,
    Scenario.handle Failing.stream_breaks Scenario.start "" (Some "abc123")
      (Some true)
    = (Ok (StreamingResponse g (Some "text/html")), w1)
    /\ consume Json.dumps Failing.stream_breaks w1 g
       = ((contexts_segment Json.dumps Scenario.contexts
             ++ completion_segment Failing.broken_answer,
           Some ConnectionError), w1)
    /\ kv w1 = kv Scenario.start.
Proof.
  apply (failed_stream_is_not_stored Json.dumps Scenario.loads Json.repr
           Failing.stream_breaks Scenario.start "" "abc123" (Some true)
           Scenario.contexts Failing.broken_answer (KeyError "abc123")
           ConnectionError).
  - discriminate.
  - reflexivity.
  - discriminate.
  - reflexivity.
  - reflexivity.
  - reflexivity.
  - reflexivity.
  - reflexivity.
Defined.

Lemma live_request_trace_witness :
  exists g w1 chunks w2,
    Scenario.handle Scenario.self Scenario.start "" (Some "abc123") (Some true)
    = (Ok (StreamingResponse g (Some "text/html")), w1)
    /\ consume Json.dumps Scenario.self w1 g = ((chunks, None), w2)
    /\ trace w2
       = trace Scenario.start
         ++ [KvGet "abc123"; Search (normalize "");
             CompletionStream (system_prompt Json.repr Scenario.contexts)
               (normalize "")]
         ++ (if should_do_related_questions Scenario.self && flag (Some true)
             then [RelatedSubmit (normalize "") Scenario.contexts] else [])
         ++ [KvPut "abc123" (join "" chunks)].
Proof.
  apply (live_request_trace Json.dumps Scenario.loads Json.repr
           Scenario.self Scenario.start "" "abc123" (Some true)
           Scenario.contexts Scenario.answer (KeyError "abc123")).
  - discriminate.
  - reflexivity.
  - discriminate.
  - reflexivity.
  - reflexivity.
  - reflexivity.
  - reflexivity.
  - reflexivity.
Defined.

Lemma stored_envelope_text_witness :
  exists g w1 chunks w2,
    Scenario.handle Scenario.self Scenario.start "" (Some "abc123") (Some true)
    = (Ok (StreamingResponse g (Some "text/html")), w1)
    /\ consume Json.dumps Scenario.self w1 g = ((chunks, None), w2)
    /\ join "" chunks
       = (Json.dumps
            (JArr [JObj [("name", JStr "Sheldon Cooper");
                         ("url", JStr "https://example.org/sheldon");
                         ("snippet", JStr "Sheldon Cooper idolizes Spock.")];
                   JObj [("name", JStr "Spock");
                         ("url", JStr "https://example.org/spock");
                         ("snippet", JStr "Spock is Sheldon's idol.")];
                   JObj [("name", JStr "The Big Bang Theory");
                         ("url", JStr "https://example.org/tbbt");
                         ("snippet", JStr "")];
                   JObj [("name", JStr "Who plays Sheldon?");
                         ("url", JStr "https://example.org/jim");
                         ("snippet", JStr "Jim Parsons.")]])
          ++ "
___LLM_RESPONSE___
"
          ++ "Sheldon Cooper [citation:1]"
          ++ "

__RELATED_QUESTIONS__

"
          ++ Json.dumps (JArr [JStr "Who plays Sheldon Cooper?";
                               JStr "Who plays Spock in Star Trek?"]))%string
    /\ kv w2 !! "abc123" = Some (join "" chunks).
Proof.
  destruct (stored_envelope_text Json.dumps Scenario.loads Json.repr
              Scenario.self Scenario.start "" "abc123" (Some true)
              Scenario.contexts Scenario.answer (KeyError "abc123"))
    as (g & w1 & chunks & w2 & rq & Hq & Hc & Hr & Ht & Hk).
  - discriminate.
  - reflexivity.
  - discriminate.
  - reflexivity.
  - reflexivity.
  - reflexivity.
  - reflexivity.
  - reflexivity.
  - exists g, w1, chunks, w2.
    assert (Hrq : rq = JArr [JStr "Who plays Sheldon Cooper?";
                             JStr "Who plays Spock in Star Trek?"])
      by (vm_compute in Hr; congruence).
    subst rq.
    split; [exact Hq|]. split; [exact Hc|]. split; [|apply Hk; reflexivity].
    rewrite Ht. vm_compute. reflexivity.
Defined.

Lemma lepton_backend_delegates_witness :
  Scenario.handle Failing.lepton Scenario.start "[INST]" (Some "abc123") (Some true)
  = (Ok (StreamingResponse
           (LeptonStream ["[]"; LLM_RESPONSE_SENTINEL; "Sheldon"])
           (Some "text\html")),
     mkWorld (kv Scenario.start)
       (trace Scenario.start ++ [KvGet "abc123"; LeptonSearch "[INST]" "abc123"]))
  /\ consume Json.dumps Failing.lepton
       (mkWorld (kv Scenario.start)
          (trace Scenario.start ++ [KvGet "abc123"; LeptonSearch "[INST]" "abc123"]))
       (LeptonStream ["[]"; LLM_RESPONSE_SENTINEL; "Sheldon"])
     = ((["[]"; LLM_RESPONSE_SENTINEL; "Sheldon"], None),
        mkWorld (kv Scenario.start)
          (trace Scenario.start
             ++ [KvGet "abc123"; LeptonSearch "[INST]" "abc123"])).
Proof.
  apply (lepton_backend_delegates Json.dumps Scenario.loads Json.repr
           Failing.lepton Scenario.start "[INST]" "abc123" (Some true)
           ["[]"; LLM_RESPONSE_SENTINEL; "Sheldon"] (KeyError "abc123")).
  - discriminate.
  - reflexivity.
  - reflexivity.
  - reflexivity.
Defined.

(** ** The related questions that come back *)

Lemma join_values_strings (sep : string) (strs : list string) :
  join_values sep (map JStr strs) = Ok (join sep strs).
Proof.
  unfold join_values.
  assert (H : mapM (fun v => match v with JStr s => Ok s | _ => Err TypeError end)
                (map JStr strs) = Ok strs).
  { induction strs as [|x l IH]; simpl; [reflexivity | rewrite IH; reflexivity]. }
  rewrite H. reflexivity.
Qed.

(** X19: when the completion answers with a tool call whose payload is the
    JSON text of an object with a list under [questions],
    [get_related_questions] returns the first five entries of that list. *)
Theorem get_related_questions_first_five
    (json_loads : string -> result json) (self : RAG) (query : string)
    (contexts : list context) (snippets : list string)
    (completion : chat_completion) (payload : string)
    (rest1 : list tool_call) (rest2 : list message)
    (fields : list (string * json)) (questions : list json) :
  local_client self = Ok tt ->
  map snippet contexts = map JStr snippets ->
  chat_completions_create_tools self
    (format _more_questions_prompt (join (nl ++ nl) snippets)) query
  = Ok completion ->
  message_choices completion
  = mkMessage (Some (mkToolCall (JStr payload) :: rest1)) :: rest2 ->
  json_loads payload = Ok (JObj fields) ->
  assoc "questions" fields = Some (JArr questions) ->
  get_related_questions json_loads self query contexts
  = Ok (JArr (firstn 5 questions)).
Proof.
  intros Hc Hs Hr Hm Hl Hq.
  unfold get_related_questions, related_questions_body.
  rewrite Hc, Hs, join_values_strings. cbn [bind]. rewrite Hr. cbn [bind].
  rewrite Hm. cbn [bind index0 tool_calls arguments]. rewrite Hl.
  cbn [bind py_getitem]. rewrite Hq. reflexivity.
Qed.

Lemma get_related_questions_first_five_witness :
  get_related_questions Scenario.loads Scenario.self (normalize "") Scenario.contexts
  = Ok (JArr (firstn 5 [JStr "Who plays Sheldon Cooper?";
                        JStr "Who plays Spock in Star Trek?"])).
Proof.
  eapply (get_related_questions_first_five Scenario.loads Scenario.self
            (normalize "") Scenario.contexts
            ["Sheldon Cooper idolizes Spock."; "Spock is Sheldon's idol."; "";
             "Jim Parsons."]).
  - reflexivity.
  - reflexivity.
  - reflexivity.
  - reflexivity.
  - reflexivity.
  - reflexivity.
Defined.

Lemma join_values_not_string (sep : string) (items : list json) (v : json) :
  In v items -> (forall s, v <> JStr s) ->
  join_values sep items = Err TypeError.
Proof.
  intros Hin Hv. unfold join_values.
  assert (H : mapM (fun v => match v with JStr s => Ok s | _ => Err TypeError end)
                items = Err TypeError).
  { induction items as [|x l IH]; [contradiction|]. simpl.
    destruct Hin as [-> | Hin].
    - destruct v; try reflexivity. exfalso. eapply Hv; reflexivity.
    - rewrite (IH Hin). destruct x; reflexivity. }
  rewrite H. reflexivity.
Qed.

(** X20: when the snippet of some context is not a string (a [null] or a
    number in the provider's JSON), joining the snippets raises inside the
    [try] and [get_related_questions] returns the empty list, whatever the
    completion provider would answer. *)
Theorem get_related_questions_needs_string_snippets
    (json_loads : string -> result json) (self : RAG) (query : string)
    (contexts : list context) (c : context) :
  In c contexts ->
  (forall s, snippet c <> JStr s) ->
  get_related_questions json_loads self query contexts = Ok (JArr []).
Proof.
  intros Hin Hc. unfold get_related_questions, related_questions_body.
  destruct (local_client self); [|reflexivity]. cbn [bind].
  rewrite (join_values_not_string _ _ (snippet c)); [reflexivity| |exact Hc].
  apply in_map. exact Hin.
Qed.

Lemma get_related_questions_needs_string_snippets_witness :
  get_related_questions Scenario.loads Scenario.self "spock"
    [mkContext (JStr "Spock") (JStr "https://example.org/spock") JNull]
  = Ok (JArr []).
Proof.
  apply (get_related_questions_needs_string_snippets Scenario.loads Scenario.self
           "spock" _ (mkContext (JStr "Spock") (JStr "https://example.org/spock") JNull)).
  - left. reflexivity.
  - discriminate.
Defined.

(** ** init *)

Lemma init_backend_cases p environ name b key :
  init_backend p environ name = Ok (b, key) ->
  (name = "LEPTON" /\ b = LEPTON /\ key = None)
  \/ (name = "SERPER" /\ b = SERPER
      /\ exists k, environ !! "SERPER_API_KEY" = Some k /\ key = Some k)
  \/ (name = "SEARCHAPI" /\ b = SEARCHAPI
      /\ exists k, environ !! "SEARCHAPI_API_KEY" = Some k /\ key = Some k).
Proof.
  unfold init_backend, environ_getitem.
  destruct (String.eqb name "LEPTON") eqn:E1.
  { apply String.eqb_eq in E1. intros H.
    apply bind_Ok in H. destruct H as (? & _ & H).
    apply bind_Ok in H. destruct H as (? & _ & H). inversion H. auto. }
  destruct (String.eqb name "SERPER") eqn:E2.
  { apply String.eqb_eq in E2.
    destruct (environ !! "SERPER_API_KEY") as [k|]; simpl; [|discriminate].
    intros [= <- <-]. right. left. eauto. }
  destruct (String.eqb name "SEARCHAPI") eqn:E3; [|discriminate].
  apply String.eqb_eq in E3.
  destruct (environ !! "SEARCHAPI_API_KEY") as [k|]; simpl; [|discriminate].
  intros [= <- <-]. right. right. eauto.
Qed.

(** X21: when [init] succeeds, the upper-case form of the backend the
    environment named is LEPTON, SERPER or SEARCHAPI, it held the model, the store
    name and the related-questions switch, and for SERPER and SEARCHAPI the
    API key under [SERPER_API_KEY] and [SEARCHAPI_API_KEY]; the settings
    carry these values. *)
Theorem init_reads_environment
    (str_upper : string -> string) (p : platform)
    (environ : gmap string string) (s : settings) :
  init str_upper p environ = Ok s ->
  exists name related,
    environ !! "BACKEND" = Some name
    /\ environ !! "LLM_MODEL" = Some (set_model s)
    /\ environ !! "KV_NAME" = Some (set_kv_name s)
    /\ environ !! "RELATED_QUESTIONS" = Some related
    /\ to_bool p related = Ok (set_should_do_related_questions s)
    /\ set_max_workers s = handler_max_concurrency p * 2
    /\ ((str_upper name = "LEPTON" /\ set_backend s = LEPTON
         /\ set_search_api_key s = None)
        \/ (str_upper name = "SERPER" /\ set_backend s = SERPER
            /\ exists k, environ !! "SERPER_API_KEY" = Some k
                         /\ set_search_api_key s = Some k)
        \/ (str_upper name = "SEARCHAPI" /\ set_backend s = SEARCHAPI
            /\ exists k, environ !! "SEARCHAPI_API_KEY" = Some k
                         /\ set_search_api_key s = Some k)).
Proof.
  unfold init, environ_getitem. intros H.
  apply bind_Ok in H. destruct H as (? & _ & H).
  destruct (environ !! "BACKEND") as [name|]; simpl in H; [|discriminate].
  apply bind_Ok in H. destruct H as ([b key] & Hb & H).
  destruct (environ !! "LLM_MODEL") as [model|]; simpl in H; [|discriminate].
  apply bind_Ok in H. destruct H as (? & _ & H).
  destruct (environ !! "KV_NAME") as [kvn|]; simpl in H; [|discriminate].
  apply bind_Ok in H. destruct H as (? & _ & H).
  destruct (environ !! "RELATED_QUESTIONS") as [related|]; simpl in H; [|discriminate].
  apply bind_Ok in H. destruct H as (should & Hs & H).
  injection H as <-. simpl.
  exists name, related. repeat (split; [reflexivity || exact Hs|]).
  exact (init_backend_cases _ _ _ _ _ Hb).
Qed.

(** X22: a backend name whose upper-case form is none of LEPTON, SERPER and
    SEARCHAPI makes [init] raise [RuntimeError] once the login went
    through. *)
Theorem init_rejects_unknown_backend
    (str_upper : string -> string) (p : platform)
    (environ : gmap string string) (name : string) :
  login p = Ok tt ->
  environ !! "BACKEND" = Some name ->
  str_upper name <> "LEPTON" -> str_upper name <> "SERPER" -> str_upper name <> "SEARCHAPI" ->
  init str_upper p environ = Err (RuntimeError "Backend must be LEPTON, SERPER or SEARCHAPI.").
Proof.
  intros Hl Hb H1 H2 H3. unfold init, environ_getitem, init_backend.
  rewrite Hl, Hb. cbn [bind].
  apply String.eqb_neq in H1, H2, H3. rewrite H1, H2, H3. reflexivity.
Qed.

(** X23: on the SERPER backend [init] reads the key from [SERPER_API_KEY],
    which [deployment_template] names neither as variable nor as secret: in
    an environment that sets only the names of the template, [init] on
    SERPER raises [KeyError]. *)
Theorem init_serper_key_not_in_template
    (str_upper : string -> string) (p : platform)
    (environ : gmap string string) (name : string) :
  login p = Ok tt ->
  environ !! "BACKEND" = Some name ->
  str_upper name = "SERPER" ->
  (forall k, is_Some (environ !! k) -> In k template_names) ->
  init str_upper p environ = Err (KeyError "SERPER_API_KEY").
Proof.
  intros Hl Hb Hu Honly. unfold init, init_backend, environ_getitem.
  rewrite Hl, Hb. cbn [bind]. rewrite Hu.
  change (String.eqb "SERPER" "LEPTON") with false.
  change (String.eqb "SERPER" "SERPER") with true. cbv iota.
  destruct (environ !! "SERPER_API_KEY") as [k|] eqn:E; [|reflexivity].
  exfalso. specialize (Honly "SERPER_API_KEY" (ex_intro _ k E)).
  unfold template_names, template_env, template_secret in Honly. simpl in Honly.
  repeat (destruct Honly as [Honly|Honly]; [discriminate Honly|]).
  exact Honly.
Qed.

Lemma init_reads_environment_witness :
  exists name related,
    Deploy.serper !! "BACKEND" = Some name
    /\ Deploy.serper !! "LLM_MODEL"
       = Some (set_model (mkSettings SERPER (Some "key") "mixtral-8x7B" 8
                            "search-with-lepton" true))
    /\ Deploy.serper !! "KV_NAME"
       = Some (set_kv_name (mkSettings SERPER (Some "key") "mixtral-8x7B" 8
                              "search-with-lepton" true))
    /\ Deploy.serper !! "RELATED_QUESTIONS" = Some related
    /\ to_bool Deploy.works related
       = Ok (set_should_do_related_questions
               (mkSettings SERPER (Some "key") "mixtral-8x7B" 8
                  "search-with-lepton" true))
    /\ set_max_workers (mkSettings SERPER (Some "key") "mixtral-8x7B" 8
                          "search-with-lepton" true)
       = handler_max_concurrency Deploy.works * 2
    /\ ((ascii_upper name = "LEPTON"
         /\ set_backend (mkSettings SERPER (Some "key") "mixtral-8x7B" 8
                           "search-with-lepton" true) = LEPTON
         /\ set_search_api_key (mkSettings SERPER (Some "key") "mixtral-8x7B" 8
                                  "search-with-lepton" true) = None)
        \/ (ascii_upper name = "SERPER"
            /\ set_backend (mkSettings SERPER (Some "key") "mixtral-8x7B" 8
                              "search-with-lepton" true) = SERPER
            /\ exists k, Deploy.serper !! "SERPER_API_KEY" = Some k
                         /\ set_search_api_key
                              (mkSettings SERPER (Some "key") "mixtral-8x7B" 8
                                 "search-with-lepton" true) = Some k)
        \/ (ascii_upper name = "SEARCHAPI"
            /\ set_backend (mkSettings SERPER (Some "key") "mixtral-8x7B" 8
                              "search-with-lepton" true) = SEARCHAPI
            /\ exists k, Deploy.serper !! "SEARCHAPI_API_KEY" = Some k
                         /\ set_search_api_key
                              (mkSettings SERPER (Some "key") "mixtral-8x7B" 8
                                 "search-with-lepton" true) = Some k)).
Proof.
  apply (init_reads_environment ascii_upper Deploy.works Deploy.serper
           (mkSettings SERPER (Some "key") "mixtral-8x7B" 8
              "search-with-lepton" true)).
  vm_compute. reflexivity.
Defined.

Lemma init_rejects_unknown_backend_witness :
  init ascii_upper Deploy.works Deploy.google
  = Err (RuntimeError "Backend must be LEPTON, SERPER or SEARCHAPI.").
Proof.
  apply (init_rejects_unknown_backend ascii_upper Deploy.works Deploy.google "google").
  - reflexivity.
  - vm_compute. reflexivity.
  - discriminate.
  - discriminate.
  - discriminate.
Defined.

Lemma template_serper_names (k : string) :
  is_Some (Deploy.template_serper !! k) -> In k template_names.
Proof.
  intros [v H]. unfold Deploy.template_serper in H.
  apply elem_of_list_to_map_2 in H. apply list_elem_of_In in H.
  simpl in H.
  repeat (destruct H as [H|H]; [injection H as <- _; simpl; tauto|]).
  contradiction.
Qed.

Lemma init_serper_key_not_in_template_witness :
  init ascii_upper Deploy.works Deploy.template_serper = Err (KeyError "SERPER_API_KEY").
Proof.
  apply (init_serper_key_not_in_template ascii_upper Deploy.works Deploy.template_serper
           "Serper").
  - reflexivity.
  - vm_compute. reflexivity.
  - reflexivity.
  - exact template_serper_names.
Defined.

(** ** More on the adapters and the store *)

(** X24: a related question of SearchAPI gives a context exactly when the
    link of its source and its answer are truthy; the name is the question
    or the empty string. *)
Theorem searchapi_related_entry_context (question : list (string * json)) :
  dict_or_falsy (get_default question "source" JNull) = true ->
  SearchApi.related_entry (JObj question)
  = Ok (let url := match get_default question "source" JNull with
                   | JObj src =>
                       if truthy (JObj src) then get_default src "link" (JStr "")
                       else JStr ""
                   | _ => JStr ""
                   end in
        let snippet := get_default question "answer" (JStr "") in
        if truthy url && truthy snippet
        then [mkContext (get_default question "question" (JStr "")) url snippet]
        else []).
Proof.
  intros Hs. unfold SearchApi.related_entry. rewrite !py_get_dict. cbn [bind].
  destruct (truthy (get_default question "source" JNull)) eqn:T.
  - destruct (py_get_dict_or_falsy _ "link" (JStr "") Hs T) as (src & E & _).
    rewrite E in *. rewrite T. cbn [bind]. rewrite ?py_get_dict. cbn [bind].
    rewrite ?py_get_dict. cbn [bind].
    match goal with |- context [if ?b then _ else _] => destruct b end;
      rewrite ?py_get_dict; reflexivity.
  - assert (E : match get_default question "source" JNull with
                | JObj src =>
                    if truthy (JObj src) then get_default src "link" (JStr "")
                    else JStr ""
                | _ => JStr ""
                end = JStr "").
    { destruct (get_default question "source" JNull); try reflexivity.
      rewrite T. reflexivity. }
    rewrite E. cbn [bind]. rewrite ?py_get_dict. cbn [bind].
    match goal with |- context [if ?b then _ else _] => destruct b end;
      rewrite ?py_get_dict; reflexivity.
Qed.

Lemma searchapi_related_entry_context_witness :
  SearchApi.related_entry
    (JObj [("question", JStr "Who plays Sheldon?"); ("answer", JStr "Jim Parsons.")])
  = Ok [].
Proof.
  apply (searchapi_related_entry_context
           [("question", JStr "Who plays Sheldon?"); ("answer", JStr "Jim Parsons.")]).
  reflexivity.
Defined.

Lemma format_more_questions_prompt (v : string) :
  format _more_questions_prompt v
  = (more_questions_head ++ v ++ more_questions_tail)%string.
Proof.
  unfold format, _more_questions_prompt.
  rewrite format_from_no_brace by reflexivity.
  change (format_from 0 ("{context}" ++ more_questions_tail) v)
    with (v ++ format_from 0 more_questions_tail v)%string.
  rewrite <- (string_app_nil_r more_questions_tail) at 1.
  rewrite format_from_no_brace by reflexivity.
  simpl format_from. rewrite string_app_nil_r. reflexivity.
Qed.

Section StoreProperties.

Variable json_dumps : json -> string.
Variable json_loads : string -> result json.
Variable py_repr : json -> string.

Local Abbreviation query_function := (query_function json_loads py_repr).
Local Abbreviation live_generation := (live_generation json_loads py_repr).
Local Abbreviation consume := (consume json_dumps).
Local Abbreviation system_prompt := (system_prompt py_repr).

(** X25: when the background [put] fails, the client has received the whole
    stream all the same and the store is unchanged, so the next request with
    the same [search_uuid] misses again and is generated anew. *)
Theorem failed_put_is_silent
    (self : RAG) (w : world) (query uuid : string)
    (generate_related_questions : option bool) (contexts : list context)
    (llm_response : llm_stream) (e : exn) :
  uuid <> "" ->
  kv_get_fault self uuid = None ->
  kv w !! uuid = None ->
  backend self <> LEPTON ->
  search_function self (normalize query) = Ok (RList contexts) ->
  local_client self = Ok tt ->
  chat_completions_create_stream self (system_prompt contexts) (normalize query)
  = Ok llm_response ->
  stream_fault llm_response = None ->
  (should_do_related_questions self && flag generate_related_questions = true ->
   executor_submit self = Ok tt) ->
  kv_put_fault self uuid = Some e ->
  exists g w1 chunks w2,
    query_function self w query (Some uuid) generate_related_questions
    = (Ok (StreamingResponse g (Some "text/html")), w1)
    /\ consume self w1 g = ((chunks, None), w2)
    /\ kv w2 = kv w
    /\ forall query' g',
         query_function self w2 query' (Some uuid) g'
         = live_generation self (record w2 (KvGet uuid)) query' uuid g'.
Proof.
  intros Hu Hgf Hk Hb Hs Hc Hl Hf Hx Hp.
  assert (Hg : kv_get self w uuid = Err (KeyError uuid)).
  { unfold kv_get. rewrite Hgf, Hk. reflexivity. }
  destruct (query_function_streams json_loads py_repr self w query uuid
              generate_related_questions contexts llm_response _
              Hu Hg Hb Hs Hc Hl Hx) as (w1 & Hq & Hk1 & _).
  eexists _, w1, _, _. split; [exact Hq|]. split.
  { simpl. rewrite stream_and_upload_to_kv_relays,
      (raw_stream_response_complete json_dumps json_loads _ _ _ _ _ Hf).
    reflexivity. }
  assert (Hkv : kv (submit_kv_put self w1 uuid
                      (join "" ((contexts_segment json_dumps contexts
                                   ++ completion_segment llm_response)
                                  ++ related_segment json_dumps
                                       (related_future json_loads self
                                          (normalize query) contexts
                                          generate_related_questions))))
                = kv w).
  { unfold submit_kv_put. rewrite Hp. exact Hk1. }
  split; [exact Hkv|].
  intros query' g'.
  apply (query_function_miss json_loads py_repr _ _ _ _ _ (KeyError uuid) Hu).
  unfold kv_get. rewrite Hgf, Hkv, Hk. reflexivity.
Qed.

End StoreProperties.

(** X26: the system prompt of the related-questions call is the fixed text
    around its context field, with the field replaced by the value. *)
Theorem more_questions_prompt_text (v : string) :
  format _more_questions_prompt v
  = (more_questions_head ++ v ++ more_questions_tail)%string
  /\ occurs v (format _more_questions_prompt v) = true.
Proof.
  split; [apply format_more_questions_prompt|].
  rewrite format_more_questions_prompt. apply occurs_app.
Qed.

Lemma failed_put_is_silent_witness :
  exists g w1 chunks w2,
    Scenario.handle Failing.put_fails Scenario.start "" (Some "abc123") (Some true)
    = (Ok (StreamingResponse g (Some "text/html")), w1)
    /\ consume Json.dumps Failing.put_fails w1 g = ((chunks, None), w2)
    /\ kv w2 = kv Scenario.start
    /\ forall query' g',
         query_function Scenario.loads Json.repr Failing.put_fails w2 query'
           (Some "abc123") g'
         = live_generation Scenario.loads Json.repr Failing.put_fails
             (record w2 (KvGet "abc123")) query' "abc123" g'.
Proof.
  apply (failed_put_is_silent Json.dumps Scenario.loads Json.repr
           Failing.put_fails Scenario.start "" "abc123" (Some true)
           Scenario.contexts Scenario.answer Timeout).
  - discriminate.
  - reflexivity.
  - reflexivity.
  - discriminate.
  - reflexivity.
  - reflexivity.
  - reflexivity.
  - reflexivity.
  - reflexivity.
  - reflexivity.
Defined.
